(** * Template document generator: a shallow embedding of [app/main.py]

    The service renders rent-receipt templates in two passes and stores
    the results in a three-level directory hierarchy.  This development
    embeds the request models with their validators, the date helper,
    the path construction and the handlers that generate and look up
    documents, together with the parts of the Python runtime they call
    ([str.isdigit], [int], [os.path.join], the file-system calls,
    [datetime.date], [calendar.monthrange] and the placeholder fragment
    of Jinja2), and proves the properties stated about them.  The two
    listing handlers follow the service.

    Conventions.
    - A Python [str] is a [string]; a character stands for the code
      point with the same number, so the strings covered are those over
      code points 0 to 255.
    - A Python [int] is a [Z].
    - A raised exception is the left injection of a sum. *)

From Stdlib Require Import ZArith Lia Bool Ascii.
From Stdlib Require Floats.PrimFloat.
From stdpp Require Import base option list strings.

Local Open Scope Z_scope.

(** ** Python builtins used by the program *)

Module Py.

Definition ord (c : ascii) : Z := Z.of_N (N_of_ascii c).

(** Characters '0' to '9': the decimal digits that [int] accepts among
    the code points below 256. *)
Definition is_decimal (c : ascii) : bool :=
  (48 <=? ord c) && (ord c <=? 57).

(** [str.isdigit] on one character.  Below code point 256 the digit
    characters are '0' to '9' and the superscripts two (178), three
    (179) and one (185). *)
Definition char_isdigit (c : ascii) : bool :=
  is_decimal c || (ord c =? 178) || (ord c =? 179) || (ord c =? 185).

Fixpoint all_chars (p : ascii -> bool) (s : string) : bool :=
  match s with
  | EmptyString => true
  | String c r => p c && all_chars p r
  end.

(** [s.isdigit()]: every character is a digit and there is at least
    one. *)
Definition isdigit (s : string) : bool :=
  match s with
  | EmptyString => false
  | _ => all_chars char_isdigit s
  end.

Definition digit_value (c : ascii) : Z := ord c - 48.

Fixpoint int_acc (acc : Z) (s : string) : Z :=
  match s with
  | EmptyString => acc
  | String c r => int_acc (10 * acc + digit_value c) r
  end.

(** [int(s)] for the strings that reach it in this program, namely
    those [isdigit] has accepted: the value in base ten when every
    character is one of '0' to '9', and [None] (a [ValueError]) when a
    character is a digit that is not decimal.  The signs, blanks and
    underscores that [int] also accepts never pass [isdigit]. *)
Definition int (s : string) : option Z :=
  match s with
  | EmptyString => None
  | _ => if all_chars is_decimal s then Some (int_acc 0 s) else None
  end.

(** [len(s)]. *)
Definition len (s : string) : Z := Z.of_nat (String.length s).

(** [s[:n]] and [s[n:]] for a non-negative literal [n]. *)
Definition slice_to (n : nat) (s : string) : string :=
  String.substring 0 n s.

Definition slice_from (n : nat) (s : string) : string :=
  String.substring n (String.length s - n) s.

Definition digit_char (d : Z) : ascii := ascii_of_N (Z.to_N (48 + d)).

(** Decimal digits of a natural number, most significant first; [fuel]
    bounds the number of digits. *)
Fixpoint digits (fuel : nat) (n : Z) (acc : string) : string :=
  match fuel with
  | O => acc
  | S f =>
      let acc' := String (digit_char (n mod 10)) acc in
      if n <? 10 then acc' else digits f (n / 10) acc'
  end.

Definition str_nonneg (n : Z) : string :=
  digits (S (Z.to_nat (Z.log2 n))) n EmptyString.

(** [str(n)] for an integer. *)
Definition str (n : Z) : string :=
  if n <? 0 then String "-" (str_nonneg (- n)) else str_nonneg n.

(** The format [{n:02d}]: at least two characters, padded with zeros
    on the left; a minus sign counts for one character. *)
Definition format_02d (n : Z) : string :=
  if (0 <=? n) && (n <? 10) then String "0" (str n) else str n.

(** What reading in text mode does to line endings: with the default
    [newline=None] of [open], the endings CR LF and CR come out as LF.
    Writing, on a POSIX system, leaves the text as it is. *)
Fixpoint universal_newlines (s : string) : string :=
  match s with
  | EmptyString => EmptyString
  | String c r =>
      if bool_decide (c = ascii_of_N 13) then
        match r with
        | String c' r' =>
            if bool_decide (c' = ascii_of_N 10)
            then String (ascii_of_N 10) (universal_newlines r')
            else String (ascii_of_N 10) (universal_newlines r)
        | EmptyString => String (ascii_of_N 10) EmptyString
        end
      else String c (universal_newlines r)
  end.

End Py.

(** ** Exceptions *)

(** The message literals of [app/main.py].  Each constructor stands for
    the text given beside it. *)
Inductive message :=
| MsgTenantFormat      (* Le numéro de locataire doit être au format MM/YYYY *)
| MsgTenantDigits      (* Le numéro de locataire doit contenir uniquement des chiffres *)
| MsgTenantMonth       (* Le mois doit être compris entre 01 et 12 *)
| MsgIntLiteral        (* invalid literal for int() with base 10 *)
| MsgDateRange         (* year, month or day is out of range *)
| MsgBaseNotFound      (* Template de base non trouvé *)
| MsgBaseRead          (* Erreur lors de la lecture du template de base : {e} *)
| MsgIntermediateRender (* Erreur lors du rendu du template intermédiaire : {e} *)
| MsgIntermediateWrite (* Erreur lors de l'écriture du template intermédiaire : {e} *)
| MsgMonthRange        (* Le mois doit être compris entre 1 et 12 *)
| MsgIntermediateNotFound (* Template intermédiaire non trouvé *)
| MsgIntermediateRead  (* Erreur lors de la lecture du template intermédiaire : {e} *)
| MsgFinalRender       (* Erreur lors du rendu du document final : {e} *)
| MsgFinalWrite        (* Erreur lors de l'écriture du document final : {e} *)
| MsgNotGenerated.     (* Document non généré *)

(** Exceptions of the Python runtime and of the libraries. *)
Inductive pyexn :=
| ValueError (msg : message)
| OverflowError
| IllegalMonthError (month : Z)
| OSError (path : string)
| TemplateError.

(** What a handler or a request model can raise.  [Uncaught] is a
    runtime exception that no [except] clause intercepts.
    [ValidationError] is what pydantic raises while it builds a request
    model, with the names of the fields it refused; the framework
    answers it with status 422.  [HTTPException] carries the status
    code, the message and, where the source formats the caught
    exception [e] into the message, that exception. *)
Inductive exn :=
| Uncaught (e : pyexn)
| ValidationError (fields : list string)
| HTTPException (status_code : Z) (detail : message) (cause : option pyexn).

Definition result (A : Type) : Type := exn + A.

(** ** Request models *)

(** The fields of a request model carry a prefix naming the model:
    [itr_] for [IntermediateTemplateRequest], [dr_] for
    [DocumentRequest], [adr_] for [AllDocumentsRequest]. *)
Record IntermediateTemplateRequest := {
  itr_base_template_name : string;
  itr_tenant_info : list string;
  itr_tenant_number : string;
  itr_address : list string;
  itr_amount : PrimFloat.float;
  itr_intermediate_template_name : string
}.

(** The validator of [tenant_number]. *)
Definition validate_tenant_number (v : string) : pyexn + string :=
  if negb (Py.len v =? 7) || negb (bool_decide (String.get 2 v = Some "/"%char))
  then inl (ValueError MsgTenantFormat)
  else
    let month := Py.slice_to 2 v in
    let year := Py.slice_from 3 v in
    if negb (Py.isdigit month && Py.isdigit year)
    then inl (ValueError MsgTenantDigits)
    else
      match Py.int month with
      | None => inl (ValueError MsgIntLiteral)
      | Some m =>
          if negb ((1 <=? m) && (m <=? 12))
          then inl (ValueError MsgTenantMonth)
          else inr v
      end.

(** Pydantic builds the model field by field: a list constrained with
    [min_items] and [max_items] is refused when its length is outside
    them, a field with a validator is refused when the validator
    raises.  The refusals are collected and raised together. *)
Definition check_items (field : string) (n : nat) (l : list string) : list string :=
  if bool_decide (length l = n) then [] else [field].

Definition check_validator {A} (field : string) (r : pyexn + A) : list string :=
  match r with inl _ => [field] | inr _ => [] end.

Definition IntermediateTemplateRequest_new
    (base : string) (info : list string) (number : string)
    (addr : list string) (amt : PrimFloat.float) (name : string)
  : result IntermediateTemplateRequest :=
  match check_items "tenant_info" 3 info
        ++ check_validator "tenant_number" (validate_tenant_number number)
        ++ check_items "address" 4 addr with
  | [] => inr {| itr_base_template_name := base; itr_tenant_info := info;
                 itr_tenant_number := number; itr_address := addr;
                 itr_amount := amt; itr_intermediate_template_name := name |}
  | refused => inl (ValidationError refused)
  end.

Record DocumentRequest := {
  dr_intermediate_template_name : string;
  dr_year : option Z;
  dr_month : option Z
}.

(** [month] is declared [Optional[int]] with [ge=1, le=12]: an absent
    month is accepted, a present one must lie within the bounds. *)
Definition check_month (m : option Z) : list string :=
  match m with
  | None => []
  | Some v => if (1 <=? v) && (v <=? 12) then [] else ["month"]
  end.

Definition DocumentRequest_new (name : string) (y m : option Z)
  : result DocumentRequest :=
  match check_month m with
  | [] => inr {| dr_intermediate_template_name := name; dr_year := y; dr_month := m |}
  | refused => inl (ValidationError refused)
  end.

Record AllDocumentsRequest := {
  adr_intermediate_template_name : string;
  adr_year : option Z
}.

(** ** Paths: [os.path.join] on a POSIX system *)

Module Posix.

Definition startswith_sep (s : string) : bool :=
  match s with
  | String "/" _ => true
  | _ => false
  end.

Fixpoint endswith_sep (s : string) : bool :=
  match s with
  | EmptyString => false
  | String c EmptyString => bool_decide (c = "/"%char)
  | String _ r => endswith_sep r
  end.

(** One step of [posixpath.join]: an absolute component replaces what
    came before it, any other is appended after a separator, which is
    left out when the path is empty or already ends with one. *)
Definition join2 (path b : string) : string :=
  if startswith_sep b then b
  else if bool_decide (path = "") || endswith_sep path then path +:+ b
  else path +:+ "/" +:+ b.

(** [os.path.join(a, *p)]. *)
Definition join (a : string) (p : list string) : string :=
  foldl join2 a p.

(** The components of a path: the pieces between separators.  A
    leading, trailing or doubled separator gives an empty component. *)
Fixpoint components (s : string) : list string :=
  match s with
  | EmptyString => [EmptyString]
  | String c r =>
      if bool_decide (c = "/"%char) then EmptyString :: components r
      else match components r with
           | x :: xs => String c x :: xs
           | [] => [String c EmptyString]
           end
  end.

End Posix.

(** ** The file system *)

(** A file-system object is a directory or a regular file with its
    text.  The store maps the location of every object, written as the
    list of names leading to it from the root, to the object; the root
    itself, the empty list, is always a directory.  There are no
    symbolic links, and the working directory is the root (every path
    the handlers build is absolute).  The text of a file is the text
    that was written to it; reading translates its line endings.

    What the store leaves out: permissions, a file whose bytes are not
    valid UTF-8, and a device that fails in the middle of a write.  In
    the store a regular file can always be read, and a write either
    replaces the whole text or, when the path cannot be opened, changes
    nothing; on a real system [open(path, "w")] has created or emptied
    the file by the time [write] can fail.  The properties of a failed
    run are therefore stated apart from what a failed write leaves at
    its own path, and a property that needs a text to be read takes the
    read as a hypothesis. *)
Inductive node :=
| Dir
| File (content : string).

(** The store is kept as an association list in which a location
    occurs at most once: [store_insert] replaces the object of a
    location that is present and appends the others. *)
Definition store : Type := list (list string * node).

Fixpoint store_lookup (loc : list string) (nodes : store) : option node :=
  match nodes with
  | [] => None
  | (loc', n) :: rest =>
      if bool_decide (loc' = loc) then Some n else store_lookup loc rest
  end.

Fixpoint store_insert (loc : list string) (n : node) (nodes : store) : store :=
  match nodes with
  | [] => [(loc, n)]
  | (loc', n') :: rest =>
      if bool_decide (loc' = loc) then (loc, n) :: rest
      else (loc', n') :: store_insert loc n rest
  end.

#[global] Instance store_lookup_inst : Lookup (list string) node store := store_lookup.
#[global] Instance store_insert_inst : Insert (list string) node store := store_insert.

Module Os.

Definition is_dir (nodes : store) (loc : list string) : bool :=
  match loc with
  | [] => true
  | _ => match nodes !! loc with Some Dir => true | _ => false end
  end.

Definition parent (loc : list string) : list string := removelast loc.

(** Path resolution as the kernel does it: each component is looked up
    in the directory reached so far, which must exist; an empty
    component or [.] stays there, [..] moves to the parent.  The result
    is the location the path designates, whether or not something is
    there. *)
Fixpoint walk (nodes : store) (cur : list string)
    (comps : list string) : option (list string) :=
  match comps with
  | [] => Some cur
  | c :: rest =>
      if is_dir nodes cur then
        if bool_decide (c = "") || bool_decide (c = ".") then walk nodes cur rest
        else if bool_decide (c = "..") then walk nodes (parent cur) rest
        else walk nodes (cur ++ [c]) rest
      else None
  end.

Definition resolve (nodes : store) (path : string)
  : option (list string) :=
  walk nodes [] (Posix.components path).

(** [os.path.isfile(path)]: the path resolves to a regular file. *)
Definition isfile (nodes : store) (path : string) : bool :=
  match resolve nodes path with
  | Some loc => match nodes !! loc with Some (File _) => true | _ => false end
  | None => false
  end.

(** The text a regular file holds, as it was written. *)
Definition content (nodes : store) (path : string)
  : option string :=
  match resolve nodes path with
  | Some loc => match nodes !! loc with Some (File c) => Some c | _ => None end
  | None => None
  end.

(** [open(path, "r", encoding="utf-8").read()]: the text of the file
    with its line endings translated. *)
Definition read_text (nodes : store) (path : string)
  : option string :=
  Py.universal_newlines <$> content nodes path.

(** [open(path, "w").write(content)]: the directory holding the file
    must exist and the path must not designate a directory; the file is
    created or replaced. *)
Definition write_text (nodes : store) (path content : string)
  : option (store) :=
  match resolve nodes path with
  | Some loc =>
      if is_dir nodes loc then None
      else Some (<[loc := File content]> nodes)
  | None => None
  end.

(** [os.makedirs(path, exist_ok=True)]: every missing directory along
    the path is created, one after the other; the call fails when it
    meets a regular file, and the directories created before that
    remain.  The boolean tells whether the call succeeded. *)
Fixpoint makedirs_from (nodes : store) (cur : list string)
    (comps : list string) : store * bool :=
  match comps with
  | [] => (nodes, true)
  | c :: rest =>
      if is_dir nodes cur then
        if bool_decide (c = "") || bool_decide (c = ".")
        then makedirs_from nodes cur rest
        else if bool_decide (c = "..")
        then makedirs_from nodes (parent cur) rest
        else
          let nxt := cur ++ [c] in
          match nodes !! nxt with
          | None => makedirs_from (<[nxt := Dir]> nodes) nxt rest
          | Some Dir => makedirs_from nodes nxt rest
          | Some (File _) => (nodes, false)
          end
      else (nodes, false)
  end.

Definition makedirs (nodes : store) (path : string)
  : store * bool :=
  makedirs_from nodes [] (Posix.components path).

End Os.

(** ** The world a request runs in *)

(** The calls made to the file system, in the order they were made,
    each with its outcome: the answer of [isfile], the text read (or
    [None] when the file could not be opened), and whether a write or a
    directory creation succeeded. *)
Inductive event :=
| EvIsfile (path : string) (answer : bool)
| EvRead (path : string) (content : option string)
| EvWrite (path content : string) (ok : bool)
| EvMakedirs (path : string) (ok : bool).

Record World := {
  fs : store;
  trace : list event;
  now : Z * Z           (* the year and the month of [datetime.now()] *)
}.

Definition log (ev : event) (w : World) : World :=
  {| fs := fs w; trace := trace w ++ [ev]; now := now w |}.

Definition set_fs (nodes : store) (w : World) : World :=
  {| fs := nodes; trace := trace w; now := now w |}.

(** A system call: it may change the world and raise a runtime
    exception.  A handler: it may change the world and raise [exn].
    What was done before an exception is raised stays done. *)
Definition Sys (A : Type) : Type := World -> World * (pyexn + A).
Definition M (A : Type) : Type := World -> World * result A.

Definition ret {A} (a : A) : M A := fun w => (w, inr a).

Definition raise {A} (e : exn) : M A := fun w => (w, inl e).

Definition bind {A B} (m : M A) (k : A -> M B) : M B :=
  fun w =>
    match m w with
    | (w', inl e) => (w', inl e)
    | (w', inr a) => k a w'
    end.

Notation "'do' x <- m ; k" := (bind m (fun x => k))
  (at level 10, x name, m at level 100, k at level 200,
   format "'[v' 'do'  x  <-  m ; '/' k ']'").
Notation "'do' ' p <- m ; k" := (bind m (fun x => let 'p := x in k))
  (at level 10, p strict pattern, m at level 100, k at level 200,
   format "'[v' 'do'  ' p  <-  m ; '/' k ']'").

(** [try: c  except Exception as e: raise h(e)]. *)
Definition try_except {A} (c : Sys A) (h : pyexn -> exn) : M A :=
  fun w =>
    match c w with
    | (w', inl e) => (w', inl (h e))
    | (w', inr a) => (w', inr a)
    end.

(** A call outside any [try]: its exception propagates. *)
Definition call {A} (c : Sys A) : M A := try_except c Uncaught.

(** A computation without effect on the world. *)
Definition pure {A} (r : pyexn + A) : Sys A := fun w => (w, r).

Definition os_path_isfile (path : string) : Sys bool :=
  fun w =>
    let answer := Os.isfile (fs w) path in
    (log (EvIsfile path answer) w, inr answer).

Definition open_read (path : string) : Sys string :=
  fun w =>
    let content := Os.read_text (fs w) path in
    let w' := log (EvRead path content) w in
    match content with
    | Some c => (w', inr c)
    | None => (w', inl (OSError path))
    end.

Definition open_write (path content : string) : Sys unit :=
  fun w =>
    match Os.write_text (fs w) path content with
    | Some nodes => (set_fs nodes (log (EvWrite path content true) w), inr tt)
    | None => (log (EvWrite path content false) w, inl (OSError path))
    end.

Definition os_makedirs (path : string) : Sys unit :=
  fun w =>
    match Os.makedirs (fs w) path with
    | (nodes, true) => (set_fs nodes (log (EvMakedirs path true) w), inr tt)
    | (nodes, false) =>
        (set_fs nodes (log (EvMakedirs path false) w), inl (OSError path))
    end.

Definition datetime_now : M (Z * Z) := fun w => (w, inr (now w)).

(** ** Dates: [datetime.date] and [calendar.monthrange] *)

Module Datetime.

Definition MINYEAR : Z := 1.
Definition MAXYEAR : Z := 9999.

(** [calendar.isleap]. *)
Definition isleap (y : Z) : bool :=
  (y mod 4 =? 0) && (negb (y mod 100 =? 0) || (y mod 400 =? 0)).

(** [calendar.mdays], indexed by the month; index 0 is unused. *)
Definition mdays : list Z := [0; 31; 28; 31; 30; 31; 30; 31; 31; 30; 31; 30; 31].

Definition days_in_month (y m : Z) : Z :=
  nth (Z.to_nat m) mdays 0 + (if (m =? 2) && isleap y then 1 else 0).

Record date := { d_year : Z; d_month : Z; d_day : Z }.

(** The range of a C [int], the type the constructor of a date converts
    its arguments to. *)
Definition INT_MIN : Z := - 2 ^ 31.
Definition INT_MAX : Z := 2 ^ 31 - 1.

Definition fits_int (n : Z) : bool := (INT_MIN <=? n) && (n <=? INT_MAX).

(** The constructor [datetime.date(year, month, day)]: it raises
    [OverflowError] for an argument that does not fit a C [int], and
    [ValueError] for a year, a month or a day outside the supported
    range. *)
Definition date_new (y m d : Z) : pyexn + date :=
  if negb (fits_int y && fits_int m && fits_int d) then inl OverflowError
  else if negb ((MINYEAR <=? y) && (y <=? MAXYEAR)) then inl (ValueError MsgDateRange)
  else if negb ((1 <=? m) && (m <=? 12)) then inl (ValueError MsgDateRange)
  else if negb ((1 <=? d) && (d <=? days_in_month y m)) then inl (ValueError MsgDateRange)
  else inr {| d_year := y; d_month := m; d_day := d |}.

Definition days_before_year (y : Z) : Z :=
  let p := y - 1 in p * 365 + p / 4 - p / 100 + p / 400.

Fixpoint days_before_month (y : Z) (m : nat) : Z :=
  match m with
  | O => 0
  | S k => match k with
           | O => 0
           | _ => days_before_month y k + days_in_month y (Z.of_nat k)
           end
  end.

Definition toordinal (d : date) : Z :=
  days_before_year (d_year d) + days_before_month (d_year d) (Z.to_nat (d_month d))
  + d_day d.

(** [date.weekday()]: Monday is 0. *)
Definition weekday (d : date) : Z := (toordinal d + 6) mod 7.

(** [calendar.weekday]: a year outside the range of [date] is replaced
    by one with the same calendar. *)
Definition calendar_weekday (y m d : Z) : pyexn + Z :=
  let y' := if negb ((MINYEAR <=? y) && (y <=? MAXYEAR)) then 2000 + y mod 400 else y in
  match date_new y' m d with
  | inl e => inl e
  | inr dt => inr (weekday dt)
  end.

(** [calendar.monthrange(year, month)]: the weekday of the first day
    and the number of days of the month. *)
Definition monthrange (y m : Z) : pyexn + (Z * Z) :=
  if negb ((1 <=? m) && (m <=? 12)) then inl (IllegalMonthError m)
  else
    match calendar_weekday y m 1 with
    | inl e => inl e
    | inr day1 => inr (day1, days_in_month y m)
    end.

Fixpoint zeros (n : nat) (s : string) : string :=
  match n with
  | O => s
  | S k => String "0" (zeros k s)
  end.

(** The directive [%Y].  The C library decides whether a year below
    1000 is padded with zeros to four digits; [pads] says which it
    does.  From 1000 on both give the same four digits. *)
Definition format_Y (pads : bool) (y : Z) : string :=
  let s := Py.str y in
  if pads then zeros (4 - String.length s) s else s.

(** [d.strftime("%d/%m/%Y")]. *)
Definition strftime_dmY (pads : bool) (d : date) : string :=
  Py.format_02d (d_day d) +:+ "/" +:+ Py.format_02d (d_month d) +:+ "/"
  +:+ format_Y pads (d_year d).

End Datetime.

(** ** Templates: the placeholder fragment of Jinja2 *)

(** The values a rendering context holds in this program. *)
Inductive value :=
| VStr (s : string)
| VInt (n : Z)
| VFloat (x : PrimFloat.float)
| VList (l : list string).

(** A rendering context: the keyword arguments, as the dictionary
    literal of the source lists them, each name once. *)
Definition context : Type := list (string * value).

Fixpoint context_lookup (name : string) (ctx : context) : option value :=
  match ctx with
  | [] => None
  | (k, v) :: rest => if bool_decide (k = name) then Some v else context_lookup name rest
  end.

Module Jinja.

(** What [Template(source).render] gives for a context passed as
    keyword arguments, in the default environment, for a source made
    of literal text and of placeholders [{{ name }}].  Jinja2 is a
    library the program imports; what is embedded here is its
    documented behaviour on this fragment.  For any other source (block tags, comments,
    whitespace control, filters, compound expressions, the names the
    engine predefines, a value whose printing is not modelled) the
    result here is [None]: the fragment says nothing about it.

    The engine first turns every line ending into a line feed and drops
    one line ending at the very end of the source; then it copies the
    text outside placeholders, and prints for a placeholder the value
    bound to its name, or nothing at all when the name is unbound (the
    default [Undefined] prints as the empty string). *)

Definition CR : ascii := ascii_of_N 13.
Definition LF : ascii := ascii_of_N 10.
Definition TAB : ascii := ascii_of_N 9.

(** Characters that some versions of the engine take for line endings;
    a source holding one is outside the fragment. *)
Definition odd_line_break (c : ascii) : bool :=
  let n := Py.ord c in
  (n =? 11) || (n =? 12) || (n =? 28) || (n =? 29) || (n =? 30) || (n =? 133).

Fixpoint normalize_newlines (s : string) : string :=
  match s with
  | EmptyString => EmptyString
  | String c r =>
      if bool_decide (c = CR) then
        match r with
        | String c' r' =>
            if bool_decide (c' = LF) then String LF (normalize_newlines r')
            else String LF (normalize_newlines r)
        | EmptyString => String LF EmptyString
        end
      else String c (normalize_newlines r)
  end.

Fixpoint drop_trailing_newline (s : string) : string :=
  match s with
  | EmptyString => EmptyString
  | String c EmptyString => if bool_decide (c = LF) then EmptyString else s
  | String c r => String c (drop_trailing_newline r)
  end.

Definition is_blank (c : ascii) : bool :=
  bool_decide (c = " "%char) || bool_decide (c = TAB) || bool_decide (c = LF).

Definition is_name_start (c : ascii) : bool :=
  let n := Py.ord c in
  ((65 <=? n) && (n <=? 90)) || ((97 <=? n) && (n <=? 122)) || (n =? 95).

Definition is_name_char (c : ascii) : bool :=
  is_name_start c || Py.is_decimal c.

(** Names with a meaning of their own in an expression: constants,
    operators and statement words of the template language, and the
    globals of the default environment. *)
Definition reserved : list string :=
  ["true"; "false"; "none"; "True"; "False"; "None";
   "not"; "and"; "or"; "in"; "is"; "if"; "else"; "elif";
   "for"; "endfor"; "endif"; "set"; "block"; "extends"; "print"; "macro";
   "include"; "from"; "import"; "call"; "filter"; "with"; "autoescape";
   "recursive"; "ignore"; "missing"; "without"; "context"; "raw";
   "range"; "dict"; "lipsum"; "cycler"; "joiner"; "namespace";
   "self"; "loop"; "super"; "varargs"; "kwargs"; "caller"; "_"].

(** What a placeholder prints. *)
Definition output (ctx : context) (name : string) : option string :=
  if bool_decide (name ∈ reserved) then None
  else
    match context_lookup name ctx with
    | None => Some EmptyString
    | Some (VStr s) => Some s
    | Some (VInt n) => Some (Py.str n)
    | Some (VFloat _) => None
    | Some (VList _) => None
    end.

(** Where the scanner is: in literal text, just after one opening
    brace, or inside a placeholder. *)
Inductive state :=
| Data
| Brace
| Open
| Blank
| Name (acc : string)
| After (acc : string)
| Close (acc : string).

Definition snoc (s : string) (c : ascii) : string := s +:+ String c EmptyString.

Fixpoint scan (ctx : context) (st : state) (s : string)
  : option string :=
  match s with
  | EmptyString =>
      match st with
      | Data => Some EmptyString
      | Brace => Some "{"
      | _ => None
      end
  | String c r =>
      if odd_line_break c then None else
      match st with
      | Data =>
          if bool_decide (c = "{"%char) then scan ctx Brace r
          else String c <$> scan ctx Data r
      | Brace =>
          if bool_decide (c = "{"%char) then scan ctx Open r
          else if bool_decide (c = "%"%char) || bool_decide (c = "#"%char) then None
          else String "{" <$> (String c <$> scan ctx Data r)
      | Open =>
          if bool_decide (c = "-"%char) || bool_decide (c = "+"%char) then None
          else if is_blank c then scan ctx Blank r
          else if is_name_start c then scan ctx (Name (String c EmptyString)) r
          else None
      | Blank =>
          if is_blank c then scan ctx Blank r
          else if is_name_start c then scan ctx (Name (String c EmptyString)) r
          else None
      | Name acc =>
          if is_name_char c then scan ctx (Name (snoc acc c)) r
          else if is_blank c then scan ctx (After acc) r
          else if bool_decide (c = "}"%char) then scan ctx (Close acc) r
          else None
      | After acc =>
          if is_blank c then scan ctx (After acc) r
          else if bool_decide (c = "}"%char) then scan ctx (Close acc) r
          else None
      | Close acc =>
          if bool_decide (c = "}"%char) then
            match output ctx acc, scan ctx Data r with
            | Some v, Some rest => Some (v +:+ rest)
            | _, _ => None
            end
          else None
      end
  end.

Definition render (source : string) (ctx : context) : option string :=
  scan ctx Data (drop_trailing_newline (normalize_newlines source)).

End Jinja.

(** ** The service *)

Definition BASE_TEMPLATE_DIR : string := "/data/base".
Definition INTERMEDIATE_TEMPLATE_DIR : string := "/data/intermediate".
Definition FINAL_DOCUMENT_DIR : string := "/data/final".

(** The messages of the successful answers are constant and left out;
    the records keep the other keys of the returned dictionaries. *)
Record IntermediateResponse := { ir_file : string }.
Record DocumentResponse := { doc_file : string; doc_path : string }.
Record AllDocumentsResponse := { all_files : list string }.
Record DocumentInfo := { info_document : string; info_path : string }.

Definition lift {A} (r : result A) : M A := fun w => (w, r).

(** The directories are created when the module is loaded. *)
Definition startup : M unit :=
  do _ <- call (os_makedirs BASE_TEMPLATE_DIR);
  do _ <- call (os_makedirs INTERMEDIATE_TEMPLATE_DIR);
  call (os_makedirs FINAL_DOCUMENT_DIR).

Section Service.

(** Two things the program takes from its platform: whether [%Y] pads
    a year below 1000, and the template engine, a function from the
    source and the context to the rendered text or an exception.  The
    function is the engine as it stands when the handler is called: a
    template that uses the [random] filter or [lipsum] is rendered
    according to the state of Python's random generator, so two calls
    of a handler may run with two different functions, and a property
    about two calls takes two engines.  The properties of the handlers
    hold for every engine; [jinja2] below is the one the examples
    run. *)
Variable strftime_pads_year : bool.
Variable Template_render : string -> context -> pyexn + string.

Definition get_first_last_day (year month : Z) : pyexn + (string * string) :=
  match Datetime.date_new year month 1 with
  | inl e => inl e
  | inr d1 =>
      let first_day := Datetime.strftime_dmY strftime_pads_year d1 in
      match Datetime.monthrange year month with
      | inl e => inl e
      | inr (_, last_day_num) =>
          match Datetime.date_new year month last_day_num with
          | inl e => inl e
          | inr d2 =>
              inr (first_day, Datetime.strftime_dmY strftime_pads_year d2)
          end
      end
  end.

Definition render_template (template_str : string) (ctx : context)
  : pyexn + string :=
  Template_render template_str ctx.

Definition intermediate_context (request : IntermediateTemplateRequest)
  : context :=
  [("tenant_info", VList (itr_tenant_info request));
   ("tenant_number", VStr (itr_tenant_number request));
   ("address", VList (itr_address request));
   ("amount", VFloat (itr_amount request))].

Definition generate_intermediate_template (request : IntermediateTemplateRequest)
  : M IntermediateResponse :=
  let base_template_path :=
    Posix.join BASE_TEMPLATE_DIR [itr_base_template_name request] in
  do found <- call (os_path_isfile base_template_path);
  if negb found then raise (HTTPException 404 MsgBaseNotFound None)
  else
    do base_template_content <-
      try_except (open_read base_template_path)
        (fun e => HTTPException 500 MsgBaseRead (Some e));
    let ctx := intermediate_context request in
    do rendered_content <-
      try_except (pure (render_template base_template_content ctx))
        (fun e => HTTPException 500 MsgIntermediateRender (Some e));
    let intermediate_template_path :=
      Posix.join INTERMEDIATE_TEMPLATE_DIR [itr_intermediate_template_name request] in
    do _ <-
      try_except (open_write intermediate_template_path rendered_content)
        (fun e => HTTPException 500 MsgIntermediateWrite (Some e));
    ret {| ir_file := itr_intermediate_template_name request |}.

Definition final_dir_of (name : string) (year : Z) : string :=
  Posix.join FINAL_DOCUMENT_DIR [name; Py.str year].

Definition final_filename_of (name : string) (year month : Z) : string :=
  name +:+ "_" +:+ Py.format_02d month +:+ "_" +:+ Py.str year +:+ ".html".

Definition final_document_path_of (name : string) (year month : Z) : string :=
  Posix.join (final_dir_of name year) [final_filename_of name year month].

Definition document_context (first_day last_day : string) (year month : Z)
  : context :=
  [("first_day", VStr first_day);
   ("last_day", VStr last_day);
   ("year", VInt year);
   ("month", VStr (Py.format_02d month))].

Definition generate_document (request : DocumentRequest) : M DocumentResponse :=
  do today <- datetime_now;
  let year := default (fst today) (dr_year request) in
  let month := default (snd today) (dr_month request) in
  if (month <? 1) || (month >? 12)
  then raise (HTTPException 400 MsgMonthRange None)
  else
    do days <- call (pure (get_first_last_day year month));
    let first_day := fst days in
    let last_day := snd days in
    let intermediate_template_path :=
      Posix.join INTERMEDIATE_TEMPLATE_DIR [dr_intermediate_template_name request] in
    do found <- call (os_path_isfile intermediate_template_path);
    if negb found then raise (HTTPException 404 MsgIntermediateNotFound None)
    else
      do intermediate_template_content <-
        try_except (open_read intermediate_template_path)
          (fun e => HTTPException 500 MsgIntermediateRead (Some e));
      let ctx := document_context first_day last_day year month in
      do final_document_content <-
        try_except (pure (render_template intermediate_template_content ctx))
          (fun e => HTTPException 500 MsgFinalRender (Some e));
      let final_dir := final_dir_of (dr_intermediate_template_name request) year in
      do _ <- call (os_makedirs final_dir);
      let final_filename :=
        final_filename_of (dr_intermediate_template_name request) year month in
      let final_document_path := Posix.join final_dir [final_filename] in
      do _ <-
        try_except (open_write final_document_path final_document_content)
          (fun e => HTTPException 500 MsgFinalWrite (Some e));
      ret {| doc_file := final_filename; doc_path := final_document_path |}.

(** The body of the loop [for month in range(1, 13)], over the months
    still to visit, with the list accumulated so far. *)
Fixpoint for_months (name : string) (year : Z) (months : list Z)
    (generated_files : list string) : M (list string) :=
  match months with
  | [] => ret generated_files
  | month :: rest =>
      do doc_request <- lift (DocumentRequest_new name (Some year) (Some month));
      do result <- generate_document doc_request;
      for_months name year rest (generated_files ++ [doc_file result])
  end.

Definition generate_all_documents (request : AllDocumentsRequest)
  : M AllDocumentsResponse :=
  do today <- datetime_now;
  let year := default (fst today) (adr_year request) in
  do generated_files <-
    for_months (adr_intermediate_template_name request) year (seqZ 1 12) [];
  ret {| all_files := generated_files |}.

Definition get_document_info (intermediate_template_name : string)
    (year month : Z) : M DocumentInfo :=
  let final_dir := final_dir_of intermediate_template_name year in
  let final_filename := final_filename_of intermediate_template_name year month in
  let final_document_path := Posix.join final_dir [final_filename] in
  do found <- call (os_path_isfile final_document_path);
  if negb found then raise (HTTPException 404 MsgNotGenerated None)
  else ret {| info_document := final_filename; info_path := final_document_path |}.

(** *** The endpoints: the request model is built, then the handler runs *)

Definition POST_generate_intermediate_template
    (base : string) (info : list string) (number : string)
    (addr : list string) (amt : PrimFloat.float) (name : string)
  : M IntermediateResponse :=
  do request <- lift (IntermediateTemplateRequest_new base info number addr amt name);
  generate_intermediate_template request.

Definition POST_generate_document (name : string) (y m : option Z)
  : M DocumentResponse :=
  do request <- lift (DocumentRequest_new name y m);
  generate_document request.

Definition POST_generate_all_documents (name : string) (y : option Z)
  : M AllDocumentsResponse :=
  generate_all_documents
    {| adr_intermediate_template_name := name; adr_year := y |}.

(** The query parameter [month] is declared with [ge=1, le=12]. *)
Definition GET_document_info (name : string) (y m : Z) : M DocumentInfo :=
  match check_month (Some m) with
  | [] => get_document_info name y m
  | refused => raise (ValidationError refused)
  end.

End Service.

(** An engine for the examples: it renders the sources of the fragment
    as Jinja2 does.  It declines every other source with a template
    error, although Jinja2 renders many of them; nothing is stated
    through it about a source outside the fragment. *)
Definition jinja2 (source : string) (ctx : context) : pyexn + string :=
  match Jinja.render source ctx with
  | Some out => inr out
  | None => inl TemplateError
  end.



(** ** The listing handlers *)

(** The name under which [loc] is an entry of the directory [dir], when
    it is one. *)
Definition entry_of (dir loc : list string) : option string :=
  match last loc with
  | Some name => if bool_decide (removelast loc = dir) then Some name else None
  | None => None
  end.

(** [os.listdir(path)]: the names of the entries of a directory, in the
    order of the store; [None] when the path does not designate a
    directory. *)
Definition listdir (nodes : store) (path : string) : option (list string) :=
  match Os.resolve nodes path with
  | Some dir =>
      if Os.is_dir nodes dir
      then Some (omap (fun entry => entry_of dir entry.1) nodes)
      else None
  | None => None
  end.

(** The call [os.listdir(path)].  The trace records the calls the
    generation handlers make; [os.listdir] is not one of them. *)
Definition os_listdir (path : string) : Sys (list string) :=
  fun w =>
    match listdir (fs w) path with
    | Some names => (w, inr names)
    | None => (w, inl (OSError path))
    end.

(** The comprehension [[f for f in files if os.path.isfile(os.path.join(dir, f))]]. *)
Fixpoint keep_files (dir : string) (files : list string) : Sys (list string) :=
  match files with
  | [] => fun w => (w, inr [])
  | f :: rest =>
      fun w =>
        match os_path_isfile (Posix.join dir [f]) w with
        | (w1, inl e) => (w1, inl e)
        | (w1, inr found) =>
            match keep_files dir rest w1 with
            | (w2, inl e) => (w2, inl e)
            | (w2, inr kept) => (w2, inr (if found then f :: kept else kept))
            end
        end
  end.

(** The messages of the two listing handlers, and the exception they
    raise: status code, message, and the exception [e] formatted into
    the message. *)
Inductive listing_message :=
| MsgListBase          (* Erreur lors du listing des templates de base : {e} *)
| MsgListIntermediate. (* Erreur lors du listing des templates intermédiaires : {e} *)

Inductive listing_exn :=
| ListingHTTPException (status_code : Z) (detail : listing_message) (cause : pyexn).

Record BaseTemplates := { base_templates : list string }.
Record IntermediateTemplates := { intermediate_templates : list string }.

(** The body shared by the two handlers: the [try] block. *)
Definition list_regular_files (dir : string) : Sys (list string) :=
  fun w =>
    match os_listdir dir w with
    | (w1, inl e) => (w1, inl e)
    | (w1, inr files) => keep_files dir files w1
    end.

Definition list_base_templates : World -> World * (listing_exn + BaseTemplates) :=
  fun w =>
    match list_regular_files BASE_TEMPLATE_DIR w with
    | (w', inl e) => (w', inl (ListingHTTPException 500 MsgListBase e))
    | (w', inr files) => (w', inr {| base_templates := files |})
    end.

Definition list_intermediate_templates
  : World -> World * (listing_exn + IntermediateTemplates) :=
  fun w =>
    match list_regular_files INTERMEDIATE_TEMPLATE_DIR w with
    | (w', inl e) => (w', inl (ListingHTTPException 500 MsgListIntermediate e))
    | (w', inr files) => (w', inr {| intermediate_templates := files |})
    end.

(** ** The validator of [tenant_number] on any alphabet

    A Python [str] is a sequence of Unicode code points, and the two
    built-ins the validator calls look every character up in the
    Unicode database: [str.isdigit] accepts the characters whose
    numeric type is Digit or Decimal, [int] reads the characters that
    have a decimal value.  The strings above stop at code point 255.
    Here the validator is embedded once more, line by line, on lists of
    characters of any type, with the two look-ups as parameters. *)
Section Alphabet.

Context {Char : Type} `{EqDecision Char}.
Variable slash : Char.
Variable char_isdigit : Char -> bool.
Variable char_decimal : Char -> option Z.

(** [s.isdigit()]. *)
Definition isdigit_over (s : list Char) : bool :=
  match s with
  | [] => false
  | _ => forallb char_isdigit s
  end.

Fixpoint int_acc_over (acc : Z) (s : list Char) : option Z :=
  match s with
  | [] => Some acc
  | c :: r =>
      match char_decimal c with
      | Some d => int_acc_over (10 * acc + d) r
      | None => None
      end
  end.

(** [int(s)] for an [s] that [isdigit] has accepted. *)
Definition int_over (s : list Char) : option Z :=
  match s with
  | [] => None
  | _ => int_acc_over 0 s
  end.

Definition validate_tenant_number_over (v : list Char) : pyexn + list Char :=
  if negb (Z.of_nat (length v) =? 7) || negb (bool_decide (v !! 2%nat = Some slash))
  then inl (ValueError MsgTenantFormat)
  else
    let month := take 2 v in
    let year := drop 3 v in
    if negb (isdigit_over month && isdigit_over year)
    then inl (ValueError MsgTenantDigits)
    else
      match int_over month with
      | None => inl (ValueError MsgIntLiteral)
      | Some m =>
          if negb ((1 <=? m) && (m <=? 12))
          then inl (ValueError MsgTenantMonth)
          else inr v
      end.

End Alphabet.

(** The alphabet of the strings above: the decimal value of a character
    below code point 256. *)
Definition latin1_decimal (c : ascii) : option Z :=
  if Py.is_decimal c then Some (Py.digit_value c) else None.

(** * Definitions used to state the properties *)

Definition char_at (p : ascii -> bool) (i : nat) (s : string) : bool :=
  match String.get i s with
  | Some c => p c
  | None => false
  end.

Definition is_slash (c : ascii) : bool := bool_decide (c = "/"%char).

(** The number the first two characters spell. *)
Definition month_number (s : string) : Z :=
  match s with
  | String a (String b _) => 10 * Py.digit_value a + Py.digit_value b
  | _ => 0
  end.

(** The tenant numbers in the words of the specification: seven
    characters, a slash at index 2, decimal digits at indices 0 to 1
    and 4 to 6, a month from 1 to 12. *)
Definition tenant_number_described (s : string) : bool :=
  bool_decide (String.length s = 7%nat) && char_at is_slash 2 s
  && forallb (fun i => char_at Py.is_decimal i s) [0; 1; 4; 5; 6]%nat
  && (1 <=? month_number s) && (month_number s <=? 12).

(** The tenant numbers the validator lets through: seven characters, a
    slash at index 2, decimal digits at indices 0 and 1 spelling a
    month from 1 to 12, digit characters at indices 3 to 6. *)
Definition tenant_number_accepted (s : string) : bool :=
  bool_decide (String.length s = 7%nat) && char_at is_slash 2 s
  && forallb (fun i => char_at Py.is_decimal i s) [0; 1]%nat
  && forallb (fun i => char_at Py.char_isdigit i s) [3; 4; 5; 6]%nat
  && (1 <=? month_number s) && (month_number s <=? 12).

(** The message of the refusal. *)
Definition tenant_number_refusal (v : string) : message :=
  if negb (bool_decide (String.length v = 7%nat) && char_at is_slash 2 v)
  then MsgTenantFormat
  else if negb (forallb (fun i => char_at Py.char_isdigit i v) [0; 1; 3; 4; 5; 6]%nat)
  then MsgTenantDigits
  else if negb (forallb (fun i => char_at Py.is_decimal i v) [0; 1]%nat)
  then MsgIntLiteral
  else MsgTenantMonth.

(** A world to run examples in: the three directories exist, a base
    template and an intermediate template are in place, and the clock
    says March 2025. *)
Definition base_text : string :=
  "Locataire {{ tenant_number }}, du {{ first_day }} au {{ last_day }} ({{ month }}/{{ year }})".

Definition sample_nodes : store :=
  [(["data"], Dir);
   (["data"; "base"], Dir);
   (["data"; "intermediate"], Dir);
   (["data"; "final"], Dir);
   (["data"; "base"; "recu.html"], File base_text);
   (["data"; "intermediate"; "dupont"],
    File "Quittance du {{ first_day }} au {{ last_day }}, {{ month }}/{{ year }}")].

Definition sample_world : World :=
  {| fs := sample_nodes; trace := []; now := (2025, 3) |}.

Definition sample_request : IntermediateTemplateRequest :=
  {| itr_base_template_name := "recu.html";
     itr_tenant_info := ["M. Dupont"; "Appartement 4"; "2e etage"];
     itr_tenant_number := "03/2025";
     itr_address := ["12 rue des Lilas"; "Batiment B"; "75011"; "Paris"];
     itr_amount := PrimFloat.one;
     itr_intermediate_template_name := "dupont2" |}.

(** Dates as the specification writes them: two digits for the day,
    two for the month, four for the year. *)
Definition two_digits (n : Z) : string :=
  String (Py.digit_char (n / 10)) (String (Py.digit_char (n mod 10)) EmptyString).

Definition four_digits (n : Z) : string :=
  String (Py.digit_char (n / 1000))
    (String (Py.digit_char (n / 100 mod 10)) (two_digits (n mod 100))).

(** The Gregorian calendar: a year is a leap year when it is a multiple
    of 400, or a multiple of 4 that is not a multiple of 100. *)
Definition leap_year (y : Z) : bool :=
  if y mod 400 =? 0 then true
  else if y mod 100 =? 0 then false
  else y mod 4 =? 0.

Definition month_length (y m : Z) : Z :=
  if m =? 2 then (if leap_year y then 29 else 28)
  else if (m =? 4) || (m =? 6) || (m =? 9) || (m =? 11) then 30
  else 31.

(** Day [d] of month [m], followed by the year as [%Y] printed it. *)
Definition day_month_year (d m : Z) (Y : string) : string :=
  two_digits d +:+ "/" +:+ two_digits m +:+ "/" +:+ Y.

(** One store extends another when every directory of the first is a
    directory of the second and every regular file of the first is in
    the second with the same text. *)
Definition store_le (n1 n2 : store) : Prop :=
  (forall loc, Os.is_dir n1 loc = true -> Os.is_dir n2 loc = true) /\
  (forall loc c, n1 !! loc = Some (File c) -> n2 !! loc = Some (File c)).

(** The paths successfully written by a sequence of calls. *)
Definition written_paths (evs : list event) : list string :=
  omap (fun ev => match ev with EvWrite p _ true => Some p | _ => None end) evs.

(** What [generate_document] computes from its request and the clock. *)
Definition year_of (request : DocumentRequest) (w : World) : Z :=
  default (now w).1 (dr_year request).

Definition month_of (request : DocumentRequest) (w : World) : Z :=
  default (now w).2 (dr_month request).

Definition intermediate_path_of (name : string) : string :=
  Posix.join INTERMEDIATE_TEMPLATE_DIR [name].

(** The four calls of a successful generation, with their outcomes. *)
Definition generation_events (name : string) (year month : Z)
    (template out : string) : list event :=
  [EvIsfile (intermediate_path_of name) true;
   EvRead (intermediate_path_of name) (Some template);
   EvMakedirs (final_dir_of name year) true;
   EvWrite (final_document_path_of name year month) out true].

Definition no_slash (s : string) : bool :=
  Py.all_chars (fun c => negb (is_slash c)) s.

(** A component that names an entry, unlike the empty component, [.]
    and [..]. *)
Definition ordinary (c : string) : Prop :=
  c <> "" /\ c <> "." /\ c <> "..".

(** The part of a final file name that follows the template name. *)
Definition final_suffix (year month : Z) : string :=
  "_" +:+ Py.format_02d month +:+ "_" +:+ Py.str year +:+ ".html".

(** The request the loop of [generate_all_documents] builds. *)
Definition doc_request (name : string) (year month : Z) : DocumentRequest :=
  {| dr_intermediate_template_name := name;
     dr_year := Some year; dr_month := Some month |}.

(** Every text successfully written by the calls [evs] is what the
    store holds at the path it was written to. *)
Definition all_on_disk (evs : list event) (nodes : store) : Prop :=
  forall p c, EvWrite p c true ∈ evs -> Os.content nodes p = Some c.

(** A world in which the generation for March 2025 cannot succeed: a
    directory sits where the document should be written. *)
Definition blocked_world : World :=
  {| fs := sample_nodes ++
           [(["data"; "final"; "dupont"], Dir);
            (["data"; "final"; "dupont"; "2025"], Dir);
            (["data"; "final"; "dupont"; "2025"; "dupont_03_2025.html"], Dir)];
     trace := []; now := (2025, 3) |}.

Definition twelve_months : list Z := [1; 2; 3; 4; 5; 6; 7; 8; 9; 10; 11; 12].

Definition base_path_of (name : string) : string :=
  Posix.join BASE_TEMPLATE_DIR [name].

(** The three calls of a successful intermediate generation. *)
Definition intermediate_events (request : IntermediateTemplateRequest)
    (base out : string) : list event :=
  [EvIsfile (base_path_of (itr_base_template_name request)) true;
   EvRead (base_path_of (itr_base_template_name request)) (Some base);
   EvWrite (intermediate_path_of (itr_intermediate_template_name request)) out true].

(** Whether a location lies in the tree below a root. *)
Definition inside (root loc : list string) : bool :=
  bool_decide (root `prefix_of` loc).



(** A source of the fragment, piece by piece: literal text, or a
    placeholder written [{{ name }}]. *)
Inductive piece :=
| Text (s : string)
| Placeholder (name : string).

Definition source_of (p : piece) : string :=
  match p with
  | Text s => s
  | Placeholder name => "{{ " +:+ name +:+ " }}"
  end.

Fixpoint unparse (ps : list piece) : string :=
  match ps with
  | [] => ""
  | p :: rest => source_of p +:+ unparse rest
  end.











(** The base template of the examples, piece by piece. *)
Definition base_pieces : list piece :=
  [Text "Locataire "; Placeholder "tenant_number"; Text ", du ";
   Placeholder "first_day"; Text " au "; Placeholder "last_day"; Text " (";
   Placeholder "month"; Text "/"; Placeholder "year"; Text ")"].

(** A template name that is a plain file name. *)
Definition plain_name (name : string) : Prop :=
  ordinary name /\ no_slash name = true.





(** What [datetime.date] raises for a year it refuses: [ValueError]
    when the year fits a C [int], [OverflowError] when it does not. *)
Definition date_refusal (y : Z) : pyexn :=
  if Datetime.fits_int y then ValueError MsgDateRange else OverflowError.


(** Every name on the way to an object of the store is one a
    directory can hold. *)
Definition well_named (nodes : store) : Prop :=
  forall loc n name, (loc, n) ∈ nodes -> name ∈ loc -> plain_name name.

(** A store with a directory and two regular files under [/data/base]. *)
Definition listing_world : World :=
  {| fs := sample_nodes ++
           [(["data"; "base"; "archives"], Dir);
            (["data"; "base"; "archives"; "vieux.html"], File "ancien");
            (["data"; "base"; "bail.html"], File "Bail {{ tenant_number }}")];
     trace := []; now := (2025, 3) |}.

(** The check of [well_named], as a computation. *)
Definition plain_nameb (name : string) : bool :=
  negb (bool_decide (name = "")) && negb (bool_decide (name = "."))
  && negb (bool_decide (name = "..")) && no_slash name.

Definition well_namedb (nodes : store) : bool :=
  forallb (fun entry => forallb plain_nameb entry.1) nodes.

(** A request for a base template that does not exist. *)
Definition absent_request : IntermediateTemplateRequest :=
  {| itr_base_template_name := "absent.html";
     itr_tenant_info := ["M. Dupont"; "Appartement 4"; "2e etage"];
     itr_tenant_number := "03/2025";
     itr_address := ["12 rue des Lilas"; "Batiment B"; "75011"; "Paris"];
     itr_amount := PrimFloat.one;
     itr_intermediate_template_name := "dupont2" |}.

(** A regular file sits at a location. *)
Definition file_at (nodes : store) (loc : list string) : Prop :=
  exists c, nodes !! loc = Some (File c).

(** The world of a first start: nothing exists yet. *)
Definition empty_world : World := {| fs := []; trace := []; now := (2025, 3) |}.

(** The directories on the way from [cur] down the names [comps]. *)
Fixpoint dirs_along (cur : list string) (comps : list string) : list (list string) :=
  match comps with
  | [] => []
  | c :: rest => (cur ++ [c]) :: dirs_along (cur ++ [c]) rest
  end.

(** The three locations [generate_document] can touch for a plain
    template name: the directory of the template, the directory of the
    year, and the document. *)
Definition final_locations (name : string) (year month : Z) : list (list string) :=
  [["data"; "final"; name];
   ["data"; "final"; name; Py.str year];
   ["data"; "final"; name; Py.str year; final_filename_of name year month]].

(** The lists of characters the validator lets through, on any
    alphabet: seven characters, the slash third, two characters with
    decimal values that spell a month from 1 to 12 before it, four
    digit characters after it. *)
Definition tenant_number_accepted_over {Char : Type} (slash : Char)
    (char_isdigit : Char -> bool) (char_decimal : Char -> option Z)
    (v : list Char) : Prop :=
  exists a b y3 y4 y5 y6 d0 d1,
    v = [a; b; slash; y3; y4; y5; y6] /\
    char_decimal a = Some d0 /\ char_decimal b = Some d1 /\
    1 <= 10 * d0 + d1 <= 12 /\
    char_isdigit y3 = true /\ char_isdigit y4 = true /\
    char_isdigit y5 = true /\ char_isdigit y6 = true.

(** ** Histories of calls *)

(** A call of one of the six handlers, with the rendering engine as it
    behaves during that call. *)
Inductive handler_call :=
| CallIntermediate (engine : string -> context -> pyexn + string)
    (request : IntermediateTemplateRequest)
| CallDocument (engine : string -> context -> pyexn + string)
    (request : DocumentRequest)
| CallAllDocuments (engine : string -> context -> pyexn + string)
    (request : AllDocumentsRequest)
| CallDocumentInfo (name : string) (year month : Z)
| CallListBase
| CallListIntermediate.

(** The world when the clock says [today]. *)
Definition at_time (today : Z * Z) (w : World) : World :=
  {| fs := fs w; trace := trace w; now := today |}.

(** The world after a call made when the clock says [step.1], whatever
    the call answers. *)
Definition after_call (pads : bool) (w : World) (step : (Z * Z) * handler_call)
  : World :=
  let w0 := at_time step.1 w in
  match step.2 with
  | CallIntermediate engine request =>
      (generate_intermediate_template engine request w0).1
  | CallDocument engine request => (generate_document pads engine request w0).1
  | CallAllDocuments engine request =>
      (generate_all_documents pads engine request w0).1
  | CallDocumentInfo name year month => (get_document_info name year month w0).1
  | CallListBase => (list_base_templates w0).1
  | CallListIntermediate => (list_intermediate_templates w0).1
  end.

Definition after_calls (pads : bool) (history : list ((Z * Z) * handler_call))
    (w : World) : World :=
  foldl (after_call pads) w history.

(** The call asks for the document of [name], [year] and [month]:
    [generate_document] with these three, the year and the month taken
    from the clock when the request leaves them out, or
    [generate_all_documents] with the name and the year. *)
Definition asks_for (step : (Z * Z) * handler_call) (name : string) (year month : Z)
  : Prop :=
  match step.2 with
  | CallDocument _ request =>
      dr_intermediate_template_name request = name /\
      default step.1.1 (dr_year request) = year /\
      default step.1.2 (dr_month request) = month
  | CallAllDocuments _ request =>
      adr_intermediate_template_name request = name /\
      default step.1.1 (adr_year request) = year
  | _ => False
  end.

(** The template name the call writes under is a plain name. *)
Definition plain_call (step : (Z * Z) * handler_call) : Prop :=
  match step.2 with
  | CallIntermediate _ request => plain_name (itr_intermediate_template_name request)
  | CallDocument _ request => plain_name (dr_intermediate_template_name request)
  | CallAllDocuments _ request => plain_name (adr_intermediate_template_name request)
  | _ => True
  end.

(** The location of the final document of a plain name. *)
Definition final_location (name : string) (year month : Z) : list string :=
  ["data"; "final"; name; Py.str year; final_filename_of name year month].

(** The document of [name], [year] and [month] is not in the store. *)
Definition no_document (name : string) (year month : Z) (w : World) : Prop :=
  forall c, fs w !! final_location name year month <> Some (File c).

(** * Sanity checks of the embedding on concrete inputs *)

Example str_examples :
  Py.str 0 = "0" /\ Py.str 7 = "7" /\ Py.str 2025 = "2025" /\
  Py.str (-5) = "-5" /\ Py.str 10000 = "10000" /\ Py.str 9 = "9" /\
  Py.str 10 = "10" /\ Py.str 1023 = "1023" /\ Py.str 1024 = "1024".
Proof. repeat split; reflexivity. Qed.

Example format_02d_examples :
  Py.format_02d 1 = "01" /\ Py.format_02d 12 = "12" /\
  Py.format_02d 0 = "00" /\ Py.format_02d (-5) = "-5" /\
  Py.format_02d 123 = "123".
Proof. repeat split; reflexivity. Qed.

Example validate_tenant_number_examples :
  validate_tenant_number "03/2025" = inr "03/2025" /\
  validate_tenant_number "12/0000" = inr "12/0000" /\
  validate_tenant_number "00/2025" = inl (ValueError MsgTenantMonth) /\
  validate_tenant_number "13/2025" = inl (ValueError MsgTenantMonth) /\
  validate_tenant_number "3/2025" = inl (ValueError MsgTenantFormat) /\
  validate_tenant_number "03-2025" = inl (ValueError MsgTenantFormat) /\
  validate_tenant_number "0a/2025" = inl (ValueError MsgTenantDigits) /\
  validate_tenant_number "01/x025" = inl (ValueError MsgTenantDigits).
Proof. repeat split; reflexivity. Qed.

Example join_examples :
  Posix.join "/data/base" ["recu.html"] = "/data/base/recu.html" /\
  Posix.join "/data/final" ["recu"; "2025"] = "/data/final/recu/2025" /\
  Posix.join "/data/base" ["/etc/passwd"] = "/etc/passwd" /\
  Posix.join "/data/base" [""] = "/data/base/" /\
  Posix.join "/data/base/" ["x"] = "/data/base/x" /\
  Posix.join "/data/final" [""; "2025"] = "/data/final/2025".
Proof. repeat split; reflexivity. Qed.

Example components_examples :
  Posix.components "/data/base/x" = [""; "data"; "base"; "x"] /\
  Posix.components "/data//base/" = [""; "data"; ""; "base"; ""] /\
  Posix.components "" = [""] /\
  Posix.components "a/../b" = ["a"; ".."; "b"].
Proof. repeat split; reflexivity. Qed.

Example weekday_examples :
  Datetime.calendar_weekday 2024 2 1 = inr 3 /\
  Datetime.calendar_weekday 2025 1 1 = inr 2 /\
  Datetime.calendar_weekday 1970 1 1 = inr 3 /\
  Datetime.monthrange 2024 2 = inr (3, 29) /\
  Datetime.monthrange 1900 2 = inr (3, 28) /\
  Datetime.monthrange 2000 2 = inr (1, 29).
Proof. repeat split; reflexivity. Qed.

Example jinja_examples :
  let context : context :=
    [("tenant_number", VStr "03/2025"); ("year", VInt 2025)] in
  Jinja.render "Loyer {{ tenant_number }} - {{year}}." context
    = Some "Loyer 03/2025 - 2025." /\
  Jinja.render "du {{ first_day }} au {{ last_day }}" context = Some "du  au " /\
  Jinja.render "a { b } c {" context = Some "a { b } c {" /\
  Jinja.render "{% if x %}y{% endif %}" context = None /\
  Jinja.render "{{ year + 1 }}" context = None /\
  Jinja.render "{{ range }}" context = None.
Proof. vm_compute. repeat split; reflexivity. Qed.

Example startup_example :
  let w := {| fs := []; trace := []; now := (2025, 3) |} in
  (startup w).2 = inr tt /\
  fs (startup w).1 =
    [(["data"], Dir); (["data"; "base"], Dir); (["data"; "intermediate"], Dir);
     (["data"; "final"], Dir)].
Proof. split; reflexivity. Qed.

Example generate_document_example :
  (generate_document true jinja2 (doc_request "dupont" 2024 2) sample_world).2
    = inr {| doc_file := "dupont_02_2024.html";
             doc_path := "/data/final/dupont/2024/dupont_02_2024.html" |} /\
  Os.read_text
    (fs (generate_document true jinja2 (doc_request "dupont" 2024 2) sample_world).1)
    "/data/final/dupont/2024/dupont_02_2024.html"
    = Some "Quittance du 01/02/2024 au 29/02/2024, 02/2024".
Proof. split; vm_compute; reflexivity. Qed.

Example listing_example :
  (list_base_templates listing_world).2
    = inr {| base_templates := ["recu.html"; "bail.html"] |} /\
  (list_intermediate_templates listing_world).2
    = inr {| intermediate_templates := ["dupont"] |} /\
  (list_base_templates {| fs := []; trace := []; now := (2025, 3) |}).2
    = inl (ListingHTTPException 500 MsgListBase (OSError "/data/base")).
Proof. repeat split; reflexivity. Qed.

(** Code points as characters.  With the digits '0' to '9' and the
    Arabic-Indic digits U+0660 to U+0669 as the characters that have a
    decimal value, a month written in Arabic-Indic digits is read by
    [int] and the number is accepted. *)
Example tenant_number_arabic_indic :
  let decimal (c : Z) :=
    if (48 <=? c) && (c <=? 57) then Some (c - 48)
    else if (1632 <=? c) && (c <=? 1641) then Some (c - 1632)
    else None in
  let digit (c : Z) := match decimal c with Some _ => true | None => false end in
  validate_tenant_number_over 47 digit decimal [1632; 1635; 47; 50; 48; 50; 53]
    = inr [1632; 1635; 47; 50; 48; 50; 53].
Proof. reflexivity. Qed.

(** * Properties *)

(** ** Request validation *)

Lemma is_decimal_isdigit c : Py.is_decimal c = true -> Py.char_isdigit c = true.
Proof. unfold Py.char_isdigit. intros ->. reflexivity. Qed.

Lemma validate_tenant_number_spec v :
  validate_tenant_number v =
    if tenant_number_accepted v then inr v
    else inl (ValueError (tenant_number_refusal v)).
Proof.
  unfold tenant_number_refusal.
  destruct v as [|c0 [|c1 [|c2 [|c3 [|c4 [|c5 [|c6 [|c7 r]]]]]]]]; try reflexivity.
  - unfold validate_tenant_number, tenant_number_accepted, char_at, is_slash.
    cbn [String.length String.get Py.len forallb month_number Py.slice_to
         Py.slice_from String.substring Nat.sub Py.isdigit Py.all_chars Py.int Py.int_acc].
    change (Z.of_nat 7 =? 7) with true.
    rewrite (bool_decide_eq_true_2 (7%nat = 7%nat)) by reflexivity.
    cbn [negb orb andb].
    destruct (bool_decide (c2 = "/"%char)) eqn:E2.
    2:{ rewrite bool_decide_eq_false_2; [reflexivity|].
        apply bool_decide_eq_false_1 in E2. congruence. }
    rewrite bool_decide_eq_true_2 by (apply bool_decide_eq_true_1 in E2; congruence).
    cbn [negb orb andb].
    destruct (Py.is_decimal c0) eqn:D0, (Py.is_decimal c1) eqn:D1;
    destruct (Py.char_isdigit c0) eqn:G0, (Py.char_isdigit c1) eqn:G1;
    try (apply is_decimal_isdigit in D0; congruence);
    try (apply is_decimal_isdigit in D1; congruence);
    destruct (Py.char_isdigit c3), (Py.char_isdigit c4),
             (Py.char_isdigit c5), (Py.char_isdigit c6);
    cbn [negb orb andb]; try reflexivity.
    replace (10 * (10 * 0 + Py.digit_value c0) + Py.digit_value c1)
      with (10 * Py.digit_value c0 + Py.digit_value c1) by lia.
    destruct (1 <=? _), (_ <=? 12); reflexivity.
  - unfold validate_tenant_number, tenant_number_accepted.
    replace (Py.len _ =? 7) with false.
    2:{ symmetry. apply Z.eqb_neq. unfold Py.len. cbn [String.length]. lia. }
    rewrite (bool_decide_eq_false_2 (String.length _ = 7%nat))
      by (cbn [String.length]; lia).
    reflexivity.
Qed.

Lemma request_refused_on_tenant_number base info number addr amt name msg :
  validate_tenant_number number = inl msg ->
  exists fields,
    IntermediateTemplateRequest_new base info number addr amt name
      = inl (ValidationError fields)
    /\ "tenant_number" ∈ fields.
Proof.
  intros E. unfold IntermediateTemplateRequest_new. rewrite E.
  cbn [check_validator].
  destruct (check_items "tenant_info" 3 info) as [|f l] eqn:E1.
  - eexists. split; [reflexivity|]. apply elem_of_cons. left. reflexivity.
  - eexists. split; [reflexivity|]. apply elem_of_cons. right.
    apply elem_of_app. right. apply elem_of_cons. left. reflexivity.
Qed.

(** The validator on any alphabet: its answer on seven characters. *)
Lemma validate_tenant_number_over_seven {Char : Type} `{EqDecision Char}
    (slash : Char) (isd : Char -> bool) (dec : Char -> option Z)
    (a b c y3 y4 y5 y6 : Char) :
  validate_tenant_number_over slash isd dec [a; b; c; y3; y4; y5; y6] =
    if negb (bool_decide (c = slash)) then inl (ValueError MsgTenantFormat)
    else if negb (isd a && isd b && (isd y3 && isd y4 && isd y5 && isd y6))
    then inl (ValueError MsgTenantDigits)
    else match dec a, dec b with
         | Some d0, Some d1 =>
             if negb ((1 <=? 10 * d0 + d1) && (10 * d0 + d1 <=? 12))
             then inl (ValueError MsgTenantMonth)
             else inr [a; b; c; y3; y4; y5; y6]
         | _, _ => inl (ValueError MsgIntLiteral)
         end.
Proof.
  unfold validate_tenant_number_over.
  cbn [length take drop isdigit_over forallb int_over int_acc_over].
  change (Z.of_nat 7 =? 7) with true. cbn [negb orb].
  change ([a; b; c; y3; y4; y5; y6] !! 2%nat) with (Some c).
  destruct (decide (c = slash)) as [->|Hc].
  - rewrite !bool_decide_eq_true_2 by reflexivity. cbn [negb].
    destruct (isd a), (isd b), (isd y3), (isd y4), (isd y5), (isd y6);
      cbn [negb andb]; try reflexivity.
    destruct (dec a) as [d0|]; [|reflexivity].
    destruct (dec b) as [d1|]; [|reflexivity].
    replace (10 * (10 * 0 + d0) + d1) with (10 * d0 + d1) by lia. reflexivity.
  - rewrite !bool_decide_eq_false_2 by congruence. reflexivity.
Qed.

Lemma validate_tenant_number_over_length {Char : Type} `{EqDecision Char}
    (slash : Char) (isd : Char -> bool) (dec : Char -> option Z) (v : list Char) :
  length v <> 7%nat ->
  validate_tenant_number_over slash isd dec v = inl (ValueError MsgTenantFormat).
Proof.
  intros Hl. unfold validate_tenant_number_over.
  replace (Z.of_nat (length v) =? 7) with false; [reflexivity|].
  symmetry. apply Z.eqb_neq. lia.
Qed.

Lemma seven_characters {A : Type} (v : list A) :
  length v = 7%nat -> exists a b c d e f g, v = [a; b; c; d; e; f; g].
Proof.
  destruct v as [|a [|b [|c [|d [|e [|f [|g [|h r]]]]]]]]; try discriminate.
  intros _. eauto 10.
Qed.

Lemma validate_tenant_number_over_cases {Char : Type} `{EqDecision Char}
    (slash : Char) (isd : Char -> bool) (dec : Char -> option Z) (v : list Char) :
  validate_tenant_number_over slash isd dec v = inr v \/
  exists msg, validate_tenant_number_over slash isd dec v = inl (ValueError msg).
Proof.
  unfold validate_tenant_number_over.
  repeat match goal with
         | |- context [if ?b then _ else _] => destruct b
         | |- context [match ?o with Some _ => _ | None => _ end] => destruct o
         end; eauto.
Qed.

Lemma validate_tenant_number_over_accepts {Char : Type} `{EqDecision Char}
    (slash : Char) (isd : Char -> bool) (dec : Char -> option Z) (v : list Char) :
  (forall c d, dec c = Some d -> isd c = true) ->
  validate_tenant_number_over slash isd dec v = inr v <->
  tenant_number_accepted_over slash isd dec v.
Proof.
  intros Hdec. split.
  - intros Hv. destruct (decide (length v = 7%nat)) as [Hl|Hl].
    2:{ rewrite validate_tenant_number_over_length in Hv by exact Hl. discriminate. }
    destruct (seven_characters v Hl) as (a & b & c & y3 & y4 & y5 & y6 & ->).
    rewrite validate_tenant_number_over_seven in Hv.
    case_bool_decide as Hc; [|discriminate]. subst c. cbn [negb] in Hv.
    destruct (isd a && isd b && (isd y3 && isd y4 && isd y5 && isd y6)) eqn:Hd;
      [|discriminate].
    cbn [negb] in Hv.
    destruct (dec a) as [d0|] eqn:Ha; [|discriminate].
    destruct (dec b) as [d1|] eqn:Hb; [|discriminate].
    destruct ((1 <=? 10 * d0 + d1) && (10 * d0 + d1 <=? 12)) eqn:Hm; [|discriminate].
    apply andb_true_iff in Hm as [H1 H2]. apply Z.leb_le in H1, H2.
    apply andb_true_iff in Hd as [_ Hy].
    apply andb_true_iff in Hy as [Hy H6].
    apply andb_true_iff in Hy as [Hy H5].
    apply andb_true_iff in Hy as [H3 H4].
    exists a, b, y3, y4, y5, y6, d0, d1. repeat split; auto.
  - intros (a & b & y3 & y4 & y5 & y6 & d0 & d1 & -> & Ha & Hb & Hm & H3 & H4 & H5 & H6).
    rewrite validate_tenant_number_over_seven.
    rewrite bool_decide_eq_true_2 by reflexivity.
    rewrite (Hdec _ _ Ha), (Hdec _ _ Hb), H3, H4, H5, H6, Ha, Hb. cbn [negb andb].
    replace ((1 <=? 10 * d0 + d1) && (10 * d0 + d1 <=? 12)) with true; [reflexivity|].
    symmetry. apply andb_true_iff. rewrite !Z.leb_le. lia.
Qed.

Lemma latin1_decimal_isdigit (c : ascii) (d : Z) :
  latin1_decimal c = Some d -> Py.char_isdigit c = true.
Proof.
  unfold latin1_decimal. destruct (Py.is_decimal c) eqn:E; [|discriminate].
  intros _. apply is_decimal_isdigit, E.
Qed.

Lemma length_list_ascii_of_string (s : string) :
  length (String.list_ascii_of_string s) = String.length s.
Proof. induction s as [|c r IH]; cbn; congruence. Qed.

(** The validator of the strings is the validator on the alphabet of
    the code points below 256. *)
Lemma validate_tenant_number_latin1 (s : string) :
  validate_tenant_number s =
    match validate_tenant_number_over "/"%char Py.char_isdigit latin1_decimal
            (String.list_ascii_of_string s) with
    | inl e => inl e
    | inr _ => inr s
    end.
Proof.
  destruct (decide (String.length s = 7%nat)) as [Hl|Hl].
  - destruct s as [|c0 [|c1 [|c2 [|c3 [|c4 [|c5 [|c6 [|c7 r]]]]]]]]; try discriminate.
    cbn [String.list_ascii_of_string]. rewrite validate_tenant_number_over_seven.
    unfold validate_tenant_number, latin1_decimal.
    cbn [String.length String.get Py.len Py.slice_to
         Py.slice_from String.substring Nat.sub Py.isdigit Py.all_chars Py.int Py.int_acc].
    change (Z.of_nat 7 =? 7) with true. cbn [negb orb].
    destruct (decide (c2 = "/"%char)) as [->|Hc].
    2:{ rewrite !bool_decide_eq_false_2 by congruence. reflexivity. }
    rewrite !bool_decide_eq_true_2 by reflexivity. cbn [negb].
    rewrite !andb_true_r.
    destruct (Py.char_isdigit c0), (Py.char_isdigit c1), (Py.char_isdigit c3),
             (Py.char_isdigit c4), (Py.char_isdigit c5), (Py.char_isdigit c6);
      cbn [negb andb]; try reflexivity.
    destruct (Py.is_decimal c0), (Py.is_decimal c1); cbn [andb]; try reflexivity.
    replace (10 * (10 * 0 + Py.digit_value c0) + Py.digit_value c1)
      with (10 * Py.digit_value c0 + Py.digit_value c1) by lia.
    destruct ((1 <=? _) && (_ <=? 12)); reflexivity.
  - rewrite validate_tenant_number_over_length
      by (rewrite length_list_ascii_of_string; exact Hl).
    unfold validate_tenant_number.
    replace (Py.len s =? 7) with false; [reflexivity|].
    symmetry. apply Z.eqb_neq. unfold Py.len. lia.
Qed.

(** C2 (as amended).  The validator of [tenant_number] accepts exactly
    the sequences of seven characters with the slash at index 2, two
    characters with a decimal value at indices 0 and 1 that spell a
    month from 1 to 12, and digit characters at indices 3 to 6 (not
    only 4 to 6); any other sequence makes the validator raise
    [ValueError], which the request model turns into a validation error
    naming the field.  This holds on every alphabet whose characters
    with a decimal value are digit characters, the one of Python among
    them.  The validator of the strings is the instance at the code
    points below 256, and a string it refuses makes the endpoint answer
    in the world it was called in: no file-system call has been
    made. *)
Theorem tenant_number_validation {Char : Type} `{EqDecision Char}
    (slash : Char) (char_isdigit : Char -> bool) (char_decimal : Char -> option Z)
    (v : list Char) :
  (forall c d, char_decimal c = Some d -> char_isdigit c = true) ->
  let validate := validate_tenant_number_over slash char_isdigit char_decimal in
  (validate v = inr v <->
     tenant_number_accepted_over slash char_isdigit char_decimal v)
  /\ (~ tenant_number_accepted_over slash char_isdigit char_decimal v ->
        exists msg, validate v = inl (ValueError msg) /\
                    check_validator "tenant_number" (validate v) = ["tenant_number"])
  /\ (forall s : string,
        validate_tenant_number s =
          match validate_tenant_number_over "/"%char Py.char_isdigit latin1_decimal
                  (String.list_ascii_of_string s) with
          | inl e => inl e
          | inr _ => inr s
          end)
  /\ (forall s : string,
        (validate_tenant_number s = inr s <-> tenant_number_accepted s = true) /\
        (tenant_number_accepted s = false ->
           validate_tenant_number s = inl (ValueError (tenant_number_refusal s)) /\
           forall engine base info addr amt name w, exists fields,
             POST_generate_intermediate_template engine base info s addr amt name w
               = (w, inl (ValidationError fields))
             /\ "tenant_number" ∈ fields)).
Proof.
  intros Hdec validate.
  pose proof (validate_tenant_number_over_accepts slash _ _ v Hdec) as Hiff.
  fold validate in Hiff.
  split; [exact Hiff|]. split.
  { intros Hn.
    destruct (validate_tenant_number_over_cases slash char_isdigit char_decimal v)
      as [Hv|(msg & Hv)]; fold validate in Hv.
    - destruct Hn. apply Hiff, Hv.
    - exists msg. rewrite Hv. split; reflexivity. }
  split; [exact validate_tenant_number_latin1|].
  intros s. pose proof (validate_tenant_number_spec s) as E.
  destruct (tenant_number_accepted s) eqn:A.
  - split; [split; auto | discriminate].
  - split.
    + split; [rewrite E; discriminate | discriminate].
    + intros _. split; [exact E|].
      intros engine base info addr amt name w.
      destruct (request_refused_on_tenant_number base info s addr amt name _ E)
        as (fields & Hnew & Hin).
      exists fields. split; [|exact Hin].
      unfold POST_generate_intermediate_template, bind, lift.
      rewrite Hnew. reflexivity.
Qed.

Lemma tenant_number_validation_witness :
  let v := String.list_ascii_of_string "03/2025" in
  let validate := validate_tenant_number_over "/"%char Py.char_isdigit latin1_decimal in
  (validate v = inr v <->
     tenant_number_accepted_over "/"%char Py.char_isdigit latin1_decimal v)
  /\ (~ tenant_number_accepted_over "/"%char Py.char_isdigit latin1_decimal v ->
        exists msg, validate v = inl (ValueError msg) /\
                    check_validator "tenant_number" (validate v) = ["tenant_number"])
  /\ (forall s : string,
        validate_tenant_number s =
          match validate_tenant_number_over "/"%char Py.char_isdigit latin1_decimal
                  (String.list_ascii_of_string s) with
          | inl e => inl e
          | inr _ => inr s
          end)
  /\ (forall s : string,
        (validate_tenant_number s = inr s <-> tenant_number_accepted s = true) /\
        (tenant_number_accepted s = false ->
           validate_tenant_number s = inl (ValueError (tenant_number_refusal s)) /\
           forall engine base info addr amt name w, exists fields,
             POST_generate_intermediate_template engine base info s addr amt name w
               = (w, inl (ValidationError fields))
             /\ "tenant_number" ∈ fields)).
Proof.
  intros v.
  exact (tenant_number_validation "/"%char Py.char_isdigit latin1_decimal v
           latin1_decimal_isdigit).
Defined.

(** C2, counterexample.  ["01/x025"] meets every clause of the claim
    (seven characters, a slash at index 2, decimal digits at indices 0,
    1, 4, 5 and 6, month 1) and the validator refuses it, because index
    3 is not a digit. *)
Lemma tenant_number_index_3_refused :
  tenant_number_described "01/x025" = true /\
  validate_tenant_number "01/x025" = inl (ValueError MsgTenantDigits).
Proof. split; reflexivity. Qed.

(** The digit test is [str.isdigit]: a superscript digit passes it in
    the year, and makes [int] raise in the month. *)
Example tenant_number_superscripts :
  let two := String (ascii_of_N 178) EmptyString in
  validate_tenant_number ("01/20" +:+ two +:+ "5") = inr ("01/20" +:+ two +:+ "5") /\
  validate_tenant_number ("1" +:+ two +:+ "/2025") = inl (ValueError MsgIntLiteral).
Proof. split; reflexivity. Qed.

(** C3 (as amended).  A request to generate one document whose month is
    supplied and lies outside 1..12 is refused before any file-system
    call: the request model refuses it when it is built, with a
    validation error on [month], so the endpoint answers in the world
    it was called in; the handler's own test, which answers 400, comes
    before its first file-system call too, and is reached only by a
    request object that was not built through the model. *)
Theorem month_out_of_range_refused
    (pads : bool) (engine : string -> context -> pyexn + string)
    (name : string) (y : option Z) (m : Z) (w : World) :
  m < 1 \/ 12 < m ->
  POST_generate_document pads engine name y (Some m) w
    = (w, inl (ValidationError ["month"]))
  /\ generate_document pads engine
       {| dr_intermediate_template_name := name; dr_year := y; dr_month := Some m |} w
     = (w, inl (HTTPException 400 MsgMonthRange None)).
Proof.
  intros Hm. split.
  - unfold POST_generate_document, DocumentRequest_new, check_month, bind, lift.
    replace ((1 <=? m) && (m <=? 12)) with false; [reflexivity|].
    symmetry. apply andb_false_iff. rewrite Z.leb_gt, Z.leb_gt. lia.
  - unfold generate_document, bind, datetime_now, raise.
    cbn [dr_month default from_option id].
    replace ((m <? 1) || (m >? 12)) with true; [reflexivity|].
    symmetry. apply orb_true_iff. rewrite Z.ltb_lt, Z.gtb_gt. lia.
Qed.

Lemma month_out_of_range_refused_witness :
  POST_generate_document true jinja2 "dupont" (Some 2025) (Some 13) sample_world
    = (sample_world, inl (ValidationError ["month"]))
  /\ generate_document true jinja2
       {| dr_intermediate_template_name := "dupont"; dr_year := Some 2025;
          dr_month := Some 13 |} sample_world
     = (sample_world, inl (HTTPException 400 MsgMonthRange None)).
Proof. apply month_out_of_range_refused. right. lia. Defined.

(** C3, counterexample.  With month 0, and with month 13, the endpoint
    does not answer with the 400 of the handler: the request model has
    refused the month while it was built. *)
Lemma month_zero_not_400 :
  POST_generate_document true jinja2 "dupont" (Some 2025) (Some 0) sample_world
    = (sample_world, inl (ValidationError ["month"])) /\
  POST_generate_document true jinja2 "dupont" (Some 2025) (Some 13) sample_world
    = (sample_world, inl (ValidationError ["month"])) /\
  POST_generate_document true jinja2 "dupont" (Some 2025) (Some 0) sample_world
    <> (sample_world, inl (HTTPException 400 MsgMonthRange None)).
Proof. repeat split; try reflexivity. discriminate. Qed.

(** ** Dates *)

Lemma isleap_leap_year y : Datetime.isleap y = leap_year y.
Proof.
  unfold Datetime.isleap, leap_year.
  destruct (y mod 400 =? 0) eqn:E400, (y mod 100 =? 0) eqn:E100,
           (y mod 4 =? 0) eqn:E4; try reflexivity; exfalso;
    rewrite ?Z.eqb_eq, ?Z.eqb_neq in *.
  - apply E4. rewrite (Z.div_mod y 100) by lia. rewrite E100.
    replace (100 * (y / 100) + 0) with ((25 * (y / 100)) * 4) by lia.
    apply Z.mod_mul. lia.
  - apply E100. rewrite (Z.div_mod y 400) by lia. rewrite E400.
    replace (400 * (y / 400) + 0) with ((4 * (y / 400)) * 100) by lia.
    apply Z.mod_mul. lia.
Qed.

Lemma month_cases m :
  1 <= m <= 12 ->
  m = 1 \/ m = 2 \/ m = 3 \/ m = 4 \/ m = 5 \/ m = 6 \/
  m = 7 \/ m = 8 \/ m = 9 \/ m = 10 \/ m = 11 \/ m = 12.
Proof. lia. Qed.

Ltac each_month H :=
  apply month_cases in H;
  destruct H as [->|[->|[->|[->|[->|[->|[->|[->|[->|[->|[->| ->]]]]]]]]]]].

Lemma days_in_month_length y m :
  1 <= m <= 12 -> Datetime.days_in_month y m = month_length y m.
Proof.
  intros Hm. unfold Datetime.days_in_month, month_length.
  rewrite isleap_leap_year.
  each_month Hm; try reflexivity.
  cbn. destruct (leap_year y); reflexivity.
Qed.

Lemma month_length_bounds y m : 28 <= month_length y m <= 31.
Proof.
  unfold month_length.
  destruct (m =? 2); [destruct (leap_year y); lia|].
  destruct (_ || _); lia.
Qed.

Lemma fits_int_spec n :
  Datetime.fits_int n = true <-> - 2147483648 <= n <= 2147483647.
Proof.
  unfold Datetime.fits_int, Datetime.INT_MIN, Datetime.INT_MAX.
  rewrite andb_true_iff, !Z.leb_le.
  change (- 2 ^ 31) with (- 2147483648). change (2 ^ 31 - 1) with 2147483647.
  reflexivity.
Qed.

Lemma fits_int_small n : - 10000 <= n <= 10000 -> Datetime.fits_int n = true.
Proof. intros Hn. apply fits_int_spec. lia. Qed.

Lemma date_new_ok y m d :
  1 <= y <= 9999 -> 1 <= m <= 12 -> 1 <= d <= month_length y m ->
  Datetime.date_new y m d
    = inr {| Datetime.d_year := y; Datetime.d_month := m; Datetime.d_day := d |}.
Proof.
  intros Hy Hm Hd. unfold Datetime.date_new, Datetime.MINYEAR, Datetime.MAXYEAR.
  pose proof (month_length_bounds y m) as Hlen.
  rewrite !fits_int_small by lia. cbn [andb negb].
  rewrite days_in_month_length by exact Hm.
  replace ((1 <=? y) && (y <=? 9999)) with true
    by (symmetry; apply andb_true_iff; rewrite !Z.leb_le; lia).
  replace ((1 <=? m) && (m <=? 12)) with true
    by (symmetry; apply andb_true_iff; rewrite !Z.leb_le; lia).
  replace ((1 <=? d) && (d <=? month_length y m)) with true
    by (symmetry; apply andb_true_iff; rewrite !Z.leb_le; lia).
  reflexivity.
Qed.

Lemma monthrange_ok y m :
  1 <= y <= 9999 -> 1 <= m <= 12 ->
  exists day1, Datetime.monthrange y m = inr (day1, month_length y m).
Proof.
  intros Hy Hm. unfold Datetime.monthrange, Datetime.calendar_weekday,
    Datetime.MINYEAR, Datetime.MAXYEAR.
  replace ((1 <=? m) && (m <=? 12)) with true
    by (symmetry; apply andb_true_iff; rewrite !Z.leb_le; lia).
  replace ((1 <=? y) && (y <=? 9999)) with true
    by (symmetry; apply andb_true_iff; rewrite !Z.leb_le; lia).
  cbn [negb].
  rewrite date_new_ok by (pose proof (month_length_bounds y m); lia).
  rewrite days_in_month_length by exact Hm.
  eexists. reflexivity.
Qed.

Lemma str_of_nonneg y : 0 <= y -> Py.str y = Py.str_nonneg y.
Proof.
  intros Hy. unfold Py.str.
  replace (y <? 0) with false by (symmetry; apply Z.ltb_ge; lia). reflexivity.
Qed.

Lemma fuel_at_least y (k : nat) :
  2 ^ Z.of_nat k <= y ->
  exists f, S (Z.to_nat (Z.log2 y)) = S (k + f).
Proof.
  intros Hy.
  assert (Z.of_nat k <= Z.log2 y).
  { rewrite <- (Z.log2_pow2 (Z.of_nat k)) by lia. apply Z.log2_le_mono. lia. }
  exists (Z.to_nat (Z.log2 y) - k)%nat. lia.
Qed.

(** The decimal writing of a number below 10000, digit by digit. *)
Lemma str_below_10000 y :
  0 <= y <= 9999 ->
  Py.str y =
    let d0 := Py.digit_char (y mod 10) in
    let d1 := Py.digit_char (y / 10 mod 10) in
    let d2 := Py.digit_char (y / 100 mod 10) in
    let d3 := Py.digit_char (y / 1000) in
    if y <? 10 then String d0 EmptyString
    else if y <? 100 then String d1 (String d0 EmptyString)
    else if y <? 1000 then String d2 (String d1 (String d0 EmptyString))
    else String d3 (String d2 (String d1 (String d0 EmptyString))).
Proof.
  intros Hy. rewrite str_of_nonneg by lia. unfold Py.str_nonneg. cbv zeta.
  destruct (y <? 10) eqn:E1.
  { cbn [Py.digits]. rewrite E1. reflexivity. }
  apply Z.ltb_ge in E1.
  assert (Ha : y / 10 / 10 = y / 100) by (rewrite Z.div_div by lia; reflexivity).
  assert (Hb : y / 100 / 10 = y / 1000)
    by (rewrite Z.div_div by lia; reflexivity).
  destruct (y <? 100) eqn:E2.
  { apply Z.ltb_lt in E2.
    destruct (fuel_at_least y 3%nat) as [f ->]; [change (2 ^ Z.of_nat 3) with 8; lia |].
    cbn [Py.digits Nat.add].
    replace (y <? 10) with false by (symmetry; apply Z.ltb_ge; lia).
    replace (y / 10 <? 10) with true
      by (symmetry; apply Z.ltb_lt; apply Z.div_lt_upper_bound; lia).
    reflexivity. }
  apply Z.ltb_ge in E2.
  destruct (y <? 1000) eqn:E3.
  { apply Z.ltb_lt in E3.
    destruct (fuel_at_least y 6%nat) as [f ->]; [change (2 ^ Z.of_nat 6) with 64; lia |].
    cbn [Py.digits Nat.add].
    replace (y <? 10) with false by (symmetry; apply Z.ltb_ge; lia).
    replace (y / 10 <? 10) with false
      by (symmetry; apply Z.ltb_ge; apply Z.div_le_lower_bound; lia).
    rewrite Ha.
    replace (y / 100 <? 10) with true
      by (symmetry; apply Z.ltb_lt; apply Z.div_lt_upper_bound; lia).
    reflexivity. }
  apply Z.ltb_ge in E3.
  destruct (fuel_at_least y 9%nat) as [f ->]; [change (2 ^ Z.of_nat 9) with 512; lia |].
  cbn [Py.digits Nat.add].
  replace (y <? 10) with false by (symmetry; apply Z.ltb_ge; lia).
  replace (y / 10 <? 10) with false
    by (symmetry; apply Z.ltb_ge; apply Z.div_le_lower_bound; lia).
  rewrite Ha.
  replace (y / 100 <? 10) with false
    by (symmetry; apply Z.ltb_ge; apply Z.div_le_lower_bound; lia).
  rewrite Hb.
  assert (y / 1000 < 10) by (apply Z.div_lt_upper_bound; lia).
  assert (0 <= y / 1000) by (apply Z.div_pos; lia).
  replace (y / 1000 <? 10) with true by (symmetry; apply Z.ltb_lt; lia).
  rewrite (Z.mod_small (y / 1000)) by lia.
  reflexivity.
Qed.

Lemma two_digits_split y :
  0 <= y ->
  (y mod 100) / 10 = y / 10 mod 10 /\ (y mod 100) mod 10 = y mod 10.
Proof.
  intros Hy. split; Z.div_mod_to_equations; lia.
Qed.

Lemma format_02d_two_digits n :
  0 <= n < 100 -> Py.format_02d n = two_digits n.
Proof.
  intros Hn. unfold Py.format_02d, two_digits.
  rewrite str_below_10000 by lia. cbv zeta.
  destruct (n <? 10) eqn:E.
  - apply Z.ltb_lt in E.
    replace (0 <=? n) with true by (symmetry; apply Z.leb_le; lia).
    cbn [andb]. rewrite (Z.div_small n 10) by lia. reflexivity.
  - apply Z.ltb_ge in E. rewrite andb_false_r.
    replace (n <? 100) with true by (symmetry; apply Z.ltb_lt; lia).
    rewrite (Z.mod_small (n / 10)); [reflexivity|].
    split; [apply Z.div_pos; lia | apply Z.div_lt_upper_bound; lia].
Qed.

Lemma four_digits_unfold y :
  0 <= y ->
  four_digits y =
    String (Py.digit_char (y / 1000))
      (String (Py.digit_char (y / 100 mod 10))
         (String (Py.digit_char (y / 10 mod 10))
            (String (Py.digit_char (y mod 10)) EmptyString))).
Proof.
  intros Hy. unfold four_digits, two_digits.
  destruct (two_digits_split y Hy) as [-> ->]. reflexivity.
Qed.

Lemma str_four_digits y : 1000 <= y <= 9999 -> Py.str y = four_digits y.
Proof.
  intros Hy. rewrite str_below_10000, four_digits_unfold by lia. cbv zeta.
  replace (y <? 10) with false by (symmetry; apply Z.ltb_ge; lia).
  replace (y <? 100) with false by (symmetry; apply Z.ltb_ge; lia).
  replace (y <? 1000) with false by (symmetry; apply Z.ltb_ge; lia).
  reflexivity.
Qed.

Lemma format_Y_padded y : 1 <= y <= 9999 -> Datetime.format_Y true y = four_digits y.
Proof.
  intros Hy. unfold Datetime.format_Y.
  rewrite str_below_10000, four_digits_unfold by lia. cbv zeta.
  destruct (y <? 10) eqn:E1.
  { apply Z.ltb_lt in E1. cbn [String.length Nat.sub Datetime.zeros].
    rewrite (Z.div_small y 1000), (Z.div_small y 100), (Z.div_small y 10) by lia.
    reflexivity. }
  apply Z.ltb_ge in E1.
  destruct (y <? 100) eqn:E2.
  { apply Z.ltb_lt in E2. cbn [String.length Nat.sub Datetime.zeros].
    rewrite (Z.div_small y 1000), (Z.div_small y 100) by lia. reflexivity. }
  apply Z.ltb_ge in E2.
  destruct (y <? 1000) eqn:E3.
  { apply Z.ltb_lt in E3. cbn [String.length Nat.sub Datetime.zeros].
    rewrite (Z.div_small y 1000) by lia. reflexivity. }
  reflexivity.
Qed.

Lemma format_Y_four_digits pads y :
  1 <= y <= 9999 -> pads = true \/ 1000 <= y ->
  Datetime.format_Y pads y = four_digits y.
Proof.
  intros Hy [-> | Hbig].
  - apply format_Y_padded, Hy.
  - destruct pads; [apply format_Y_padded, Hy|].
    unfold Datetime.format_Y. apply str_four_digits. lia.
Qed.

Lemma get_first_last_day_value pads y m :
  1 <= y <= 9999 -> 1 <= m <= 12 ->
  get_first_last_day pads y m
    = inr (day_month_year 1 m (Datetime.format_Y pads y),
           day_month_year (month_length y m) m (Datetime.format_Y pads y)).
Proof.
  intros Hy Hm. unfold get_first_last_day.
  pose proof (month_length_bounds y m) as Hl.
  rewrite date_new_ok by lia.
  destruct (monthrange_ok y m Hy Hm) as [day1 ->].
  rewrite date_new_ok by lia.
  unfold Datetime.strftime_dmY, day_month_year.
  cbn [Datetime.d_day Datetime.d_month Datetime.d_year].
  rewrite !format_02d_two_digits by lia. reflexivity.
Qed.

(** C5 (as amended).  For every year from 1 to 9999 and every month
    from 1 to 12, [get_first_last_day] returns the first and the last
    day of the month: day 01 and the day numbered by the length of the
    month in the Gregorian calendar, each written day/month/year with
    two digits for the day and the month, and the year as [%Y] prints
    it, which is the four-digit year from 1000 on and wherever the C
    library pads; the two results of the specification are as stated. *)
Theorem get_first_last_day_correct (pads : bool) (y m : Z) :
  1 <= y <= 9999 -> 1 <= m <= 12 ->
  get_first_last_day pads y m
    = inr (day_month_year 1 m (Datetime.format_Y pads y),
           day_month_year (month_length y m) m (Datetime.format_Y pads y))
  /\ (pads = true \/ 1000 <= y -> Datetime.format_Y pads y = four_digits y)
  /\ get_first_last_day pads 2024 2 = inr ("01/02/2024", "29/02/2024")
  /\ get_first_last_day pads 2023 2 = inr ("01/02/2023", "28/02/2023").
Proof.
  intros Hy Hm. split; [apply get_first_last_day_value; assumption|].
  split; [apply format_Y_four_digits, Hy|].
  split; destruct pads; reflexivity.
Qed.

Lemma get_first_last_day_correct_witness :
  get_first_last_day false 2025 4
    = inr (day_month_year 1 4 (Datetime.format_Y false 2025),
           day_month_year (month_length 2025 4) 4 (Datetime.format_Y false 2025))
  /\ (false = true \/ 1000 <= 2025 -> Datetime.format_Y false 2025 = four_digits 2025)
  /\ get_first_last_day false 2024 2 = inr ("01/02/2024", "29/02/2024")
  /\ get_first_last_day false 2023 2 = inr ("01/02/2023", "28/02/2023").
Proof. apply (get_first_last_day_correct false 2025 4); lia. Defined.

(** C5, counterexample.  For the years 0 and 10000 no pair is returned:
    [datetime.date] raises [ValueError]. *)
Lemma get_first_last_day_year_0 :
  get_first_last_day true 0 1 = inl (ValueError MsgDateRange) /\
  get_first_last_day false 0 1 = inl (ValueError MsgDateRange) /\
  get_first_last_day true 10000 12 = inl (ValueError MsgDateRange) /\
  get_first_last_day false 10000 12 = inl (ValueError MsgDateRange).
Proof. repeat split; reflexivity. Qed.

(** ** The file system *)

Lemma store_lookup_insert_eq (nodes : store) loc n :
  <[loc := n]> nodes !! loc = Some n.
Proof.
  unfold insert, lookup, store_insert_inst, store_lookup_inst.
  induction nodes as [|[loc' n'] rest IH]; cbn [store_insert store_lookup].
  - rewrite bool_decide_eq_true_2 by reflexivity. reflexivity.
  - destruct (bool_decide (loc' = loc)) eqn:E; cbn [store_lookup].
    + rewrite bool_decide_eq_true_2 by reflexivity. reflexivity.
    + rewrite E. exact IH.
Qed.

Lemma store_lookup_insert_ne (nodes : store) loc loc' n :
  loc <> loc' -> <[loc := n]> nodes !! loc' = nodes !! loc'.
Proof.
  intros Hne. unfold insert, lookup, store_insert_inst, store_lookup_inst.
  induction nodes as [|[l n'] rest IH]; cbn [store_insert store_lookup].
  - rewrite bool_decide_eq_false_2 by exact Hne. reflexivity.
  - destruct (bool_decide (l = loc)) eqn:E; cbn [store_lookup].
    + apply bool_decide_eq_true_1 in E. subst l.
      rewrite !bool_decide_eq_false_2 by exact Hne. reflexivity.
    + rewrite IH. reflexivity.
Qed.

Lemma store_insert_insert_eq (nodes : store) loc n n' :
  <[loc := n]> (<[loc := n']> nodes) = <[loc := n]> nodes.
Proof.
  unfold insert, store_insert_inst.
  induction nodes as [|[l m] rest IH]; cbn [store_insert].
  - rewrite bool_decide_eq_true_2 by reflexivity. reflexivity.
  - destruct (bool_decide (l = loc)) eqn:E; cbn [store_insert].
    + rewrite bool_decide_eq_true_2 by reflexivity. reflexivity.
    + rewrite E, IH. reflexivity.
Qed.

Lemma store_le_refl n : store_le n n.
Proof. split; auto. Qed.

Lemma store_le_trans n1 n2 n3 : store_le n1 n2 -> store_le n2 n3 -> store_le n1 n3.
Proof. intros [A B] [C D]. split; auto. Qed.

Lemma is_dir_insert_dir nodes loc x :
  Os.is_dir nodes x = true -> Os.is_dir (<[loc := Dir]> nodes) x = true.
Proof.
  unfold Os.is_dir. destruct x as [|a x]; [reflexivity|].
  destruct (decide (loc = a :: x)) as [->|Hne].
  - rewrite store_lookup_insert_eq. reflexivity.
  - rewrite store_lookup_insert_ne by exact Hne. auto.
Qed.

Lemma store_le_insert_dir nodes loc :
  nodes !! loc = None -> store_le nodes (<[loc := Dir]> nodes).
Proof.
  intros Hnone. split.
  - intros x. apply is_dir_insert_dir.
  - intros x c Hx. rewrite store_lookup_insert_ne; [exact Hx|]. congruence.
Qed.

Lemma is_dir_insert_file nodes loc c x :
  Os.is_dir nodes loc = false ->
  Os.is_dir (<[loc := File c]> nodes) x = Os.is_dir nodes x.
Proof.
  intros Hloc. unfold Os.is_dir. destruct x as [|a x]; [reflexivity|].
  destruct (decide (loc = a :: x)) as [->|Hne].
  - rewrite store_lookup_insert_eq. unfold Os.is_dir in Hloc.
    destruct (nodes !! (a :: x)) as [[|]|]; congruence.
  - rewrite store_lookup_insert_ne by exact Hne. reflexivity.
Qed.

Lemma walk_ext n1 n2 cur comps :
  (forall x, Os.is_dir n1 x = Os.is_dir n2 x) ->
  Os.walk n1 cur comps = Os.walk n2 cur comps.
Proof.
  intros Hext. revert cur. induction comps as [|c rest IH]; intros cur; [reflexivity|].
  cbn [Os.walk]. rewrite Hext, !IH. reflexivity.
Qed.

Lemma walk_mono n1 n2 cur comps loc :
  (forall x, Os.is_dir n1 x = true -> Os.is_dir n2 x = true) ->
  Os.walk n1 cur comps = Some loc -> Os.walk n2 cur comps = Some loc.
Proof.
  intros Hle. revert cur. induction comps as [|c rest IH]; intros cur; [auto|].
  cbn [Os.walk]. destruct (Os.is_dir n1 cur) eqn:E; [|discriminate].
  rewrite (Hle _ E).
  destruct (_ || _); [apply IH|]. destruct (bool_decide _); apply IH.
Qed.

Lemma content_mono n1 n2 path c :
  store_le n1 n2 -> Os.content n1 path = Some c -> Os.content n2 path = Some c.
Proof.
  intros [Hd Hf]. unfold Os.content, Os.resolve.
  destruct (Os.walk n1 [] _) as [loc|] eqn:E; [|discriminate].
  rewrite (walk_mono _ _ _ _ _ Hd E).
  destruct (n1 !! loc) as [[|c']|] eqn:El; try discriminate.
  intros [= ->]. rewrite (Hf _ _ El). reflexivity.
Qed.

(** Reading gives the text of the file, line endings translated. *)
Lemma read_text_content nodes path c :
  Os.read_text nodes path = Some c <->
  exists raw, Os.content nodes path = Some raw /\ c = Py.universal_newlines raw.
Proof.
  unfold Os.read_text. destruct (Os.content nodes path) as [raw|]; cbn; split.
  - intros [= <-]. eauto.
  - intros (raw' & [= <-] & ->). reflexivity.
  - discriminate.
  - intros (raw' & [=] & _).
Qed.

Lemma read_text_mono n1 n2 path c :
  store_le n1 n2 -> Os.read_text n1 path = Some c -> Os.read_text n2 path = Some c.
Proof.
  intros Hle H. apply read_text_content in H as (raw & Hraw & ->).
  apply read_text_content. exists raw. split; [|reflexivity].
  exact (content_mono _ _ _ _ Hle Hraw).
Qed.

Lemma isfile_read_text nodes path :
  Os.isfile nodes path = true <-> exists c, Os.read_text nodes path = Some c.
Proof.
  unfold Os.isfile, Os.read_text, Os.content.
  destruct (Os.resolve nodes path) as [loc|].
  - destruct (nodes !! loc) as [[|c]|]; split; try discriminate; eauto;
      intros [c' H]; discriminate.
  - split; [discriminate | intros [c H]; discriminate].
Qed.

Lemma makedirs_from_le comps :
  forall nodes cur, store_le nodes (Os.makedirs_from nodes cur comps).1.
Proof.
  induction comps as [|c rest IH]; intros nodes cur; cbn [Os.makedirs_from].
  - apply store_le_refl.
  - destruct (Os.is_dir nodes cur); [|apply store_le_refl].
    destruct (_ || _); [apply IH|].
    destruct (bool_decide _); [apply IH|].
    destruct (nodes !! (cur ++ [c])) as [[|t]|] eqn:E.
    + apply IH.
    + apply store_le_refl.
    + eapply store_le_trans; [apply store_le_insert_dir, E | apply IH].
Qed.

Lemma makedirs_le nodes path : store_le nodes (Os.makedirs nodes path).1.
Proof. apply makedirs_from_le. Qed.

Lemma write_text_inv nodes path c nodes' :
  Os.write_text nodes path c = Some nodes' ->
  exists loc, Os.resolve nodes path = Some loc /\ Os.is_dir nodes loc = false
              /\ nodes' = <[loc := File c]> nodes.
Proof.
  unfold Os.write_text. destruct (Os.resolve nodes path) as [loc|]; [|discriminate].
  destruct (Os.is_dir nodes loc) eqn:E; [discriminate|].
  intros [= <-]. eauto.
Qed.

Lemma isfile_content nodes path :
  Os.isfile nodes path = true <-> exists c, Os.content nodes path = Some c.
Proof.
  unfold Os.isfile, Os.content.
  destruct (Os.resolve nodes path) as [loc|].
  - destruct (nodes !! loc) as [[|c]|]; split; try discriminate; eauto;
      intros (c' & [=]).
  - split; [discriminate|]. intros (c & [=]).
Qed.

Lemma resolve_after_write nodes loc c path :
  Os.is_dir nodes loc = false ->
  Os.resolve (<[loc := File c]> nodes) path = Os.resolve nodes path.
Proof.
  intros Hloc. apply walk_ext. intros x. apply is_dir_insert_file, Hloc.
Qed.

Lemma content_after_write nodes path c nodes' :
  Os.write_text nodes path c = Some nodes' -> Os.content nodes' path = Some c.
Proof.
  intros H. apply write_text_inv in H as (loc & Hres & Hdir & ->).
  unfold Os.content. rewrite resolve_after_write, Hres by exact Hdir.
  rewrite store_lookup_insert_eq. reflexivity.
Qed.

Lemma read_after_write nodes path c nodes' :
  Os.write_text nodes path c = Some nodes' ->
  Os.read_text nodes' path = Some (Py.universal_newlines c).
Proof.
  intros H. unfold Os.read_text. rewrite (content_after_write _ _ _ _ H). reflexivity.
Qed.

Lemma write_twice nodes path c nodes' :
  Os.write_text nodes path c = Some nodes' ->
  Os.write_text nodes' path c = Some nodes'.
Proof.
  intros H. apply write_text_inv in H as (loc & Hres & Hdir & ->).
  unfold Os.write_text. rewrite resolve_after_write, Hres by exact Hdir.
  rewrite is_dir_insert_file, Hdir by exact Hdir.
  rewrite store_insert_insert_eq. reflexivity.
Qed.

Lemma content_elsewhere_after_write nodes path c nodes' path' c' loc loc' :
  Os.write_text nodes path c = Some nodes' ->
  Os.resolve nodes path = Some loc ->
  Os.resolve nodes path' = Some loc' ->
  loc <> loc' ->
  Os.content nodes path' = Some c' ->
  Os.content nodes' path' = Some c'.
Proof.
  intros H Hloc Hloc' Hne Hread.
  apply write_text_inv in H as (l & Hres & Hdir & ->).
  assert (l = loc) as -> by congruence.
  unfold Os.content in *. rewrite resolve_after_write by exact Hdir.
  rewrite Hloc' in *. rewrite store_lookup_insert_ne by exact Hne. exact Hread.
Qed.

Lemma read_elsewhere_after_write nodes path c nodes' path' c' loc loc' :
  Os.write_text nodes path c = Some nodes' ->
  Os.resolve nodes path = Some loc ->
  Os.resolve nodes path' = Some loc' ->
  loc <> loc' ->
  Os.read_text nodes path' = Some c' ->
  Os.read_text nodes' path' = Some c'.
Proof.
  intros H Hloc Hloc' Hne Hread.
  apply read_text_content in Hread as (raw & Hraw & ->).
  apply read_text_content. exists raw. split; [|reflexivity].
  exact (content_elsewhere_after_write _ _ _ _ _ _ _ _ H Hloc Hloc' Hne Hraw).
Qed.

(** ** What one generation does *)

Lemma generate_document_run pads engine request w w' res :
  generate_document pads engine request w = (w', res) ->
  let name := dr_intermediate_template_name request in
  let y := year_of request w in
  let m := month_of request w in
  now w' = now w /\
  exists evs, trace w' = trace w ++ evs /\
    match res with
    | inl e =>
        store_le (fs w) (fs w') /\ written_paths evs = []
    | inr r =>
        1 <= m <= 12 /\
        exists days template out nodes1 nodes2,
          get_first_last_day pads y m = inr days /\
          Os.read_text (fs w) (intermediate_path_of name) = Some template /\
          engine template (document_context days.1 days.2 y m) = inr out /\
          Os.makedirs (fs w) (final_dir_of name y) = (nodes1, true) /\
          Os.write_text nodes1 (final_document_path_of name y m) out = Some nodes2 /\
          fs w' = nodes2 /\
          evs = generation_events name y m template out /\
          r = {| doc_file := final_filename_of name y m;
                 doc_path := final_document_path_of name y m |}
    end.
Proof.
  intros H name y m. unfold generate_document in H.
  unfold bind, datetime_now in H.
  fold (year_of request w) in H. fold y in H.
  fold (month_of request w) in H. fold m in H.
  destruct ((m <? 1) || (m >? 12)) eqn:Em.
  { unfold raise in H. injection H as <- <-.
    split; [reflexivity|]. exists []. rewrite app_nil_r.
    repeat split; auto. }
  fold name in H. fold (intermediate_path_of name) in H.
  change (Posix.join (final_dir_of name y) [final_filename_of name y m])
    with (final_document_path_of name y m) in H.
  unfold call, try_except, pure in H.
  destruct (get_first_last_day pads y m) as [e|days] eqn:Edays.
  { injection H as <- <-. split; [reflexivity|]. exists []. rewrite app_nil_r.
    repeat split; auto. }
  unfold os_path_isfile in H.
  destruct (Os.isfile (fs w) (intermediate_path_of name)) eqn:Efile; cbn [negb] in H.
  2:{ unfold raise in H. injection H as <- <-. split; [reflexivity|].
      eexists [_]. repeat split; auto. }
  unfold open_read in H. cbn [fs log] in H.
  destruct (Os.read_text (fs w) (intermediate_path_of name)) as [template|] eqn:Eread.
  2:{ injection H as <- <-. split; [reflexivity|].
      eexists [_; _]. cbn [trace log]. rewrite <- app_assoc.
      repeat split; auto. }
  unfold render_template in H.
  destruct (engine template _) as [e|out] eqn:Eout.
  { injection H as <- <-. split; [reflexivity|].
    eexists [_; _]. cbn [trace log]. rewrite <- app_assoc.
    repeat split; auto. }
  unfold os_makedirs in H. cbn [fs log] in H.
  pose proof (makedirs_le (fs w) (final_dir_of name y)) as Hle.
  destruct (Os.makedirs (fs w) (final_dir_of name y)) as [nodes1 [|]] eqn:Emk.
  2:{ injection H as <- <-. split; [reflexivity|].
      eexists [_; _; _]. cbn [trace log set_fs]. rewrite <- !app_assoc.
      repeat split; try apply Hle. }
  unfold open_write in H. cbn [fs log set_fs] in H.
  destruct (Os.write_text nodes1 _ out) as [nodes2|] eqn:Ewr.
  2:{ injection H as <- <-. split; [reflexivity|].
      eexists [_; _; _; _]. cbn [trace log set_fs fs]. rewrite <- !app_assoc.
      repeat split; try apply Hle. }
  unfold ret in H. injection H as <- <-. split; [reflexivity|].
  eexists. cbn [trace log set_fs fs]. rewrite <- !app_assoc. split; [reflexivity|].
  split.
  { apply orb_false_iff in Em as [E1 E2].
    apply Z.ltb_ge in E1. rewrite Z.gtb_ltb in E2. apply Z.ltb_ge in E2. lia. }
  exists days, template, out, nodes1, nodes2. repeat split; auto.
Qed.

(** ** Strings and path components *)

Lemma append_cons x (a b : string) : String x a +:+ b = String x (a +:+ b).
Proof. reflexivity. Qed.

Lemma append_nil (b : string) : "" +:+ b = b.
Proof. reflexivity. Qed.

Lemma append_assoc (a b c : string) : (a +:+ b) +:+ c = a +:+ (b +:+ c).
Proof.
  induction a as [|x a IH]; [reflexivity|].
  rewrite !append_cons, IH. reflexivity.
Qed.

Lemma append_inj_l (l a b : string) : l +:+ a = l +:+ b -> a = b.
Proof.
  induction l as [|x l IH]; [auto|].
  rewrite !append_cons. intros [= H]. auto.
Qed.

Lemma all_chars_append p (a b : string) :
  Py.all_chars p (a +:+ b) = Py.all_chars p a && Py.all_chars p b.
Proof.
  induction a as [|x a IH]; [reflexivity|].
  rewrite append_cons. cbn [Py.all_chars]. rewrite IH, andb_assoc. reflexivity.
Qed.

Lemma digit_char_no_slash d : 0 <= d < 10 -> negb (is_slash (Py.digit_char d)) = true.
Proof.
  intros Hd.
  assert (d = 0 \/ d = 1 \/ d = 2 \/ d = 3 \/ d = 4 \/ d = 5 \/ d = 6 \/ d = 7
          \/ d = 8 \/ d = 9) as H by lia.
  destruct H as [->|[->|[->|[->|[->|[->|[->|[->|[->| ->]]]]]]]]]; reflexivity.
Qed.

Lemma digits_no_slash fuel : forall n acc,
  no_slash acc = true -> no_slash (Py.digits fuel n acc) = true.
Proof.
  induction fuel as [|f IH]; intros n acc Hacc; cbn [Py.digits]; [exact Hacc|].
  assert (no_slash (String (Py.digit_char (n mod 10)) acc) = true) as Hstep.
  { unfold no_slash in *. cbn [Py.all_chars].
    rewrite digit_char_no_slash by (apply Z.mod_pos_bound; lia). exact Hacc. }
  destruct (n <? 10); [exact Hstep | apply IH, Hstep].
Qed.

Lemma str_no_slash n : no_slash (Py.str n) = true.
Proof.
  unfold Py.str, Py.str_nonneg.
  destruct (n <? 0).
  - change (no_slash (Py.digits (S (Z.to_nat (Z.log2 (- n)))) (- n) "") = true).
    apply digits_no_slash. reflexivity.
  - apply digits_no_slash. reflexivity.
Qed.

Lemma format_02d_no_slash n : no_slash (Py.format_02d n) = true.
Proof.
  unfold Py.format_02d. destruct (_ && _); [|apply str_no_slash].
  change (no_slash (Py.str n) = true). apply str_no_slash.
Qed.

Lemma final_suffix_no_slash y m : no_slash (final_suffix y m) = true.
Proof.
  unfold final_suffix, no_slash.
  rewrite !all_chars_append.
  fold (no_slash (Py.format_02d m)). fold (no_slash (Py.str y)).
  rewrite format_02d_no_slash, str_no_slash. reflexivity.
Qed.

Lemma components_no_slash s : no_slash s = true -> Posix.components s = [s].
Proof.
  induction s as [|c r IH]; [reflexivity|].
  unfold no_slash. cbn [Py.all_chars Posix.components].
  intros H. apply andb_true_iff in H as [Hc Hr].
  unfold is_slash in Hc. destruct (bool_decide (c = "/"%char)); [discriminate|].
  rewrite (IH Hr). reflexivity.
Qed.

(** The components of [a +:+ b], when [b] holds no separator, are those
    of [a] with [b] appended to the last one. *)
Lemma components_snoc a :
  exists init l,
    Posix.components a = init ++ [l] /\
    forall b, no_slash b = true -> Posix.components (a +:+ b) = init ++ [l +:+ b].
Proof.
  induction a as [|c r (init & l & Hr & Hb)].
  - exists [], "". split; [reflexivity|]. intros b Hns. apply components_no_slash, Hns.
  - rewrite ?append_cons. cbn [Posix.components].
    destruct (bool_decide (c = "/"%char)) eqn:E.
    + exists ("" :: init), l. split; [rewrite Hr; reflexivity|].
      intros b Hns. rewrite append_cons. cbn [Posix.components].
      rewrite E, (Hb b Hns). reflexivity.
    + destruct init as [|x xs].
      * exists [], (String c l). split; [rewrite Hr; reflexivity|].
        intros b Hns. rewrite append_cons. cbn [Posix.components].
        rewrite E, (Hb b Hns). reflexivity.
      * exists (String c x :: xs), l. split; [rewrite Hr; reflexivity|].
        intros b Hns. rewrite append_cons. cbn [Posix.components].
        rewrite E, (Hb b Hns). reflexivity.
Qed.

Lemma walk_app nodes l1 : forall cur l2,
  Os.walk nodes cur (l1 ++ l2) =
    match Os.walk nodes cur l1 with
    | Some d => Os.walk nodes d l2
    | None => None
    end.
Proof.
  induction l1 as [|c l1 IH]; intros cur l2; [reflexivity|].
  cbn [Os.walk app].
  destruct (Os.is_dir nodes cur); [|reflexivity].
  destruct (_ || _); [apply IH|]. destruct (bool_decide _); apply IH.
Qed.

Lemma walk_last nodes cur init c loc :
  ordinary c ->
  Os.walk nodes cur (init ++ [c]) = Some loc ->
  exists d, loc = d ++ [c].
Proof.
  intros (H1 & H2 & H3). rewrite walk_app.
  destruct (Os.walk nodes cur init) as [d|]; [|discriminate].
  cbn [Os.walk]. destruct (Os.is_dir nodes d); [|discriminate].
  rewrite !bool_decide_eq_false_2 by assumption. cbn [orb].
  intros [= <-]. eauto.
Qed.

Lemma underscore_ordinary l r : ordinary (l +:+ String "_" r).
Proof.
  destruct l as [|c1 [|c2 l]]; rewrite ?append_cons, ?append_nil;
    repeat split; try discriminate.
  intros [= _ H]. destruct l; discriminate.
Qed.

(** ** Where the final documents go *)

Lemma final_filename_suffix name y m :
  final_filename_of name y m = name +:+ final_suffix y m.
Proof. reflexivity. Qed.

Lemma final_suffix_head y m :
  final_suffix y m = String "_" (Py.format_02d m +:+ "_" +:+ Py.str y +:+ ".html").
Proof. reflexivity. Qed.

Lemma startswith_sep_filename name y m :
  Posix.startswith_sep (final_filename_of name y m) = Posix.startswith_sep name.
Proof. destruct name; reflexivity. Qed.

(** The path of a final document is a prefix that does not depend on
    the month, followed by the suffix naming the month. *)
Lemma final_path_split name y :
  exists Q, forall m, final_document_path_of name y m = Q +:+ final_suffix y m.
Proof.
  unfold final_document_path_of, Posix.join. cbn [foldl].
  set (dir := final_dir_of name y).
  destruct (Posix.startswith_sep name) eqn:Es.
  - exists name. intros m. unfold Posix.join2.
    rewrite startswith_sep_filename, Es. reflexivity.
  - destruct (bool_decide (dir = "") || Posix.endswith_sep dir) eqn:Ed.
    + exists (dir +:+ name). intros m. unfold Posix.join2.
      rewrite startswith_sep_filename, Es, Ed, final_filename_suffix, append_assoc.
      reflexivity.
    + exists (dir +:+ "/" +:+ name). intros m. unfold Posix.join2.
      rewrite startswith_sep_filename, Es, Ed, final_filename_suffix, !append_assoc.
      reflexivity.
Qed.

Lemma final_suffix_inj y k m :
  1 <= k <= 12 -> 1 <= m <= 12 -> final_suffix y k = final_suffix y m -> k = m.
Proof.
  intros Hk Hm H. apply (f_equal (String.substring 0 3)) in H.
  each_month Hk; each_month Hm; try reflexivity; vm_compute in H; discriminate H.
Qed.

(** Documents of different months are at different locations, whatever
    the state of the store when each path is resolved. *)
Lemma final_locations_distinct name y k m nodes nodes' loc loc' :
  1 <= k <= 12 -> 1 <= m <= 12 -> k <> m ->
  Os.resolve nodes (final_document_path_of name y k) = Some loc ->
  Os.resolve nodes' (final_document_path_of name y m) = Some loc' ->
  loc <> loc'.
Proof.
  intros Hk Hm Hne. unfold Os.resolve.
  destruct (final_path_split name y) as [Q HQ]. rewrite !HQ.
  destruct (components_snoc Q) as (init & l & _ & Hc).
  rewrite !Hc by apply final_suffix_no_slash.
  intros Hw Hw'.
  apply walk_last in Hw as [d ->];
    [|rewrite final_suffix_head; apply underscore_ordinary].
  apply walk_last in Hw' as [d' ->];
    [|rewrite final_suffix_head; apply underscore_ordinary].
  intros Heq. apply app_inj_tail in Heq as [_ Heq].
  apply append_inj_l in Heq. apply Hne. eapply final_suffix_inj; eauto.
Qed.

Lemma content_resolves nodes path c :
  Os.content nodes path = Some c -> exists loc, Os.resolve nodes path = Some loc.
Proof.
  unfold Os.content. destruct (Os.resolve nodes path); [eauto | discriminate].
Qed.

Lemma read_text_resolves nodes path c :
  Os.read_text nodes path = Some c -> exists loc, Os.resolve nodes path = Some loc.
Proof.
  intros H. apply read_text_content in H as (raw & Hraw & _).
  exact (content_resolves _ _ _ Hraw).
Qed.

(** A generation for one month, whatever its outcome, leaves the final
    documents of the other months as they were. *)
Lemma generate_document_frame pads engine request w w' res k c :
  generate_document pads engine request w = (w', res) ->
  let name := dr_intermediate_template_name request in
  let y := year_of request w in
  1 <= k <= 12 -> k <> month_of request w ->
  Os.content (fs w) (final_document_path_of name y k) = Some c ->
  Os.content (fs w') (final_document_path_of name y k) = Some c.
Proof.
  intros H name y Hk Hne Hread.
  apply generate_document_run in H as (_ & evs & _ & H).
  destruct res as [e|r].
  - destruct H as [Hle _]. eapply content_mono; eauto.
  - destruct H as (Hm & days & template & out & nodes1 & nodes2 & _ & _ & _
                   & Hmk & Hwr & <- & _).
    pose proof (makedirs_le (fs w) (final_dir_of name y)) as Hle.
    fold name y in Hmk. rewrite Hmk in Hle. cbn [fst] in Hle.
    pose proof (content_mono _ _ _ _ Hle Hread) as Hread1.
    destruct (content_resolves _ _ _ Hread1) as [loc Hloc].
    pose proof Hwr as Hwr'.
    apply write_text_inv in Hwr' as (loc' & Hloc' & _ & _).
    eapply content_elsewhere_after_write; eauto.
    intros ->.
    exact (final_locations_distinct name y k (month_of request w) nodes1 nodes1
             loc loc Hk Hm Hne Hloc Hloc' eq_refl).
Qed.

(** ** The loop over the months *)

Lemma written_paths_app evs1 evs2 :
  written_paths (evs1 ++ evs2) = written_paths evs1 ++ written_paths evs2.
Proof. unfold written_paths. apply omap_app. Qed.

Lemma written_paths_elem p c evs :
  EvWrite p c true ∈ evs -> p ∈ written_paths evs.
Proof.
  intros H. unfold written_paths. apply list_elem_of_omap.
  exists (EvWrite p c true). split; [exact H | reflexivity].
Qed.

Lemma written_paths_inv p evs :
  p ∈ written_paths evs -> exists c, EvWrite p c true ∈ evs.
Proof.
  unfold written_paths. intros H. apply list_elem_of_omap in H as (ev & Hin & Hev).
  destruct ev as [| |p' c' [|]|]; try discriminate.
  injection Hev as ->. eauto.
Qed.

Lemma DocumentRequest_new_in_range name y m :
  1 <= m <= 12 -> DocumentRequest_new name (Some y) (Some m) = inr (doc_request name y m).
Proof.
  intros Hm. unfold DocumentRequest_new, check_month.
  replace ((1 <=? m) && (m <=? 12)) with true; [reflexivity|].
  symmetry. apply andb_true_iff. rewrite !Z.leb_le. lia.
Qed.

Lemma for_months_cons pads engine name year m rest acc w :
  1 <= m <= 12 ->
  for_months pads engine name year (m :: rest) acc w =
    match generate_document pads engine (doc_request name year m) w with
    | (w1, inl e) => (w1, inl e)
    | (w1, inr r) =>
        for_months pads engine name year rest (acc ++ [doc_file r]) w1
    end.
Proof.
  intros Hm. cbn [for_months]. unfold bind at 1, lift.
  rewrite DocumentRequest_new_in_range by exact Hm. reflexivity.
Qed.

Lemma for_months_app pads engine name year l1 : forall l2 acc w,
  Forall (fun m => 1 <= m <= 12) l1 ->
  for_months pads engine name year (l1 ++ l2) acc w =
    match for_months pads engine name year l1 acc w with
    | (w1, inl e) => (w1, inl e)
    | (w1, inr files) => for_months pads engine name year l2 files w1
    end.
Proof.
  induction l1 as [|m l1 IH]; intros l2 acc w Hr; [reflexivity|].
  inversion Hr as [|? ? Hm Hr']; subst.
  rewrite <- app_comm_cons, !for_months_cons by exact Hm.
  destruct (generate_document _ _ _ w) as [w1 [e|r]]; [reflexivity|].
  apply IH, Hr'.
Qed.

Lemma for_months_success pads engine name year months :
  Forall (fun m => 1 <= m <= 12) months -> NoDup months ->
  forall acc w w' files,
    for_months pads engine name year months acc w = (w', inr files) ->
    now w' = now w /\
    files = acc ++ map (final_filename_of name year) months /\
    (forall k c, 1 <= k <= 12 -> k ∉ months ->
       Os.content (fs w) (final_document_path_of name year k) = Some c ->
       Os.content (fs w') (final_document_path_of name year k) = Some c) /\
    exists evs,
      trace w' = trace w ++ evs /\
      written_paths evs = map (final_document_path_of name year) months /\
      all_on_disk evs (fs w').
Proof.
  induction months as [|m rest IH]; intros Hr Hnd acc w w' files H.
  - cbn [for_months] in H. unfold ret in H. injection H as <- <-.
    split; [reflexivity|]. split; [cbn; rewrite app_nil_r; reflexivity|].
    split; [auto|]. exists []. rewrite app_nil_r.
    repeat split. intros p c Hin. inversion Hin.
  - inversion Hr as [|? ? Hm Hr']; subst.
    inversion Hnd as [|? ? Hnotin Hnd']; subst.
    rewrite for_months_cons in H by exact Hm.
    destruct (generate_document pads engine (doc_request name year m) w)
      as [w1 [e|r]] eqn:Hgen; [discriminate|].
    pose proof (fun k c => generate_document_frame _ _ _ _ _ _ k c Hgen) as Hframe1.
    pose proof Hgen as Hrun. apply generate_document_run in Hrun.
    cbn [doc_request dr_intermediate_template_name] in Hrun, Hframe1.
    unfold year_of, month_of in Hrun, Hframe1.
    cbn [doc_request dr_year dr_month default from_option id] in Hrun, Hframe1.
    destruct Hrun as (Hnow1 & evs1 & Htr1 & _ & days & template & out & nodes1
                      & nodes2 & _ & _ & _ & _ & Hwr & Hfs1 & -> & ->).
    cbn [doc_file] in H.
    destruct (IH Hr' Hnd' _ _ _ _ H) as (Hnow & -> & Hframe & evs2 & Htr & Hwp & Hdisk).
    split; [congruence|].
    split; [rewrite <- app_assoc; reflexivity|].
    split.
    { intros k c Hk Hnot Hread. apply not_elem_of_cons in Hnot as [Hkm Hkrest].
      apply Hframe; [exact Hk | exact Hkrest |].
      apply Hframe1; [exact Hk | exact Hkm | exact Hread]. }
    exists (generation_events name year m template out ++ evs2).
    split; [rewrite Htr, Htr1, app_assoc; reflexivity|].
    split; [rewrite written_paths_app, Hwp; reflexivity|].
    intros p c Hin. apply elem_of_app in Hin as [Hin|Hin]; [|apply Hdisk, Hin].
    unfold generation_events in Hin.
    repeat (apply elem_of_cons in Hin as [Hin|Hin]; [try discriminate Hin|]);
      [|inversion Hin].
    injection Hin as -> ->.
    apply Hframe; [exact Hm | exact Hnotin |].
    rewrite Hfs1. eapply content_after_write, Hwr.
Qed.

(** ** Lookup of a generated document *)

Lemma get_document_info_value name y m w :
  get_document_info name y m w =
    let path := final_document_path_of name y m in
    let found := Os.isfile (fs w) path in
    (log (EvIsfile path found) w,
     if found
     then inr {| info_document := final_filename_of name y m; info_path := path |}
     else inl (HTTPException 404 MsgNotGenerated None)).
Proof.
  unfold get_document_info, bind, call, try_except, os_path_isfile.
  fold (final_document_path_of name y m). cbv zeta.
  destruct (Os.isfile (fs w) (final_document_path_of name y m)); reflexivity.
Qed.

Lemma endswith_sep_append (a b : string) :
  b <> "" -> Posix.endswith_sep (a +:+ b) = Posix.endswith_sep b.
Proof.
  intros Hb. induction a as [|x a IH]; [reflexivity|].
  rewrite append_cons. cbn [Posix.endswith_sep]. rewrite IH.
  destruct (a +:+ b) eqn:E; [|reflexivity].
  destruct a; [rewrite append_nil in E; contradiction | discriminate E].
Qed.

Lemma endswith_sep_no_slash s : no_slash s = true -> Posix.endswith_sep s = false.
Proof.
  induction s as [|c r IH]; [reflexivity|].
  unfold no_slash. cbn [Py.all_chars]. intros H.
  apply andb_true_iff in H as [Hc Hr].
  cbn [Posix.endswith_sep]. destruct r as [|c' r'].
  - unfold is_slash in Hc. destruct (bool_decide (c = "/"%char)); [discriminate | reflexivity].
  - apply IH, Hr.
Qed.

Lemma startswith_sep_no_slash s : no_slash s = true -> Posix.startswith_sep s = false.
Proof.
  destruct s as [|c r]; [reflexivity|].
  unfold no_slash. cbn [Py.all_chars]. intros H.
  apply andb_true_iff in H as [Hc _]. unfold is_slash in Hc.
  destruct (bool_decide (c = "/"%char)) eqn:E; [discriminate|].
  apply bool_decide_eq_false_1 in E.
  destruct c as [[|] [|] [|] [|] [|] [|] [|] [|]]; try reflexivity.
  exfalso. apply E. reflexivity.
Qed.

Lemma digits_nonempty fuel n acc : Py.digits (S fuel) n acc <> "".
Proof.
  revert n acc. induction fuel as [|f IH]; intros n acc; cbn [Py.digits].
  - destruct (n <? 10); discriminate.
  - destruct (n <? 10); [discriminate | apply IH].
Qed.

Lemma str_nonempty n : Py.str n <> "".
Proof.
  unfold Py.str, Py.str_nonneg. destruct (n <? 0); [discriminate|].
  apply digits_nonempty.
Qed.


(** For a template name that is a plain file name, the paths are the
    ones the naming convention spells out. *)
Lemma final_dir_plain name y :
  name <> "" -> no_slash name = true ->
  final_dir_of name y = "/data/final/" +:+ name +:+ "/" +:+ Py.str y.
Proof.
  intros Hne Hns. unfold final_dir_of, Posix.join. cbn [foldl].
  assert (Posix.join2 FINAL_DOCUMENT_DIR name = "/data/final/" +:+ name) as ->.
  { unfold Posix.join2. rewrite (startswith_sep_no_slash _ Hns). reflexivity. }
  unfold Posix.join2. rewrite (startswith_sep_no_slash _ (str_no_slash y)).
  rewrite (endswith_sep_append _ name Hne), (endswith_sep_no_slash _ Hns).
  rewrite bool_decide_eq_false_2 by discriminate.
  cbn [orb]. rewrite append_assoc. reflexivity.
Qed.

Lemma final_path_plain name y m :
  name <> "" -> no_slash name = true ->
  final_document_path_of name y m =
    "/data/final/" +:+ name +:+ "/" +:+ Py.str y +:+ "/" +:+ name +:+ "_"
    +:+ Py.format_02d m +:+ "_" +:+ Py.str y +:+ ".html".
Proof.
  intros Hne Hns. unfold final_document_path_of, Posix.join. cbn [foldl].
  rewrite (final_dir_plain name y Hne Hns). unfold Posix.join2.
  rewrite startswith_sep_filename, (startswith_sep_no_slash _ Hns).
  rewrite bool_decide_eq_false_2 by discriminate.
  replace ("/data/final/" +:+ name +:+ "/" +:+ Py.str y)
    with (("/data/final/" +:+ name +:+ "/") +:+ Py.str y)
    by (rewrite !append_assoc; reflexivity).
  rewrite (endswith_sep_append _ _ (str_nonempty y)).
  rewrite (endswith_sep_no_slash _ (str_no_slash y)). cbn [orb].
  unfold final_filename_of. rewrite !append_assoc. reflexivity.
Qed.

(** ** Generation for the twelve months *)

(** To evaluate a run on a concrete world it is enough to evaluate its
    answer. *)
Lemma pair_of_snd {A B} (p : A * B) (b : B) : p.2 = b -> p = (p.1, b).
Proof. destruct p as [a b']. cbn. intros ->. reflexivity. Qed.

Lemma twelve_months_seqZ : seqZ 1 12 = twelve_months.
Proof. reflexivity. Qed.

Lemma seqZ_in_range n : Forall (fun m => 1 <= m <= 12) (seqZ 1 n) <-> n <= 12.
Proof.
  rewrite Forall_forall. split.
  - intros H. destruct (Z_le_gt_dec n 12) as [Hle|Hgt]; [exact Hle|].
    assert (n ∈ seqZ 1 n) as Hin by (apply elem_of_seqZ; lia).
    apply H in Hin. lia.
  - intros Hn m Hm. apply elem_of_seqZ in Hm. lia.
Qed.

Lemma twelve_months_split m :
  1 <= m <= 12 -> seqZ 1 12 = seqZ 1 (m - 1) ++ m :: seqZ (m + 1) (12 - m).
Proof. intros Hm. each_month Hm; reflexivity. Qed.

(** C7.  When [generate_all_documents] succeeds, the list it returns is
    made of the twelve file names [<name>_01_<year>.html] to
    [<name>_12_<year>.html] in this order; the documents were written
    one after the other in the order of the months, and nothing else
    was written; afterwards [get_document_info] finds each of them. *)
Theorem generate_all_documents_twelve
    (pads : bool) (engine : string -> context -> pyexn + string)
    (name : string) (oy : option Z) (w w' : World) (resp : AllDocumentsResponse) :
  generate_all_documents pads engine
    {| adr_intermediate_template_name := name; adr_year := oy |} w = (w', inr resp) ->
  let year := default (now w).1 oy in
  all_files resp = map (final_filename_of name year) twelve_months
  /\ length (all_files resp) = 12%nat
  /\ (exists evs, trace w' = trace w ++ evs /\
        written_paths evs = map (final_document_path_of name year) twelve_months)
  /\ (forall m, 1 <= m <= 12 ->
        (get_document_info name year m w').2 =
          inr {| info_document := final_filename_of name year m;
                 info_path := final_document_path_of name year m |}).
Proof.
  intros H year. unfold generate_all_documents, bind, datetime_now, ret in H.
  cbn [adr_intermediate_template_name adr_year] in H. fold year in H.
  destruct (for_months pads engine name year (seqZ 1 12) [] w)
    as [w1 [e|files]] eqn:Hloop; [discriminate|].
  injection H as <- <-. cbn [all_files].
  apply for_months_success in Hloop
    as (_ & -> & _ & evs & Htr & Hwp & Hdisk);
    [|apply seqZ_in_range; lia | apply NoDup_seqZ].
  rewrite twelve_months_seqZ in *. cbn [app].
  split; [reflexivity|]. split; [reflexivity|].
  split; [exists evs; auto|].
  intros m Hm. rewrite get_document_info_value. cbv zeta. cbn [snd].
  assert (final_document_path_of name year m ∈ written_paths evs) as Hin.
  { rewrite Hwp. apply list_elem_of_fmap. exists m. split; [reflexivity|].
    rewrite <- twelve_months_seqZ. apply elem_of_seqZ. lia. }
  apply written_paths_inv in Hin as [c Hin].
  assert (Os.isfile (fs w1) (final_document_path_of name year m) = true) as ->.
  { apply isfile_content. exists c. apply Hdisk, Hin. }
  reflexivity.
Qed.

Lemma generate_all_documents_twelve_witness :
  let run := generate_all_documents true jinja2
    {| adr_intermediate_template_name := "dupont"; adr_year := None |} sample_world in
  let resp :=
    {| all_files :=
         ["dupont_01_2025.html"; "dupont_02_2025.html"; "dupont_03_2025.html";
          "dupont_04_2025.html"; "dupont_05_2025.html"; "dupont_06_2025.html";
          "dupont_07_2025.html"; "dupont_08_2025.html"; "dupont_09_2025.html";
          "dupont_10_2025.html"; "dupont_11_2025.html"; "dupont_12_2025.html"] |} in
  let year := default (now sample_world).1 None in
  all_files resp = map (final_filename_of "dupont" year) twelve_months
  /\ length (all_files resp) = 12%nat
  /\ (exists evs, trace run.1 = trace sample_world ++ evs /\
        written_paths evs = map (final_document_path_of "dupont" year) twelve_months)
  /\ (forall m, 1 <= m <= 12 ->
        (get_document_info "dupont" year m run.1).2 =
          inr {| info_document := final_filename_of "dupont" year m;
                 info_path := final_document_path_of "dupont" year m |}).
Proof.
  intros run resp.
  refine (generate_all_documents_twelve true jinja2 "dupont" None sample_world
            run.1 resp _).
  apply pair_of_snd. vm_cast_no_check (@eq_refl _ (@inr exn _ resp)).
Defined.

(** C8.  When the generations for the months before [m] have succeeded
    and the one for month [m] fails, [generate_all_documents] fails
    with that very exception, in the world the failing call left: no
    later month is attempted.  What was written since the start is
    exactly the documents of the months before [m], in order, and each
    of them is in the store with the text that was written. *)
Theorem generate_all_documents_fail_fast
    (pads : bool) (engine : string -> context -> pyexn + string)
    (name : string) (oy : option Z) (w : World) (m : Z)
    (w1 : World) (files : list string) (e : exn) (w2 : World) :
  let year := default (now w).1 oy in
  1 <= m <= 12 ->
  for_months pads engine name year (seqZ 1 (m - 1)) [] w = (w1, inr files) ->
  generate_document pads engine (doc_request name year m) w1 = (w2, inl e) ->
  generate_all_documents pads engine
    {| adr_intermediate_template_name := name; adr_year := oy |} w = (w2, inl e)
  /\ exists evs,
       trace w2 = trace w ++ evs /\
       written_paths evs = map (final_document_path_of name year) (seqZ 1 (m - 1)) /\
       all_on_disk evs (fs w2).
Proof.
  intros year Hm Hprefix Hfail.
  assert (Forall (fun k => 1 <= k <= 12) (seqZ 1 (m - 1))) as Hrange
    by (apply seqZ_in_range; lia).
  split.
  - unfold generate_all_documents, bind, datetime_now.
    cbn [adr_intermediate_template_name adr_year]. fold year.
    rewrite (twelve_months_split m Hm).
    rewrite for_months_app, Hprefix by exact Hrange.
    rewrite for_months_cons, Hfail by exact Hm. reflexivity.
  - apply for_months_success in Hprefix
      as (_ & _ & _ & evs1 & Htr1 & Hwp1 & Hdisk1);
      [|exact Hrange | apply NoDup_seqZ].
    apply generate_document_run in Hfail as (_ & evs2 & Htr2 & Hle & Hwp2).
    exists (evs1 ++ evs2).
    split; [rewrite Htr2, Htr1, app_assoc; reflexivity|].
    split; [rewrite written_paths_app, Hwp1, Hwp2, app_nil_r; reflexivity|].
    intros p c Hin. apply elem_of_app in Hin as [Hin|Hin].
    + eapply content_mono; [exact Hle | apply Hdisk1, Hin].
    + apply written_paths_elem in Hin. rewrite Hwp2 in Hin. inversion Hin.
Qed.

Lemma generate_all_documents_fail_fast_witness :
  let before := for_months true jinja2 "dupont" 2025 [1; 2] [] blocked_world in
  let failing := generate_document true jinja2 (doc_request "dupont" 2025 3) before.1 in
  generate_all_documents true jinja2
    {| adr_intermediate_template_name := "dupont"; adr_year := None |} blocked_world
    = (failing.1,
       inl (HTTPException 500 MsgFinalWrite
              (Some (OSError "/data/final/dupont/2025/dupont_03_2025.html"))))
  /\ exists evs,
       trace failing.1 = trace blocked_world ++ evs /\
       written_paths evs =
         map (final_document_path_of "dupont" 2025) (seqZ 1 (3 - 1)) /\
       all_on_disk evs (fs failing.1).
Proof.
  intros before failing.
  refine (generate_all_documents_fail_fast true jinja2 "dupont" None blocked_world 3
            before.1 ["dupont_01_2025.html"; "dupont_02_2025.html"]
            (HTTPException 500 MsgFinalWrite
               (Some (OSError "/data/final/dupont/2025/dupont_03_2025.html")))
            failing.1 _ _ _).
  - lia.
  - apply pair_of_snd.
    vm_cast_no_check
      (@eq_refl _ (@inr exn _ ["dupont_01_2025.html"; "dupont_02_2025.html"])).
  - apply pair_of_snd.
    vm_cast_no_check
      (@eq_refl _ (@inl exn DocumentResponse
                     (HTTPException 500 MsgFinalWrite
                        (Some (OSError "/data/final/dupont/2025/dupont_03_2025.html"))))).
Defined.

(** ** The intermediate template *)

Lemma generate_intermediate_run engine request w w' r :
  generate_intermediate_template engine request w = (w', inr r) ->
  exists base out nodes',
    Os.read_text (fs w) (base_path_of (itr_base_template_name request)) = Some base /\
    engine base (intermediate_context request) = inr out /\
    Os.write_text (fs w)
      (intermediate_path_of (itr_intermediate_template_name request)) out = Some nodes' /\
    w' = {| fs := nodes';
            trace := trace w ++ intermediate_events request base out;
            now := now w |} /\
    r = {| ir_file := itr_intermediate_template_name request |}.
Proof.
  unfold generate_intermediate_template, bind, call, try_except, pure.
  fold (base_path_of (itr_base_template_name request)).
  fold (intermediate_path_of (itr_intermediate_template_name request)).
  unfold os_path_isfile.
  destruct (Os.isfile (fs w) _) eqn:Efile; cbn [negb]; [|discriminate].
  unfold open_read. cbn [fs log].
  destruct (Os.read_text (fs w) _) as [base|] eqn:Eread; [|discriminate].
  unfold render_template.
  destruct (engine base _) as [e|out] eqn:Eout; [discriminate|].
  unfold open_write. cbn [fs log].
  destruct (Os.write_text (fs w) _ out) as [nodes'|] eqn:Ewr; [|discriminate].
  unfold ret. intros [= <- <-].
  exists base, out, nodes'. repeat split; auto.
  unfold set_fs, log, intermediate_events. cbn [fs trace now].
  rewrite <- !app_assoc. reflexivity.
Qed.





(** ** Template names and the roots *)



(** ** Rendering in the placeholder fragment *)























Lemma base_pieces_source : unparse base_pieces = base_text.
Proof. reflexivity. Qed.




(** ** Generation on a store with a free slot *)

Lemma components_nonempty s : Posix.components s <> [].
Proof.
  destruct s as [|c r]; cbn [Posix.components]; [discriminate|].
  destruct (bool_decide _); [discriminate|].
  destruct (Posix.components r); discriminate.
Qed.

Lemma components_slash a b :
  Posix.components (a +:+ String "/" b) = Posix.components a ++ Posix.components b.
Proof.
  induction a as [|c r IH].
  - reflexivity.
  - rewrite append_cons. cbn [Posix.components]. rewrite IH.
    destruct (bool_decide (c = "/"%char)); [reflexivity|].
    pose proof (components_nonempty r) as Hne.
    destruct (Posix.components r) as [|x xs]; [contradiction | reflexivity].
Qed.

Lemma walk_ordinary nodes cur c rest :
  ordinary c ->
  Os.walk nodes cur (c :: rest) =
    if Os.is_dir nodes cur then Os.walk nodes (cur ++ [c]) rest else None.
Proof.
  intros (H1 & H2 & H3). cbn [Os.walk].
  rewrite !bool_decide_eq_false_2 by assumption. reflexivity.
Qed.

Lemma makedirs_ordinary nodes cur c rest :
  ordinary c -> Os.is_dir nodes cur = true ->
  Os.makedirs_from nodes cur (c :: rest) =
    match nodes !! (cur ++ [c]) with
    | None => Os.makedirs_from (<[cur ++ [c] := Dir]> nodes) (cur ++ [c]) rest
    | Some Dir => Os.makedirs_from nodes (cur ++ [c]) rest
    | Some (File _) => (nodes, false)
    end.
Proof.
  intros (H1 & H2 & H3) Hdir. cbn [Os.makedirs_from]. rewrite Hdir.
  rewrite !bool_decide_eq_false_2 by assumption. reflexivity.
Qed.

Lemma is_dir_lookup nodes loc : nodes !! loc = Some Dir -> Os.is_dir nodes loc = true.
Proof. unfold Os.is_dir. intros ->. destruct loc; reflexivity. Qed.

Lemma digit_char_not_dot d : 0 <= d < 10 -> Py.digit_char d <> "."%char.
Proof.
  intros Hd.
  assert (d = 0 \/ d = 1 \/ d = 2 \/ d = 3 \/ d = 4 \/ d = 5 \/ d = 6 \/ d = 7
          \/ d = 8 \/ d = 9) as H by lia.
  destruct H as [->|[->|[->|[->|[->|[->|[->|[->|[->| ->]]]]]]]]]; discriminate.
Qed.

(** The digits are written in front of what was accumulated, so the
    result starts with a digit. *)
Lemma digits_head fuel : forall k acc,
  exists c r, Py.digits (S fuel) k acc = String c r /\ c <> "."%char.
Proof.
  induction fuel as [|f IH]; intros k acc; cbn [Py.digits].
  - pose proof (digit_char_not_dot (k mod 10) (Z.mod_pos_bound k 10 eq_refl)).
    destruct (k <? 10); eauto.
  - pose proof (digit_char_not_dot (k mod 10) (Z.mod_pos_bound k 10 eq_refl)).
    destruct (k <? 10); [eauto | apply IH].
Qed.

Lemma str_ordinary n : ordinary (Py.str n).
Proof.
  assert (exists c r, Py.str n = String c r /\ c <> "."%char) as (c & r & E & Hc).
  { unfold Py.str, Py.str_nonneg. destruct (n <? 0).
    - eexists _, _. split; [reflexivity | discriminate].
    - apply digits_head. }
  rewrite E. repeat split; try discriminate; intros [= -> _]; contradiction.
Qed.

Lemma final_filename_ordinary name y m : ordinary (final_filename_of name y m).
Proof. rewrite final_filename_suffix, final_suffix_head. apply underscore_ordinary. Qed.

Lemma final_filename_no_slash name y m :
  no_slash name = true -> no_slash (final_filename_of name y m) = true.
Proof.
  intros H. rewrite final_filename_suffix. unfold no_slash in *.
  rewrite all_chars_append, H. apply final_suffix_no_slash.
Qed.

Lemma final_dir_components name y :
  plain_name name ->
  Posix.components (final_dir_of name y) = [""; "data"; "final"; name; Py.str y].
Proof.
  intros ((Hne & _) & Hns). rewrite (final_dir_plain name y Hne Hns).
  change ("/data/final/" +:+ name +:+ "/" +:+ Py.str y)
    with ("/data/final" +:+ String "/" (name +:+ String "/" (Py.str y))).
  rewrite !components_slash.
  rewrite (components_no_slash name Hns), (components_no_slash _ (str_no_slash y)).
  reflexivity.
Qed.

Lemma final_path_components name y m :
  plain_name name ->
  Posix.components (final_document_path_of name y m)
    = [""; "data"; "final"; name; Py.str y; final_filename_of name y m].
Proof.
  intros Hp. pose proof Hp as ((Hne & _) & Hns).
  rewrite (final_path_plain name y m Hne Hns).
  change ("/data/final/" +:+ name +:+ "/" +:+ Py.str y +:+ "/" +:+ name +:+ "_"
          +:+ Py.format_02d m +:+ "_" +:+ Py.str y +:+ ".html")
    with ("/data/final" +:+ String "/" (name +:+ String "/" (Py.str y +:+
            String "/" (final_filename_of name y m)))).
  rewrite !components_slash.
  rewrite (components_no_slash name Hns), (components_no_slash _ (str_no_slash y)).
  rewrite (components_no_slash _ (final_filename_no_slash name y m Hns)).
  reflexivity.
Qed.

Lemma makedirs_from_root nodes rest :
  Os.makedirs_from nodes [] ("" :: rest) = Os.makedirs_from nodes [] rest.
Proof. reflexivity. Qed.

Lemma walk_from_root nodes rest :
  Os.walk nodes [] ("" :: rest) = Os.walk nodes [] rest.
Proof. reflexivity. Qed.


(** ** The year *)

Lemma get_first_last_day_refused pads y m :
  ~ (1 <= y <= 9999 /\ 1 <= m <= 12) ->
  get_first_last_day pads y m =
    inl (if Datetime.fits_int y && Datetime.fits_int m
         then ValueError MsgDateRange else OverflowError).
Proof.
  intros Hno. unfold get_first_last_day, Datetime.date_new,
    Datetime.MINYEAR, Datetime.MAXYEAR.
  rewrite (fits_int_small 1) by lia. rewrite andb_true_r.
  destruct (Datetime.fits_int y && Datetime.fits_int m); [|reflexivity].
  cbn [negb].
  destruct ((1 <=? y) && (y <=? 9999)) eqn:Ey; [|reflexivity]. cbn [negb].
  destruct ((1 <=? m) && (m <=? 12)) eqn:Em; [|reflexivity]. exfalso.
  apply andb_true_iff in Ey, Em. rewrite !Z.leb_le in Ey, Em. tauto.
Qed.




Lemma generate_document_value pads engine request w days template out nodes1 nodes2 :
  let name := dr_intermediate_template_name request in
  let y := year_of request w in
  let m := month_of request w in
  1 <= m <= 12 ->
  get_first_last_day pads y m = inr days ->
  Os.read_text (fs w) (intermediate_path_of name) = Some template ->
  engine template (document_context days.1 days.2 y m) = inr out ->
  Os.makedirs (fs w) (final_dir_of name y) = (nodes1, true) ->
  Os.write_text nodes1 (final_document_path_of name y m) out = Some nodes2 ->
  generate_document pads engine request w =
    ({| fs := nodes2;
        trace := trace w ++ generation_events name y m template out;
        now := now w |},
     inr {| doc_file := final_filename_of name y m;
            doc_path := final_document_path_of name y m |}).
Proof.
  intros name y m Hm Hdays Hread Hout Hmk Hwr.
  unfold generate_document, bind, datetime_now.
  fold (year_of request w). fold y. fold (month_of request w). fold m.
  fold name. fold (intermediate_path_of name).
  change (Posix.join (final_dir_of name y) [final_filename_of name y m])
    with (final_document_path_of name y m).
  replace ((m <? 1) || (m >? 12)) with false.
  2:{ symmetry. apply orb_false_iff. rewrite Z.ltb_ge, Z.gtb_ltb, Z.ltb_ge. lia. }
  unfold call, try_except, pure. rewrite Hdays.
  unfold os_path_isfile.
  assert (Os.isfile (fs w) (intermediate_path_of name) = true) as ->
    by (apply isfile_read_text; eauto).
  cbn [negb]. unfold open_read. cbn [fs log]. rewrite Hread.
  unfold render_template. rewrite Hout.
  unfold os_makedirs. cbn [fs log]. rewrite Hmk.
  unfold open_write. cbn [fs log set_fs]. rewrite Hwr.
  unfold ret, set_fs, log, generation_events. cbn [fs trace now].
  rewrite <- !app_assoc. reflexivity.
Qed.




(** * Further properties of the handlers *)

(** ** Names directly under a root *)

Lemma root_path_plain (root name : string) :
  root <> "" -> Posix.endswith_sep root = false -> no_slash name = true ->
  Posix.join root [name] = root +:+ String "/" name.
Proof.
  intros Hroot Hend Hns. unfold Posix.join, Posix.join2. cbn [foldl].
  rewrite (startswith_sep_no_slash _ Hns), Hend.
  rewrite bool_decide_eq_false_2 by exact Hroot. reflexivity.
Qed.

Lemma base_path_components name :
  no_slash name = true ->
  Posix.components (base_path_of name) = [""; "data"; "base"; name].
Proof.
  intros Hns. unfold base_path_of, BASE_TEMPLATE_DIR.
  rewrite root_path_plain by (try discriminate; try reflexivity; exact Hns).
  rewrite components_slash, (components_no_slash name Hns). reflexivity.
Qed.

Lemma intermediate_path_components name :
  no_slash name = true ->
  Posix.components (intermediate_path_of name) = [""; "data"; "intermediate"; name].
Proof.
  intros Hns. unfold intermediate_path_of, INTERMEDIATE_TEMPLATE_DIR.
  rewrite root_path_plain by (try discriminate; try reflexivity; exact Hns).
  rewrite components_slash, (components_no_slash name Hns). reflexivity.
Qed.

(** Where a path of three ordinary components leads. *)
Lemma walk_three nodes a b c :
  ordinary a -> ordinary b -> ordinary c ->
  Os.walk nodes [] [""; a; b; c] =
    if Os.is_dir nodes [a] && Os.is_dir nodes [a; b] then Some [a; b; c] else None.
Proof.
  intros Ha Hb Hc. rewrite walk_from_root.
  rewrite (walk_ordinary _ _ _ _ Ha). change (Os.is_dir nodes []) with true.
  cbv match. cbn [app]. rewrite (walk_ordinary _ _ _ _ Hb). cbn [app].
  rewrite (walk_ordinary _ _ _ _ Hc). cbn [app Os.walk].
  destruct (Os.is_dir nodes [a]), (Os.is_dir nodes [a; b]); reflexivity.
Qed.

Lemma walk_two nodes a b :
  ordinary a -> ordinary b ->
  Os.walk nodes [] [""; a; b] = if Os.is_dir nodes [a] then Some [a; b] else None.
Proof.
  intros Ha Hb. rewrite walk_from_root.
  rewrite (walk_ordinary _ _ _ _ Ha). change (Os.is_dir nodes []) with true.
  cbv match. cbn [app]. rewrite (walk_ordinary _ _ _ _ Hb). cbn [app Os.walk].
  destruct (Os.is_dir nodes [a]); reflexivity.
Qed.

Lemma data_ordinary : ordinary "data".
Proof. repeat split; discriminate. Qed.

Lemma base_ordinary : ordinary "base".
Proof. repeat split; discriminate. Qed.

Lemma intermediate_ordinary : ordinary "intermediate".
Proof. repeat split; discriminate. Qed.

Lemma final_ordinary : ordinary "final".
Proof. repeat split; discriminate. Qed.

Lemma resolve_base nodes name :
  plain_name name ->
  Os.resolve nodes (base_path_of name) =
    if Os.is_dir nodes ["data"] && Os.is_dir nodes ["data"; "base"]
    then Some ["data"; "base"; name] else None.
Proof.
  intros (Hord & Hns). unfold Os.resolve. rewrite (base_path_components _ Hns).
  apply walk_three; auto using data_ordinary, base_ordinary.
Qed.

Lemma resolve_intermediate nodes name :
  plain_name name ->
  Os.resolve nodes (intermediate_path_of name) =
    if Os.is_dir nodes ["data"] && Os.is_dir nodes ["data"; "intermediate"]
    then Some ["data"; "intermediate"; name] else None.
Proof.
  intros (Hord & Hns). unfold Os.resolve. rewrite (intermediate_path_components _ Hns).
  apply walk_three; auto using data_ordinary, intermediate_ordinary.
Qed.

(** ** The listing handlers *)

Lemma entry_of_spec dir loc name :
  entry_of dir loc = Some name <-> loc = dir ++ [name].
Proof.
  unfold entry_of. destruct loc as [|x l _] using rev_ind.
  - cbn. split; [discriminate|]. intros H. destruct dir; discriminate.
  - rewrite last_snoc, removelast_last. case_bool_decide as Hd.
    + subst. split; intros H; [congruence|].
      apply app_inj_tail in H. destruct H; congruence.
    + split; [discriminate|]. intros H. apply app_inj_tail in H. tauto.
Qed.

Lemma store_lookup_elem (nodes : store) loc n :
  nodes !! loc = Some n -> (loc, n) ∈ nodes.
Proof.
  unfold lookup, store_lookup_inst.
  induction nodes as [|[loc' n'] rest IH]; cbn; [discriminate|].
  case_bool_decide as Hd.
  - intros [= <-]. subst. apply elem_of_cons. left. reflexivity.
  - intros H. apply elem_of_cons. right. exact (IH H).
Qed.

Lemma store_elem_lookup (nodes : store) loc n :
  (loc, n) ∈ nodes -> exists n', nodes !! loc = Some n'.
Proof.
  unfold lookup, store_lookup_inst.
  induction nodes as [|[loc' n'] rest IH]; cbn.
  - intros H. inversion H.
  - intros H. case_bool_decide as Hd; [eauto|].
    apply elem_of_cons in H as [H|H]; [congruence|]. exact (IH H).
Qed.

(** The names [os.listdir] returns are those of the objects the store
    holds directly under the directory. *)
Lemma listdir_elem nodes path dir names name :
  Os.resolve nodes path = Some dir ->
  listdir nodes path = Some names ->
  name ∈ names <-> exists n, nodes !! (dir ++ [name]) = Some n.
Proof.
  unfold listdir. intros ->. destruct (Os.is_dir nodes dir); [|discriminate].
  intros [= <-]. rewrite list_elem_of_omap. split.
  - intros ([loc n] & Hin & Hentry). cbn in Hentry.
    apply entry_of_spec in Hentry. subst loc. exact (store_elem_lookup _ _ _ Hin).
  - intros (n & Hn). exists (dir ++ [name], n). split.
    + exact (store_lookup_elem _ _ _ Hn).
    + apply entry_of_spec. reflexivity.
Qed.

(** The comprehension keeps the names whose path is a regular file; it
    makes one call of [os.path.isfile] per name and changes nothing. *)
Lemma keep_files_value dir files : forall w,
  keep_files dir files w =
    ({| fs := fs w;
        trace := trace w ++
          map (fun f => EvIsfile (Posix.join dir [f])
                          (Os.isfile (fs w) (Posix.join dir [f]))) files;
        now := now w |},
     inr (filter (fun f => Os.isfile (fs w) (Posix.join dir [f]) = true) files)).
Proof.
  induction files as [|f rest IH]; intros w.
  - cbn. rewrite app_nil_r. destruct w; reflexivity.
  - cbn [keep_files]. unfold os_path_isfile. rewrite IH.
    unfold log. cbn [fs trace now map]. rewrite <- app_assoc. cbn [app].
    f_equal. f_equal. rewrite filter_cons.
    destruct (Os.isfile (fs w) (Posix.join dir [f])) eqn:E.
    + rewrite decide_True by reflexivity. reflexivity.
    + rewrite decide_False by discriminate. reflexivity.
Qed.

Lemma list_regular_files_value dir w :
  list_regular_files dir w =
    match listdir (fs w) dir with
    | Some names => keep_files dir names w
    | None => (w, inl (OSError dir))
    end.
Proof.
  unfold list_regular_files, os_listdir.
  destruct (listdir (fs w) dir); reflexivity.
Qed.

(** Whether a root placed directly under [/data] can be listed. *)
Lemma listdir_root nodes dir r :
  Posix.components dir = [""; "data"; r] -> ordinary r ->
  listdir nodes dir =
    if Os.is_dir nodes ["data"] && Os.is_dir nodes ["data"; r]
    then Some (omap (fun entry => entry_of ["data"; r] entry.1) nodes)
    else None.
Proof.
  intros Hc Hr. unfold listdir, Os.resolve. rewrite Hc.
  rewrite (walk_two _ _ _ data_ordinary Hr).
  destruct (Os.is_dir nodes ["data"]); [|reflexivity].
  cbn [andb]. destruct (Os.is_dir nodes ["data"; r]); reflexivity.
Qed.

Lemma root_entry_components dir r name :
  Posix.components dir = [""; "data"; r] -> dir <> "" ->
  Posix.endswith_sep dir = false -> no_slash name = true ->
  Posix.components (Posix.join dir [name]) = [""; "data"; r; name].
Proof.
  intros Hc Hne Hend Hns. rewrite root_path_plain by assumption.
  rewrite components_slash, Hc, (components_no_slash name Hns). reflexivity.
Qed.

(** On a store whose names are ordinary, a listing of a root that exists
    succeeds, changes nothing, and returns the names of the regular
    files directly under the root. *)
Lemma list_regular_files_root dir r w :
  Posix.components dir = [""; "data"; r] -> dir <> "" ->
  Posix.endswith_sep dir = false -> ordinary r ->
  well_named (fs w) ->
  Os.is_dir (fs w) ["data"] = true -> Os.is_dir (fs w) ["data"; r] = true ->
  exists w' files,
    list_regular_files dir w = (w', inr files) /\
    fs w' = fs w /\ now w' = now w /\
    forall f, f ∈ files <-> exists c, fs w !! ["data"; r; f] = Some (File c).
Proof.
  intros Hc Hne Hend Hr Hwn Hdata Hroot.
  rewrite list_regular_files_value.
  pose proof (listdir_root (fs w) dir r Hc Hr) as Hl.
  rewrite Hdata, Hroot in Hl. cbn [andb] in Hl. rewrite Hl, keep_files_value.
  eexists _, _. split; [reflexivity|]. cbn [fs now]. split; [reflexivity|].
  split; [reflexivity|]. intros f.
  assert (forall name, plain_name name ->
            Os.isfile (fs w) (Posix.join dir [name]) = true
            <-> exists c, fs w !! ["data"; r; name] = Some (File c)) as Hfile.
  { intros name (Hord & Hns). unfold Os.isfile, Os.resolve.
    rewrite (root_entry_components dir r name Hc Hne Hend Hns).
    rewrite (walk_three _ _ _ _ data_ordinary Hr Hord), Hdata, Hroot. cbn [andb].
    destruct (fs w !! ["data"; r; name]) as [[|c]|]; split;
      try discriminate; try (intros (c' & [=])); eauto. }
  rewrite list_elem_of_filter, list_elem_of_omap. split.
  - intros (Hf & [loc n] & Hin & Hentry). cbn in Hentry.
    apply entry_of_spec in Hentry. subst loc.
    apply Hfile; [|exact Hf]. apply (Hwn _ _ f Hin).
    apply elem_of_app. right. apply elem_of_cons. left. reflexivity.
  - intros (c & Hlook). pose proof (store_lookup_elem _ _ _ Hlook) as Hin.
    assert (plain_name f) as Hp.
    { apply (Hwn _ _ f Hin). do 2 (apply elem_of_cons; right).
      apply elem_of_cons. left. reflexivity. }
    split; [apply Hfile; eauto|].
    exists (["data"; r; f], File c). split; [exact Hin|].
    apply (entry_of_spec ["data"; r]). reflexivity.
Qed.

(** X1.  On a store in which every name is one a directory can hold,
    and in which the root exists, [list_base_templates] and
    [list_intermediate_templates] succeed, leave the store as it was and
    answer with exactly the names of the regular files that lie directly
    under [/data/base], respectively [/data/intermediate]: a
    subdirectory is not listed, nor a file further down. *)
Theorem listing_handlers_answer (w : World) :
  well_named (fs w) -> Os.is_dir (fs w) ["data"] = true ->
  (Os.is_dir (fs w) ["data"; "base"] = true ->
   exists w' resp,
     list_base_templates w = (w', inr resp) /\ fs w' = fs w /\
     forall f, f ∈ base_templates resp
               <-> exists c, fs w !! ["data"; "base"; f] = Some (File c))
  /\ (Os.is_dir (fs w) ["data"; "intermediate"] = true ->
      exists w' resp,
        list_intermediate_templates w = (w', inr resp) /\ fs w' = fs w /\
        forall f, f ∈ intermediate_templates resp
                  <-> exists c, fs w !! ["data"; "intermediate"; f] = Some (File c)).
Proof.
  intros Hwn Hdata. split; intros Hroot.
  - destruct (list_regular_files_root BASE_TEMPLATE_DIR "base" w)
      as (w' & files & Hrun & Hfs & _ & Hfiles);
      try assumption; try reflexivity; try discriminate; try exact base_ordinary.
    unfold list_base_templates. rewrite Hrun.
    eexists _, _. split; [reflexivity|]. split; [exact Hfs|exact Hfiles].
  - destruct (list_regular_files_root INTERMEDIATE_TEMPLATE_DIR "intermediate" w)
      as (w' & files & Hrun & Hfs & _ & Hfiles);
      try assumption; try reflexivity; try discriminate;
      try exact intermediate_ordinary.
    unfold list_intermediate_templates. rewrite Hrun.
    eexists _, _. split; [reflexivity|]. split; [exact Hfs|exact Hfiles].
Qed.

Lemma plain_nameb_spec name : plain_nameb name = true -> plain_name name.
Proof.
  unfold plain_nameb, plain_name, ordinary. rewrite !andb_true_iff, !negb_true_iff.
  intros (((H1 & H2) & H3) & H4).
  apply bool_decide_eq_false in H1, H2, H3. tauto.
Qed.

Lemma well_namedb_spec nodes : well_namedb nodes = true -> well_named nodes.
Proof.
  unfold well_namedb, well_named. rewrite forallb_forall.
  intros H loc n name Hin Hname. apply list_elem_of_In in Hin, Hname.
  specialize (H _ Hin). cbn in H. rewrite forallb_forall in H.
  apply plain_nameb_spec, H, Hname.
Qed.

Lemma listing_handlers_answer_witness :
  (exists w' resp,
     list_base_templates listing_world = (w', inr resp) /\
     fs w' = fs listing_world /\
     forall f, f ∈ base_templates resp
               <-> exists c, fs listing_world !! ["data"; "base"; f] = Some (File c))
  /\ (exists w' resp,
        list_intermediate_templates listing_world = (w', inr resp) /\
        fs w' = fs listing_world /\
        forall f, f ∈ intermediate_templates resp
                  <-> exists c,
                        fs listing_world !! ["data"; "intermediate"; f] = Some (File c)).
Proof.
  assert (well_named (fs listing_world)) as Hwn.
  { apply well_namedb_spec. vm_cast_no_check (@eq_refl bool true). }
  assert (Os.is_dir (fs listing_world) ["data"] = true) as Hdata by reflexivity.
  destruct (listing_handlers_answer listing_world Hwn Hdata) as [Hbase Hinter].
  split; [apply Hbase|apply Hinter]; reflexivity.
Defined.

(** X2.  A listing handler fails in one case only, when its root is not
    a directory of the store: the answer is then status 500 with the
    error of [os.listdir], and the world is as before.  No other
    failure exists: the calls of [os.path.isfile] never raise. *)
Theorem listing_handlers_failure (w : World) :
  (list_base_templates w
     = (w, inl (ListingHTTPException 500 MsgListBase (OSError "/data/base")))
   <-> Os.is_dir (fs w) ["data"] && Os.is_dir (fs w) ["data"; "base"] = false)
  /\ (forall w' e,
        list_base_templates w = (w', inl e) ->
        w' = w /\ e = ListingHTTPException 500 MsgListBase (OSError "/data/base"))
  /\ (list_intermediate_templates w
        = (w, inl (ListingHTTPException 500 MsgListIntermediate
                     (OSError "/data/intermediate")))
      <-> Os.is_dir (fs w) ["data"] && Os.is_dir (fs w) ["data"; "intermediate"]
          = false)
  /\ (forall w' e,
        list_intermediate_templates w = (w', inl e) ->
        w' = w /\
        e = ListingHTTPException 500 MsgListIntermediate (OSError "/data/intermediate")).
Proof.
  unfold list_base_templates, list_intermediate_templates.
  rewrite !list_regular_files_value.
  rewrite (listdir_root (fs w) BASE_TEMPLATE_DIR "base" eq_refl base_ordinary).
  rewrite (listdir_root (fs w) INTERMEDIATE_TEMPLATE_DIR "intermediate" eq_refl
             intermediate_ordinary).
  destruct (Os.is_dir (fs w) ["data"]); cbn [andb].
  - destruct (Os.is_dir (fs w) ["data"; "base"]),
             (Os.is_dir (fs w) ["data"; "intermediate"]);
      rewrite ?keep_files_value;
      repeat split; try discriminate; try reflexivity;
      intros; simplify_eq; reflexivity.
  - repeat split; try reflexivity; intros; simplify_eq; reflexivity.
Qed.

(** ** How the generation of an intermediate template fails *)

Lemma generate_intermediate_failure engine request w w' e :
  generate_intermediate_template engine request w = (w', inl e) ->
  let bpath := base_path_of (itr_base_template_name request) in
  let ipath := intermediate_path_of (itr_intermediate_template_name request) in
  fs w' = fs w /\ now w' = now w /\
  exists evs, trace w' = trace w ++ evs /\ written_paths evs = [] /\
  ((Os.isfile (fs w) bpath = false /\ e = HTTPException 404 MsgBaseNotFound None)
   \/ (Os.isfile (fs w) bpath = true /\ Os.read_text (fs w) bpath = None /\
       e = HTTPException 500 MsgBaseRead (Some (OSError bpath)))
   \/ (exists base c,
         Os.read_text (fs w) bpath = Some base /\
         engine base (intermediate_context request) = inl c /\
         e = HTTPException 500 MsgIntermediateRender (Some c))
   \/ (exists base out,
         Os.read_text (fs w) bpath = Some base /\
         engine base (intermediate_context request) = inr out /\
         Os.write_text (fs w) ipath out = None /\
         e = HTTPException 500 MsgIntermediateWrite (Some (OSError ipath)))).
Proof.
  unfold generate_intermediate_template, bind, call, try_except, pure.
  fold (base_path_of (itr_base_template_name request)).
  fold (intermediate_path_of (itr_intermediate_template_name request)).
  unfold os_path_isfile.
  destruct (Os.isfile (fs w) _) eqn:Efile; cbn [negb].
  2:{ unfold raise. intros [= <- <-]. cbn [fs now trace log].
      repeat split. eexists [_]. repeat split. left. auto. }
  unfold open_read. cbn [fs log].
  destruct (Os.read_text (fs w) _) as [base|] eqn:Eread.
  2:{ intros [= <- <-]. cbn [fs now trace log]. repeat split.
      eexists [_; _]. rewrite <- app_assoc. repeat split.
      right. left. eauto. }
  unfold render_template.
  destruct (engine base _) as [c|out] eqn:Eout.
  { intros [= <- <-]. cbn [fs now trace log]. repeat split.
    eexists [_; _]. rewrite <- app_assoc. repeat split.
    right. right. left. eauto. }
  unfold open_write. cbn [fs log].
  destruct (Os.write_text (fs w) _ out) as [nodes'|] eqn:Ewr; [discriminate|].
  intros [= <- <-]. cbn [fs now trace log]. repeat split.
  eexists [_; _; _]. rewrite <- !app_assoc. repeat split.
  right. right. right. eauto 10.
Qed.

(** X3.  When [generate_intermediate_template] fails, the answer is an
    HTTP error with status 404 or 500, never an exception that escapes
    the handler; the status is 404 exactly when the base template is not
    a regular file; no write succeeded, and unless the failure is that
    of the write itself the store is as before.  A rendering error
    reaches the client as status 500 with the exception of the
    engine. *)
Theorem generate_intermediate_template_failure
    (engine : string -> context -> pyexn + string)
    (request : IntermediateTemplateRequest) (w w' : World) (e : exn) :
  generate_intermediate_template engine request w = (w', inl e) ->
  let bpath := base_path_of (itr_base_template_name request) in
  ((forall cause, e <> HTTPException 500 MsgIntermediateWrite cause) -> fs w' = fs w)
  /\ (exists evs, trace w' = trace w ++ evs /\ written_paths evs = [])
  /\ (exists status msg cause,
        e = HTTPException status msg cause /\
        (status = 404 \/ status = 500) /\
        (status = 404 <-> Os.isfile (fs w) bpath = false))
  /\ (forall base c,
        Os.read_text (fs w) bpath = Some base ->
        engine base (intermediate_context request) = inl c ->
        e = HTTPException 500 MsgIntermediateRender (Some c)).
Proof.
  intros H bpath.
  destruct (generate_intermediate_failure _ _ _ _ _ H)
    as (Hfs & _ & evs & Htr & Hwr & Hcases).
  fold bpath in Hcases. split; [intros _; exact Hfs|]. split; [eauto|].
  assert (forall base, Os.read_text (fs w) bpath = Some base ->
                       Os.isfile (fs w) bpath = true) as Hfound.
  { intros base Hb. apply isfile_read_text. eauto. }
  destruct Hcases as [(Hf & ->)|[(Hf & Hn & ->)|[(base & c & Hb & Hc & ->)
                     |(base & out & Hb & Hc & _ & ->)]]].
  - split.
    + exists 404, MsgBaseNotFound, None. repeat split; auto.
    + intros base c Hb. rewrite (Hfound _ Hb) in Hf. discriminate.
  - split.
    + eexists 500, _, _. split; [reflexivity|]. split; [auto|].
      rewrite Hf. split; discriminate.
    + intros base c Hb. congruence.
  - split.
    + eexists 500, _, _. split; [reflexivity|]. split; [auto|].
      rewrite (Hfound _ Hb). split; discriminate.
    + intros base' c' Hb' Hc'. congruence.
  - split.
    + eexists 500, _, _. split; [reflexivity|]. split; [auto|].
      rewrite (Hfound _ Hb). split; discriminate.
    + intros base' c' Hb' Hc'. congruence.
Qed.

Lemma generate_intermediate_template_failure_witness :
  let run := generate_intermediate_template jinja2 absent_request sample_world in
  let bpath := base_path_of (itr_base_template_name absent_request) in
  ((forall cause,
      HTTPException 404 MsgBaseNotFound None
        <> HTTPException 500 MsgIntermediateWrite cause) ->
   fs run.1 = fs sample_world)
  /\ (exists evs, trace run.1 = trace sample_world ++ evs /\ written_paths evs = [])
  /\ (exists status msg cause,
        HTTPException 404 MsgBaseNotFound None = HTTPException status msg cause /\
        (status = 404 \/ status = 500) /\
        (status = 404 <-> Os.isfile (fs sample_world) bpath = false))
  /\ (forall base c,
        Os.read_text (fs sample_world) bpath = Some base ->
        jinja2 base (intermediate_context absent_request) = inl c ->
        HTTPException 404 MsgBaseNotFound None
          = HTTPException 500 MsgIntermediateRender (Some c)).
Proof.
  intros run.
  refine (generate_intermediate_template_failure jinja2 absent_request sample_world
            run.1 (HTTPException 404 MsgBaseNotFound None) _).
  apply pair_of_snd.
  vm_cast_no_check
    (@eq_refl _ (@inl exn IntermediateResponse (HTTPException 404 MsgBaseNotFound None))).
Defined.

(** ** The date helper on every input *)

Lemma get_first_last_day_cases pads y m :
  get_first_last_day pads y m =
    if (1 <=? y) && (y <=? 9999) && ((1 <=? m) && (m <=? 12))
    then inr (day_month_year 1 m (Datetime.format_Y pads y),
              day_month_year (month_length y m) m (Datetime.format_Y pads y))
    else inl (if Datetime.fits_int y && Datetime.fits_int m
              then ValueError MsgDateRange else OverflowError).
Proof.
  destruct ((1 <=? y) && (y <=? 9999) && ((1 <=? m) && (m <=? 12))) eqn:E.
  - apply andb_true_iff in E as [Ey Em].
    apply andb_true_iff in Ey as [Hy1 Hy2], Em as [Hm1 Hm2].
    apply Z.leb_le in Hy1, Hy2, Hm1, Hm2.
    apply get_first_last_day_value; lia.
  - apply get_first_last_day_refused. intros [Hy Hm].
    apply andb_false_iff in E as [E|E]; apply andb_false_iff in E;
      rewrite !Z.leb_gt in E; lia.
Qed.

(** X4.  [get_first_last_day] succeeds exactly when the year lies in
    1..9999 and the month in 1..12.  Everywhere else the constructor
    [datetime.date] refuses the first date the body builds: with
    [ValueError] when the year and the month fit a C [int], with
    [OverflowError] when one of them does not.  The refusal comes
    before [calendar.monthrange] sees the month, so the
    [IllegalMonthError] that [calendar.monthrange] raises for such a
    month never comes out of the helper. *)
Theorem get_first_last_day_succeeds_iff (pads : bool) (y m : Z) :
  let fits n := - 2147483648 <= n <= 2147483647 in
  ((exists days, get_first_last_day pads y m = inr days)
   <-> 1 <= y <= 9999 /\ 1 <= m <= 12)
  /\ (forall e, get_first_last_day pads y m = inl e ->
        e = ValueError MsgDateRange /\ fits y /\ fits m
        \/ e = OverflowError /\ ~ (fits y /\ fits m))
  /\ (m < 1 \/ 12 < m ->
        Datetime.monthrange y m = inl (IllegalMonthError m) /\
        get_first_last_day pads y m <> inl (IllegalMonthError m)).
Proof.
  intros fits. split; [|split].
  - rewrite get_first_last_day_cases.
    destruct ((1 <=? y) && (y <=? 9999) && ((1 <=? m) && (m <=? 12))) eqn:E.
    + apply andb_true_iff in E as [Ey Em].
      apply andb_true_iff in Ey as [Hy1 Hy2], Em as [Hm1 Hm2].
      apply Z.leb_le in Hy1, Hy2, Hm1, Hm2. split; [lia|eauto].
    + split; [intros (days & [=])|]. intros (Hy & Hm). exfalso.
      apply andb_false_iff in E as [E|E]; apply andb_false_iff in E;
        rewrite !Z.leb_gt in E; lia.
  - intros e. rewrite get_first_last_day_cases.
    destruct (_ && _ && _); [discriminate|]. intros [= <-].
    destruct (Datetime.fits_int y) eqn:Ey, (Datetime.fits_int m) eqn:Em; cbn [andb].
    + left. apply fits_int_spec in Ey, Em. auto.
    + right. split; [reflexivity|]. intros [_ Hm]. apply fits_int_spec in Hm. congruence.
    + right. split; [reflexivity|]. intros [Hy _]. apply fits_int_spec in Hy. congruence.
    + right. split; [reflexivity|]. intros [Hy _]. apply fits_int_spec in Hy. congruence.
  - intros Hm. split.
    + unfold Datetime.monthrange.
      replace ((1 <=? m) && (m <=? 12)) with false; [reflexivity|].
      symmetry. apply andb_false_iff. rewrite !Z.leb_gt. lia.
    + rewrite get_first_last_day_refused by lia.
      destruct (_ && _); discriminate.
Qed.

(** ** How the generation of a document fails *)

(** [os.makedirs] creates directories and nothing else: a regular file
    of the store after the call was there before it. *)
Lemma makedirs_from_files comps : forall nodes cur loc c,
  (Os.makedirs_from nodes cur comps).1 !! loc = Some (File c) ->
  nodes !! loc = Some (File c).
Proof.
  induction comps as [|x rest IH]; intros nodes cur loc c; cbn [Os.makedirs_from].
  - auto.
  - destruct (Os.is_dir nodes cur); [|auto].
    destruct (bool_decide (x = "") || bool_decide (x = ".")); [apply IH|].
    destruct (bool_decide (x = "..")); [apply IH|].
    destruct (nodes !! (cur ++ [x])) as [[|c']|] eqn:E; [apply IH|auto|].
    intros H. apply IH in H.
    destruct (decide (cur ++ [x] = loc)) as [<-|Hne].
    + rewrite store_lookup_insert_eq in H. discriminate.
    + rewrite store_lookup_insert_ne in H by exact Hne. exact H.
Qed.

Lemma makedirs_files nodes path loc c :
  (Os.makedirs nodes path).1 !! loc = Some (File c) <-> nodes !! loc = Some (File c).
Proof.
  split; [apply makedirs_from_files|].
  apply (makedirs_le nodes path).
Qed.

Lemma month_in_range m : (m <? 1) || (m >? 12) = false <-> 1 <= m <= 12.
Proof.
  rewrite orb_false_iff, Z.gtb_ltb, !Z.ltb_ge. lia.
Qed.

(** Every way [generate_document] fails, in the order of its checks. *)
Lemma generate_document_failure pads engine request w w' e :
  generate_document pads engine request w = (w', inl e) ->
  let name := dr_intermediate_template_name request in
  let y := year_of request w in
  let m := month_of request w in
  let ipath := intermediate_path_of name in
  let fdir := final_dir_of name y in
  let fpath := final_document_path_of name y m in
  (~ 1 <= m <= 12 /\ e = HTTPException 400 MsgMonthRange None /\ w' = w)
  \/ (1 <= m <= 12 /\
      ((exists c, get_first_last_day pads y m = inl c /\ e = Uncaught c /\ w' = w)
       \/ exists days, get_first_last_day pads y m = inr days /\
          ((Os.isfile (fs w) ipath = false /\
            e = HTTPException 404 MsgIntermediateNotFound None /\ fs w' = fs w)
           \/ (Os.isfile (fs w) ipath = true /\ Os.read_text (fs w) ipath = None /\
               e = HTTPException 500 MsgIntermediateRead (Some (OSError ipath)) /\
               fs w' = fs w)
           \/ exists template, Os.read_text (fs w) ipath = Some template /\
              ((exists c,
                  engine template (document_context days.1 days.2 y m) = inl c /\
                  e = HTTPException 500 MsgFinalRender (Some c) /\ fs w' = fs w)
               \/ exists out,
                  engine template (document_context days.1 days.2 y m) = inr out /\
                  ((Os.makedirs (fs w) fdir = (fs w', false) /\
                    e = Uncaught (OSError fdir))
                   \/ (Os.makedirs (fs w) fdir = (fs w', true) /\
                       Os.write_text (fs w') fpath out = None /\
                       e = HTTPException 500 MsgFinalWrite (Some (OSError fpath)))))))).
Proof.
  intros H name y m ipath fdir fpath. unfold generate_document in H.
  unfold bind, datetime_now in H.
  fold (year_of request w) in H. fold y in H.
  fold (month_of request w) in H. fold m in H.
  destruct ((m <? 1) || (m >? 12)) eqn:Em.
  { unfold raise in H. injection H as <- <-. left. repeat split.
    intros Hm. apply month_in_range in Hm. congruence. }
  right. split; [apply month_in_range, Em|].
  fold name in H. fold (intermediate_path_of name) in H. fold ipath in H.
  fold fdir in H.
  change (Posix.join fdir [final_filename_of name y m]) with fpath in H.
  unfold call, try_except, pure in H.
  destruct (get_first_last_day pads y m) as [c|days] eqn:Edays.
  { injection H as <- <-. left. eauto. }
  right. exists days. split; [reflexivity|].
  unfold os_path_isfile in H.
  destruct (Os.isfile (fs w) ipath) eqn:Efile; cbn [negb] in H.
  2:{ unfold raise in H. injection H as <- <-. left. auto. }
  right. unfold open_read in H. cbn [fs log] in H.
  destruct (Os.read_text (fs w) ipath) as [template|] eqn:Eread.
  2:{ injection H as <- <-. left. auto. }
  right. exists template. split; [reflexivity|].
  unfold render_template in H.
  destruct (engine template _) as [c|out] eqn:Eout.
  { injection H as <- <-. left. eauto. }
  right. exists out. split; [reflexivity|].
  unfold os_makedirs in H. cbn [fs log] in H.
  destruct (Os.makedirs (fs w) fdir) as [nodes1 [|]] eqn:Emk.
  2:{ injection H as <- <-. left. auto. }
  right. unfold open_write in H. cbn [fs log set_fs] in H.
  destruct (Os.write_text nodes1 fpath out) as [nodes2|] eqn:Ewr; [discriminate|].
  injection H as <- <-. cbn [fs log]. auto.
Qed.

(** The ways [generate_document] fails, with the exception of each. *)
Lemma generate_document_failure_detail
    (pads : bool) (engine : string -> context -> pyexn + string)
    (request : DocumentRequest) (w w' : World) (e : exn) :
  generate_document pads engine request w = (w', inl e) ->
  let name := dr_intermediate_template_name request in
  let y := year_of request w in
  let m := month_of request w in
  let write_failure :=
    HTTPException 500 MsgFinalWrite
      (Some (OSError (final_document_path_of name y m))) in
  (e <> write_failure ->
   forall loc c, fs w' !! loc = Some (File c) <-> fs w !! loc = Some (File c))
  /\ (forall loc, Os.is_dir (fs w) loc = true -> Os.is_dir (fs w') loc = true)
  /\ (e = HTTPException 400 MsgMonthRange None /\ ~ 1 <= m <= 12
      \/ e = Uncaught (date_refusal y) /\ ~ 1 <= y <= 9999
      \/ e = HTTPException 404 MsgIntermediateNotFound None
           /\ Os.isfile (fs w) (intermediate_path_of name) = false
      \/ e = HTTPException 500 MsgIntermediateRead
               (Some (OSError (intermediate_path_of name)))
      \/ (exists c, e = HTTPException 500 MsgFinalRender (Some c))
      \/ e = Uncaught (OSError (final_dir_of name y))
      \/ e = write_failure)
  /\ (fs w' <> fs w ->
      e = Uncaught (OSError (final_dir_of name y)) \/ e = write_failure).
Proof.
  intros H name y m write_failure.
  pose proof (generate_document_failure _ _ _ _ _ _ H) as Hc.
  cbv zeta in Hc. fold name y m in Hc.
  assert (forall ok, Os.makedirs (fs w) (final_dir_of name y) = (fs w', ok) ->
            (forall loc c, fs w' !! loc = Some (File c) <-> fs w !! loc = Some (File c))
            /\ (forall loc, Os.is_dir (fs w) loc = true -> Os.is_dir (fs w') loc = true))
    as Hmk.
  { intros ok Emk. split.
    - intros loc c. rewrite <- (makedirs_files (fs w) (final_dir_of name y)).
      rewrite Emk. reflexivity.
    - pose proof (makedirs_le (fs w) (final_dir_of name y)) as Hle.
      rewrite Emk in Hle. apply Hle. }
  assert (forall w0 : World, fs w' = fs w0 ->
            (forall loc c, fs w' !! loc = Some (File c) <-> fs w0 !! loc = Some (File c))
            /\ (forall loc, Os.is_dir (fs w0) loc = true -> Os.is_dir (fs w') loc = true))
    as Hsame.
  { intros w0 ->. split; [reflexivity|auto]. }
  destruct Hc as [(Hm & -> & ->)|(Hm & [(c & Hd & -> & ->)|(days & Hd & Hc)])].
  - destruct (Hsame w eq_refl) as [Hf Hdirs].
    split; [intros _; exact Hf|]. split; [exact Hdirs|].
    split; [auto|]. intros Hne. exfalso. auto.
  - destruct (Hsame w eq_refl) as [Hf Hdirs].
    split; [intros _; exact Hf|]. split; [exact Hdirs|].
    rewrite get_first_last_day_cases in Hd.
    destruct ((1 <=? y) && (y <=? 9999) && ((1 <=? m) && (m <=? 12))) eqn:E;
      [discriminate|]. injection Hd as <-.
    rewrite (fits_int_small m), andb_true_r by lia.
    fold (date_refusal y). split.
    + right. left. split; [reflexivity|]. intros Hy.
      apply andb_false_iff in E as [E|E]; apply andb_false_iff in E;
        rewrite !Z.leb_gt in E; lia.
    + intros Hne. exfalso. apply Hne. reflexivity.
  - destruct Hc as [(Hf & -> & Hfs)|[(Hf & Hr & -> & Hfs)
      |(template & Hr & [(c & Hc & -> & Hfs)|(out & Hc & [(Emk & ->)|(Emk & Ewr & ->)])])]].
    + destruct (Hsame w Hfs) as [Hfiles Hdirs].
      split; [intros _; exact Hfiles|]. split; [exact Hdirs|]. split; [auto 10|].
      intros Hne. exfalso. auto.
    + destruct (Hsame w Hfs) as [Hfiles Hdirs].
      split; [intros _; exact Hfiles|]. split; [exact Hdirs|]. split; [auto 10|].
      intros Hne. exfalso. auto.
    + destruct (Hsame w Hfs) as [Hfiles Hdirs].
      split; [intros _; exact Hfiles|]. split; [exact Hdirs|]. split; [eauto 10|].
      intros Hne. exfalso. auto.
    + destruct (Hmk _ Emk) as [Hfiles Hdirs].
      split; [intros _; exact Hfiles|]. split; [exact Hdirs|]. split; [auto 10|auto].
    + destruct (Hmk _ Emk) as [Hfiles Hdirs].
      split; [intros Hno; exfalso; apply Hno; reflexivity|].
      split; [exact Hdirs|]. split; [auto 10|auto].
Qed.

(** X5.  A failed [generate_document] answers in one of eight ways:
    status 400 for the month, the [ValueError] or the [OverflowError]
    of the date for the year, status 404, status 500 for the read, the
    rendering or the write, and the [OSError] of [os.makedirs].  The
    exceptions of the date and of [os.makedirs] escape the handler: no
    [except] clause surrounds the calls that raise them.  Every
    directory is kept, and unless the failure is that of the write no
    regular file has been created, changed or removed.  The store is
    as before unless the failure is that of [os.makedirs] or of the
    write. *)
Theorem generate_document_failure_cases
    (pads : bool) (engine : string -> context -> pyexn + string)
    (request : DocumentRequest) (w w' : World) (e : exn) :
  generate_document pads engine request w = (w', inl e) ->
  let name := dr_intermediate_template_name request in
  let y := year_of request w in
  let m := month_of request w in
  let write_failed := exists cause, e = HTTPException 500 MsgFinalWrite cause in
  let makedirs_failed := exists path, e = Uncaught (OSError path) in
  (~ write_failed ->
   forall loc c, fs w' !! loc = Some (File c) <-> fs w !! loc = Some (File c))
  /\ (forall loc, Os.is_dir (fs w) loc = true -> Os.is_dir (fs w') loc = true)
  /\ (e = HTTPException 400 MsgMonthRange None /\ ~ 1 <= m <= 12
      \/ e = Uncaught (date_refusal y) /\ ~ 1 <= y <= 9999
      \/ e = HTTPException 404 MsgIntermediateNotFound None
           /\ Os.isfile (fs w) (intermediate_path_of name) = false
      \/ (exists cause, e = HTTPException 500 MsgIntermediateRead (Some cause))
      \/ (exists cause, e = HTTPException 500 MsgFinalRender (Some cause))
      \/ makedirs_failed
      \/ write_failed)
  /\ (fs w' <> fs w -> makedirs_failed \/ write_failed).
Proof.
  intros H name y m write_failed makedirs_failed.
  destruct (generate_document_failure_detail _ _ _ _ _ _ H)
    as (Hfiles & Hdirs & Hcases & Hchanged).
  fold name y m in Hfiles, Hcases, Hchanged.
  split; [|split; [exact Hdirs|split]].
  - intros Hno. apply Hfiles. intros ->. apply Hno. eexists. reflexivity.
  - destruct Hcases as [?|[?|[?|[->|[?|[->| ->]]]]]]; unfold write_failed, makedirs_failed;
      eauto 12.
  - intros Hne. destruct (Hchanged Hne) as [->| ->];
      unfold write_failed, makedirs_failed; eauto.
Qed.

Lemma generate_document_failure_cases_witness :
  let request := doc_request "dupont" 2147483648 3 in
  let run := generate_document true jinja2 request sample_world in
  let e := Uncaught OverflowError in
  let name := dr_intermediate_template_name request in
  let y := year_of request sample_world in
  let m := month_of request sample_world in
  let write_failed := exists cause, e = HTTPException 500 MsgFinalWrite cause in
  let makedirs_failed := exists path, e = Uncaught (OSError path) in
  (~ write_failed ->
   forall loc c,
     fs run.1 !! loc = Some (File c) <-> fs sample_world !! loc = Some (File c))
  /\ (forall loc,
        Os.is_dir (fs sample_world) loc = true -> Os.is_dir (fs run.1) loc = true)
  /\ (e = HTTPException 400 MsgMonthRange None /\ ~ 1 <= m <= 12
      \/ e = Uncaught (date_refusal y) /\ ~ 1 <= y <= 9999
      \/ e = HTTPException 404 MsgIntermediateNotFound None
           /\ Os.isfile (fs sample_world) (intermediate_path_of name) = false
      \/ (exists cause, e = HTTPException 500 MsgIntermediateRead (Some cause))
      \/ (exists cause, e = HTTPException 500 MsgFinalRender (Some cause))
      \/ makedirs_failed
      \/ write_failed)
  /\ (fs run.1 <> fs sample_world -> makedirs_failed \/ write_failed).
Proof.
  intros request run e.
  refine (generate_document_failure_cases true jinja2 request sample_world run.1 e _).
  apply pair_of_snd.
  vm_cast_no_check (@eq_refl _ (@inl exn DocumentResponse (Uncaught OverflowError))).
Defined.

(** ** The listings and the generation handlers *)

Lemma list_regular_files_found dir w w' files name :
  list_regular_files dir w = (w', inr files) -> name ∈ files ->
  fs w' = fs w /\ Os.isfile (fs w) (Posix.join dir [name]) = true.
Proof.
  rewrite list_regular_files_value.
  destruct (listdir (fs w) dir) as [names|]; [|discriminate].
  rewrite keep_files_value. intros [= <- <-] Hin. cbn [fs]. split; [reflexivity|].
  apply list_elem_of_filter in Hin. tauto.
Qed.

(** X6.  A name returned by a listing is one the matching generation
    handler finds.  After [list_base_templates], a request whose base
    template is one of the listed names passes the existence test of
    [generate_intermediate_template] and is never answered with its
    404; after [list_intermediate_templates], a request for one of the
    listed names passes the test of [generate_document] and is never
    answered with its 404. *)
Theorem listed_templates_are_found
    (pads : bool) (engine : string -> context -> pyexn + string) :
  (forall w w' resp request,
     list_base_templates w = (w', inr resp) ->
     itr_base_template_name request ∈ base_templates resp ->
     Os.isfile (fs w') (base_path_of (itr_base_template_name request)) = true /\
     forall w'' e,
       generate_intermediate_template engine request w' = (w'', inl e) ->
       e <> HTTPException 404 MsgBaseNotFound None)
  /\ (forall w w' resp request,
        list_intermediate_templates w = (w', inr resp) ->
        dr_intermediate_template_name request ∈ intermediate_templates resp ->
        Os.isfile (fs w')
          (intermediate_path_of (dr_intermediate_template_name request)) = true /\
        forall w'' e,
          generate_document pads engine request w' = (w'', inl e) ->
          e <> HTTPException 404 MsgIntermediateNotFound None).
Proof.
  split.
  - intros w w' resp request Hlist Hin. unfold list_base_templates in Hlist.
    destruct (list_regular_files BASE_TEMPLATE_DIR w) as [w1 [e|files]] eqn:Hrun;
      [discriminate|].
    injection Hlist as <- <-. cbn [base_templates] in Hin.
    destruct (list_regular_files_found _ _ _ _ _ Hrun Hin) as [Hfs Hfile].
    fold (base_path_of (itr_base_template_name request)) in Hfile.
    rewrite <- Hfs in Hfile. split; [exact Hfile|].
    intros w'' e Hgen ->.
    destruct (generate_intermediate_failure _ _ _ _ _ Hgen)
      as (_ & _ & evs & _ & _ & [(Hf & _)|[(_ & _ & [=])|[(? & ? & _ & _ & [=])
                               |(? & ? & _ & _ & _ & [=])]]]).
    congruence.
  - intros w w' resp request Hlist Hin. unfold list_intermediate_templates in Hlist.
    destruct (list_regular_files INTERMEDIATE_TEMPLATE_DIR w) as [w1 [e|files]] eqn:Hrun;
      [discriminate|].
    injection Hlist as <- <-. cbn [intermediate_templates] in Hin.
    destruct (list_regular_files_found _ _ _ _ _ Hrun Hin) as [Hfs Hfile].
    fold (intermediate_path_of (dr_intermediate_template_name request)) in Hfile.
    rewrite <- Hfs in Hfile. split; [exact Hfile|].
    intros w'' e Hgen ->.
    destruct (generate_document_failure _ _ _ _ _ _ Hgen)
      as [(_ & [=] & _)|(_ & [(c & _ & [=] & _)|(days & _ & Hc)])].
    destruct Hc as [(Hf & _)|[(_ & _ & [=] & _)
      |(template & _ & [(c & _ & [=] & _)|(out & _ & [(_ & [=])|(_ & _ & [=])])])]].
    congruence.
Qed.

(** X7.  An intermediate template generated under a plain name, one
    without separator that is not empty, [.] or [..], is listed by
    [list_intermediate_templates] right after. *)
Theorem generated_template_is_listed
    (engine : string -> context -> pyexn + string)
    (request : IntermediateTemplateRequest) (w w1 : World) (r : IntermediateResponse) :
  generate_intermediate_template engine request w = (w1, inr r) ->
  plain_name (itr_intermediate_template_name request) ->
  exists w2 resp,
    list_intermediate_templates w1 = (w2, inr resp) /\
    ir_file r ∈ intermediate_templates resp.
Proof.
  intros Hgen Hp.
  destruct (generate_intermediate_run _ _ _ _ _ Hgen)
    as (base & out & nodes' & _ & _ & Hwr & -> & ->).
  set (name := itr_intermediate_template_name request) in *.
  destruct (write_text_inv _ _ _ _ Hwr) as (loc & Hres & Hnd & ->).
  rewrite (resolve_intermediate _ _ Hp) in Hres.
  destruct (Os.is_dir (fs w) ["data"]) eqn:Hdata; [|discriminate].
  destruct (Os.is_dir (fs w) ["data"; "intermediate"]) eqn:Hroot; [|discriminate].
  injection Hres as <-.
  set (nodes' := <[["data"; "intermediate"; name] := File out]> (fs w)).
  assert (forall x, Os.is_dir nodes' x = Os.is_dir (fs w) x) as Hdirs.
  { intros x. apply is_dir_insert_file, Hnd. }
  unfold list_intermediate_templates. rewrite list_regular_files_value.
  cbn [fs].
  rewrite (listdir_root nodes' INTERMEDIATE_TEMPLATE_DIR "intermediate" eq_refl
             intermediate_ordinary).
  rewrite !Hdirs, Hdata, Hroot. cbn [andb]. rewrite keep_files_value.
  eexists _, _. split; [reflexivity|]. cbn [intermediate_templates ir_file fs].
  apply list_elem_of_filter. split.
  - fold (intermediate_path_of name). unfold Os.isfile.
    rewrite (resolve_intermediate _ _ Hp), !Hdirs, Hdata, Hroot. cbn [andb].
    unfold nodes'. rewrite store_lookup_insert_eq. reflexivity.
  - apply list_elem_of_omap. exists (["data"; "intermediate"; name], File out).
    split.
    + apply store_lookup_elem. apply store_lookup_insert_eq.
    + apply (entry_of_spec ["data"; "intermediate"]). reflexivity.
Qed.

Lemma generated_template_is_listed_witness :
  let run := generate_intermediate_template jinja2 sample_request sample_world in
  exists w2 resp,
    list_intermediate_templates run.1 = (w2, inr resp) /\
    ir_file {| ir_file := "dupont2" |} ∈ intermediate_templates resp.
Proof.
  intros run.
  refine (generated_template_is_listed jinja2 sample_request sample_world run.1
            {| ir_file := "dupont2" |} _ _).
  - apply pair_of_snd.
    vm_cast_no_check (@eq_refl _ (@inr exn IntermediateResponse {| ir_file := "dupont2" |})).
  - apply plain_nameb_spec. vm_cast_no_check (@eq_refl bool true).
Defined.

(** ** The directories created when the module is loaded *)

Lemma makedirs_two nodes a b :
  ordinary a -> ordinary b ->
  Os.makedirs_from nodes [] [""; a; b] =
    match nodes !! [a] with
    | Some (File _) => (nodes, false)
    | Some Dir =>
        match nodes !! [a; b] with
        | Some (File _) => (nodes, false)
        | Some Dir => (nodes, true)
        | None => (<[[a; b] := Dir]> nodes, true)
        end
    | None =>
        match nodes !! [a; b] with
        | Some (File _) => (<[[a] := Dir]> nodes, false)
        | Some Dir => (<[[a] := Dir]> nodes, true)
        | None => (<[[a; b] := Dir]> (<[[a] := Dir]> nodes), true)
        end
    end.
Proof.
  intros Ha Hb. rewrite makedirs_from_root.
  rewrite (makedirs_ordinary _ _ _ _ Ha) by reflexivity. cbn [app].
  assert ([a] <> [a; b]) as Hne by discriminate.
  destruct (nodes !! [a]) as [[|c]|] eqn:E1; [| reflexivity |].
  - rewrite (makedirs_ordinary _ _ _ _ Hb) by (apply is_dir_lookup, E1). cbn [app].
    destruct (nodes !! [a; b]) as [[|c]|]; reflexivity.
  - rewrite (makedirs_ordinary _ _ _ _ Hb)
      by (apply is_dir_lookup, store_lookup_insert_eq).
    cbn [app]. rewrite (store_lookup_insert_ne _ _ _ _ Hne).
    destruct (nodes !! [a; b]) as [[|c]|]; reflexivity.
Qed.

(** [os.makedirs] on a root placed directly under [/data]. *)
Lemma makedirs_root_spec nodes dir r nodes' ok :
  Posix.components dir = [""; "data"; r] -> ordinary r ->
  Os.makedirs nodes dir = (nodes', ok) ->
  (ok = true <-> ~ file_at nodes ["data"] /\ ~ file_at nodes ["data"; r])
  /\ (ok = true -> nodes' !! ["data"] = Some Dir /\ nodes' !! ["data"; r] = Some Dir)
  /\ (forall loc n, nodes !! loc = Some n -> nodes' !! loc = Some n)
  /\ (forall loc, loc <> ["data"] -> loc <> ["data"; r] -> nodes' !! loc = nodes !! loc)
  /\ (nodes !! ["data"] = Some Dir -> nodes !! ["data"; r] = Some Dir ->
      nodes' = nodes /\ ok = true).
Proof.
  intros Hc Hr. unfold Os.makedirs. rewrite Hc.
  rewrite (makedirs_two _ _ _ data_ordinary Hr). unfold file_at.
  assert (["data"] <> ["data"; r]) as Hne by discriminate.
  assert (forall (n0 : store) x y n, n0 !! x = None -> n0 !! y = Some n ->
            <[x := Dir]> n0 !! y = Some n) as Hkeep.
  { intros n0 x y n Hx Hy. rewrite store_lookup_insert_ne; [exact Hy|congruence]. }
  destruct (nodes !! ["data"]) as [[|c]|] eqn:E1;
    destruct (nodes !! ["data"; r]) as [[|c']|] eqn:E2;
    intros [= <- <-]; repeat split;
    try discriminate; try congruence; try tauto;
    try (intros (? & [=])); try (intros [_ []]; eauto; fail);
    try (intros [[] _]; eauto; fail);
    rewrite ?store_lookup_insert_eq; try reflexivity;
    try (intros; rewrite ?store_lookup_insert_ne by congruence; auto; fail);
    try (rewrite store_lookup_insert_ne by congruence; apply store_lookup_insert_eq);
    try (rewrite store_lookup_insert_ne by congruence; exact E2);
    try (rewrite store_lookup_insert_ne by congruence; exact E1);
    try (intros; apply Hkeep; auto; fail).
Qed.

Lemma startup_run w w' res :
  startup w = (w', res) ->
  (res = inr tt <->
     ~ file_at (fs w) ["data"] /\ ~ file_at (fs w) ["data"; "base"] /\
     ~ file_at (fs w) ["data"; "intermediate"] /\ ~ file_at (fs w) ["data"; "final"])
  /\ (res = inr tt ->
      fs w' !! ["data"] = Some Dir /\ fs w' !! ["data"; "base"] = Some Dir /\
      fs w' !! ["data"; "intermediate"] = Some Dir /\
      fs w' !! ["data"; "final"] = Some Dir)
  /\ (forall loc n, fs w !! loc = Some n -> fs w' !! loc = Some n)
  /\ (forall loc,
        loc <> ["data"] -> loc <> ["data"; "base"] ->
        loc <> ["data"; "intermediate"] -> loc <> ["data"; "final"] ->
        fs w' !! loc = fs w !! loc)
  /\ (res = inr tt \/ exists path, res = inl (Uncaught (OSError path))).
Proof.
  unfold startup, bind, call, try_except, os_makedirs.
  destruct (Os.makedirs (fs w) BASE_TEMPLATE_DIR) as [n1 ok1] eqn:E1.
  destruct (makedirs_root_spec _ BASE_TEMPLATE_DIR "base" _ _ eq_refl base_ordinary E1)
    as (Hok1 & Hdir1 & Hkeep1 & Hframe1 & _).
  unfold file_at in *.
  destruct ok1.
  2:{ intros [= <- <-]. cbn [fs set_fs log]. repeat split; try discriminate; eauto.
      intros (H1 & H2 & _). destruct Hok1 as [_ Hok1].
      specialize (Hok1 (conj H1 H2)). discriminate. }
  cbn [fs set_fs log].
  destruct (Os.makedirs n1 INTERMEDIATE_TEMPLATE_DIR) as [n2 ok2] eqn:E2.
  destruct (makedirs_root_spec _ INTERMEDIATE_TEMPLATE_DIR "intermediate" _ _ eq_refl
              intermediate_ordinary E2)
    as (Hok2 & Hdir2 & Hkeep2 & Hframe2 & _).
  unfold file_at in *.
  destruct Hok1 as [Hok1 _]. destruct (Hok1 eq_refl) as [Hd Hb].
  destruct (Hdir1 eq_refl) as [Hd1 Hb1].
  assert (n1 !! ["data"; "intermediate"] = fs w !! ["data"; "intermediate"]) as Hi1
    by (apply Hframe1; discriminate).
  assert (n1 !! ["data"; "final"] = fs w !! ["data"; "final"]) as Hf1
    by (apply Hframe1; discriminate).
  destruct ok2.
  2:{ intros [= <- <-]. cbn [fs set_fs log]. repeat split; try discriminate; eauto.
      - intros (_ & _ & H3 & _). destruct Hok2 as [_ Hok2].
        assert (true = false); [|discriminate]. symmetry. apply Hok2. split.
        + intros (c & Hc). congruence.
        + rewrite Hi1. exact H3.
      - intros loc Ha Hb' Hc _. rewrite Hframe2 by assumption. auto. }
  cbn [fs set_fs log].
  destruct (Os.makedirs n2 FINAL_DOCUMENT_DIR) as [n3 ok3] eqn:E3.
  destruct (makedirs_root_spec _ FINAL_DOCUMENT_DIR "final" _ _ eq_refl final_ordinary E3)
    as (Hok3 & Hdir3 & Hkeep3 & Hframe3 & _).
  unfold file_at in *.
  destruct Hok2 as [Hok2 _]. destruct (Hok2 eq_refl) as [_ Hi].
  destruct (Hdir2 eq_refl) as [Hd2 Hi2].
  assert (n2 !! ["data"; "final"] = fs w !! ["data"; "final"]) as Hf2
    by (rewrite Hframe2 by discriminate; exact Hf1).
  assert (forall loc,
            loc <> ["data"] -> loc <> ["data"; "base"] ->
            loc <> ["data"; "intermediate"] -> loc <> ["data"; "final"] ->
            n3 !! loc = fs w !! loc) as Hframe.
  { intros loc Ha Hb' Hc Hd'.
    rewrite Hframe3, Hframe2, Hframe1 by assumption. reflexivity. }
  rewrite Hi1 in Hi.
  destruct ok3; intros [= <- <-]; cbn [fs set_fs log].
  - destruct (Hdir3 eq_refl) as [Hd3 Hf3]. destruct Hok3 as [Hok3 _].
    destruct (Hok3 eq_refl) as [_ Hf]. rewrite Hf2 in Hf.
    repeat split; auto.
  - repeat split; try discriminate; eauto.
    intros (_ & _ & _ & H4). destruct Hok3 as [_ Hok3].
    assert (true = false); [|discriminate]. symmetry. apply Hok3. split.
    + intros (c & Hc). congruence.
    + rewrite Hf2. exact H4.
Qed.

(** X8.  Loading the module succeeds exactly when no regular file sits
    at [/data], [/data/base], [/data/intermediate] or [/data/final].
    Otherwise the [OSError] of [os.makedirs] escapes, and the service
    does not start.  Either way, every object that existed is kept as
    it was. *)
Theorem startup_succeeds_iff (w : World) :
  ((startup w).2 = inr tt <->
     ~ file_at (fs w) ["data"] /\ ~ file_at (fs w) ["data"; "base"] /\
     ~ file_at (fs w) ["data"; "intermediate"] /\ ~ file_at (fs w) ["data"; "final"])
  /\ ((startup w).2 = inr tt \/ exists path, (startup w).2 = inl (Uncaught (OSError path)))
  /\ (forall loc n, fs w !! loc = Some n -> fs (startup w).1 !! loc = Some n).
Proof.
  destruct (startup w) as [w' res] eqn:E.
  destruct (startup_run _ _ _ E) as (Hiff & _ & Hkeep & _ & Hres).
  cbn [fst snd]. auto.
Qed.

Lemma listing_succeeds dir r w :
  Posix.components dir = [""; "data"; r] -> ordinary r ->
  fs w !! ["data"] = Some Dir -> fs w !! ["data"; r] = Some Dir ->
  exists w' files, list_regular_files dir w = (w', inr files) /\ fs w' = fs w.
Proof.
  intros Hc Hr Hd Hroot. rewrite list_regular_files_value.
  rewrite (listdir_root _ _ _ Hc Hr).
  rewrite (is_dir_lookup _ _ Hd), (is_dir_lookup _ _ Hroot). cbn [andb].
  rewrite keep_files_value. eexists _, _. split; reflexivity.
Qed.

(** X9.  Once the module is loaded, the three roots are directories,
    every object that existed is kept and nothing changes outside
    [/data] and the three roots.  Loading the module again succeeds and
    leaves the store as it is, and the two listing handlers answer
    without error. *)
Theorem startup_establishes_roots (w w' : World) :
  startup w = (w', inr tt) ->
  (fs w' !! ["data"] = Some Dir /\ fs w' !! ["data"; "base"] = Some Dir /\
   fs w' !! ["data"; "intermediate"] = Some Dir /\
   fs w' !! ["data"; "final"] = Some Dir)
  /\ (forall loc n, fs w !! loc = Some n -> fs w' !! loc = Some n)
  /\ (forall loc,
        loc <> ["data"] -> loc <> ["data"; "base"] ->
        loc <> ["data"; "intermediate"] -> loc <> ["data"; "final"] ->
        fs w' !! loc = fs w !! loc)
  /\ (exists w'', startup w' = (w'', inr tt) /\ fs w'' = fs w')
  /\ (exists w'' resp, list_base_templates w' = (w'', inr resp))
  /\ (exists w'' resp, list_intermediate_templates w' = (w'', inr resp)).
Proof.
  intros E.
  destruct (startup_run _ _ _ E) as (_ & Hdirs & Hkeep & Hframe & _).
  destruct (Hdirs eq_refl) as (Hd & Hb & Hi & Hf).
  split; [auto|]. split; [exact Hkeep|]. split; [exact Hframe|]. split; [|split].
  - unfold startup, bind, call, try_except, os_makedirs.
    destruct (Os.makedirs (fs w') BASE_TEMPLATE_DIR) as [n1 ok1] eqn:E1.
    destruct (makedirs_root_spec _ BASE_TEMPLATE_DIR "base" _ _ eq_refl base_ordinary E1)
      as (_ & _ & _ & _ & Hsame).
    destruct (Hsame Hd Hb) as [-> ->]. cbn [fs set_fs log].
    destruct (Os.makedirs (fs w') INTERMEDIATE_TEMPLATE_DIR) as [n2 ok2] eqn:E2.
    destruct (makedirs_root_spec _ INTERMEDIATE_TEMPLATE_DIR "intermediate" _ _ eq_refl
                intermediate_ordinary E2) as (_ & _ & _ & _ & Hsame2).
    destruct (Hsame2 Hd Hi) as [-> ->]. cbn [fs set_fs log].
    destruct (Os.makedirs (fs w') FINAL_DOCUMENT_DIR) as [n3 ok3] eqn:E3.
    destruct (makedirs_root_spec _ FINAL_DOCUMENT_DIR "final" _ _ eq_refl
                final_ordinary E3) as (_ & _ & _ & _ & Hsame3).
    destruct (Hsame3 Hd Hf) as [-> ->]. cbn [fs set_fs log].
    eexists. split; reflexivity.
  - destruct (listing_succeeds BASE_TEMPLATE_DIR "base" w' eq_refl base_ordinary Hd Hb)
      as (w'' & files & Hrun & _).
    unfold list_base_templates. rewrite Hrun. eauto.
  - destruct (listing_succeeds INTERMEDIATE_TEMPLATE_DIR "intermediate" w' eq_refl
                intermediate_ordinary Hd Hi) as (w'' & files & Hrun & _).
    unfold list_intermediate_templates. rewrite Hrun. eauto.
Qed.

Lemma startup_establishes_roots_witness :
  let w' := (startup empty_world).1 in
  (fs w' !! ["data"] = Some Dir /\ fs w' !! ["data"; "base"] = Some Dir /\
   fs w' !! ["data"; "intermediate"] = Some Dir /\
   fs w' !! ["data"; "final"] = Some Dir)
  /\ (forall loc n, fs empty_world !! loc = Some n -> fs w' !! loc = Some n)
  /\ (forall loc,
        loc <> ["data"] -> loc <> ["data"; "base"] ->
        loc <> ["data"; "intermediate"] -> loc <> ["data"; "final"] ->
        fs w' !! loc = fs empty_world !! loc)
  /\ (exists w'', startup w' = (w'', inr tt) /\ fs w'' = fs w')
  /\ (exists w'' resp, list_base_templates w' = (w'', inr resp))
  /\ (exists w'' resp, list_intermediate_templates w' = (w'', inr resp)).
Proof.
  intros w'.
  refine (startup_establishes_roots empty_world w' _).
  apply pair_of_snd. vm_cast_no_check (@eq_refl _ (@inr exn unit tt)).
Defined.

(** ** What [os.makedirs] creates along a path of ordinary names *)

Lemma makedirs_ordinary_step nodes cur c rest :
  ordinary c ->
  Os.makedirs_from nodes cur (c :: rest) =
    if Os.is_dir nodes cur then
      match nodes !! (cur ++ [c]) with
      | None => Os.makedirs_from (<[cur ++ [c] := Dir]> nodes) (cur ++ [c]) rest
      | Some Dir => Os.makedirs_from nodes (cur ++ [c]) rest
      | Some (File _) => (nodes, false)
      end
    else (nodes, false).
Proof.
  intros (H1 & H2 & H3). cbn [Os.makedirs_from].
  rewrite !bool_decide_eq_false_2 by assumption. reflexivity.
Qed.

Lemma dirs_along_longer comps : forall cur loc,
  loc ∈ dirs_along cur comps -> (length cur < length loc)%nat.
Proof.
  induction comps as [|c rest IH]; intros cur loc; cbn [dirs_along].
  - intros H. inversion H.
  - intros H. apply elem_of_cons in H as [->|H].
    + rewrite length_app. cbn. lia.
    + apply IH in H. rewrite length_app in H. cbn in H. lia.
Qed.

(** The call changes the store at the directories on the way only. *)
Lemma makedirs_from_frame comps :
  Forall ordinary comps ->
  forall nodes cur loc,
    loc ∉ dirs_along cur comps ->
    (Os.makedirs_from nodes cur comps).1 !! loc = nodes !! loc.
Proof.
  induction 1 as [|c rest Hc _ IH]; intros nodes cur loc Hloc; [reflexivity|].
  rewrite (makedirs_ordinary_step _ _ _ _ Hc). cbn [dirs_along] in Hloc.
  apply not_elem_of_cons in Hloc as [Hne Hloc].
  destruct (Os.is_dir nodes cur); [|reflexivity].
  destruct (nodes !! (cur ++ [c])) as [[|t]|] eqn:E; [apply IH, Hloc|reflexivity|].
  rewrite (IH _ _ _ Hloc). apply store_lookup_insert_ne. congruence.
Qed.

(** After a successful call every directory on the way exists. *)
Lemma makedirs_from_success comps :
  Forall ordinary comps ->
  forall nodes cur nodes1,
    Os.makedirs_from nodes cur comps = (nodes1, true) ->
    forall loc, loc ∈ dirs_along cur comps -> nodes1 !! loc = Some Dir.
Proof.
  induction 1 as [|c rest Hc _ IH]; intros nodes cur nodes1 Hrun loc Hloc.
  { inversion Hloc. }
  rewrite (makedirs_ordinary_step _ _ _ _ Hc) in Hrun. cbn [dirs_along] in Hloc.
  destruct (Os.is_dir nodes cur); [|discriminate].
  assert (forall n0, Os.makedirs_from n0 (cur ++ [c]) rest = (nodes1, true) ->
                     n0 !! (cur ++ [c]) = Some Dir -> nodes1 !! loc = Some Dir) as Hstep.
  { intros n0 Hrun0 Hdir. apply elem_of_cons in Hloc as [->|Hloc].
    - pose proof (makedirs_from_le rest n0 (cur ++ [c])) as [Hle _].
      rewrite Hrun0 in Hle. specialize (Hle _ (is_dir_lookup _ _ Hdir)).
      cbn [fst] in Hle. unfold Os.is_dir in Hle.
      destruct (cur ++ [c]) eqn:Ecur; [destruct cur; discriminate|].
      destruct (nodes1 !! (s :: l)) as [[|t]|]; congruence.
    - exact (IH _ _ _ Hrun0 _ Hloc). }
  destruct (nodes !! (cur ++ [c])) as [[|t]|] eqn:E; [|discriminate|].
  - exact (Hstep _ Hrun E).
  - apply (Hstep _ Hrun). apply store_lookup_insert_eq.
Qed.

(** Where every directory on the way exists, the call succeeds and
    changes nothing. *)
Lemma makedirs_from_existing comps :
  Forall ordinary comps ->
  forall nodes cur,
    Os.is_dir nodes cur = true ->
    (forall loc, loc ∈ dirs_along cur comps -> nodes !! loc = Some Dir) ->
    Os.makedirs_from nodes cur comps = (nodes, true).
Proof.
  induction 1 as [|c rest Hc _ IH]; intros nodes cur Hcur Hdirs; [reflexivity|].
  rewrite (makedirs_ordinary_step _ _ _ _ Hc), Hcur. cbn [dirs_along] in Hdirs.
  assert (nodes !! (cur ++ [c]) = Some Dir) as Hnxt.
  { apply Hdirs. apply elem_of_cons. left. reflexivity. }
  rewrite Hnxt. apply IH; [apply is_dir_lookup, Hnxt|].
  intros loc Hloc. apply Hdirs. apply elem_of_cons. right. exact Hloc.
Qed.

(** Where a path of ordinary names leads. *)
Lemma walk_ordinary_path comps :
  Forall ordinary comps ->
  forall nodes cur loc,
    Os.walk nodes cur comps = Some loc -> loc = cur ++ comps.
Proof.
  induction 1 as [|c rest Hc _ IH]; intros nodes cur loc.
  - cbn. rewrite app_nil_r. congruence.
  - rewrite (walk_ordinary _ _ _ _ Hc). destruct (Os.is_dir nodes cur); [|discriminate].
    intros H. apply IH in H. rewrite <- app_assoc in H. exact H.
Qed.

Lemma final_dir_names name y :
  plain_name name -> Forall ordinary ["data"; "final"; name; Py.str y].
Proof.
  intros (Hord & _).
  apply Forall_cons_2; [exact data_ordinary|].
  apply Forall_cons_2; [exact final_ordinary|].
  apply Forall_cons_2; [exact Hord|].
  apply Forall_cons_2; [apply str_ordinary|constructor].
Qed.

Lemma final_path_names name y m :
  plain_name name ->
  Forall ordinary ["data"; "final"; name; Py.str y; final_filename_of name y m].
Proof.
  intros (Hord & _).
  apply Forall_cons_2; [exact data_ordinary|].
  apply Forall_cons_2; [exact final_ordinary|].
  apply Forall_cons_2; [exact Hord|].
  apply Forall_cons_2; [apply str_ordinary|].
  apply Forall_cons_2; [apply final_filename_ordinary|constructor].
Qed.

Lemma is_dir_nonempty nodes loc :
  loc <> [] -> Os.is_dir nodes loc = true <-> nodes !! loc = Some Dir.
Proof.
  intros Hne. split; [|apply is_dir_lookup].
  unfold Os.is_dir. destruct loc; [congruence|].
  destruct (nodes !! (s :: loc)) as [[|c]|]; congruence.
Qed.

Lemma makedirs_from_keeps_dir comps nodes cur loc :
  nodes !! loc = Some Dir -> (Os.makedirs_from nodes cur comps).1 !! loc = Some Dir.
Proof.
  intros H. destruct loc as [|x l].
  - revert nodes cur H.
    induction comps as [|c rest IH]; intros nodes cur H; cbn [Os.makedirs_from]; auto.
    destruct (Os.is_dir nodes cur); auto.
    destruct (_ || _); auto. destruct (bool_decide _); auto.
    destruct (nodes !! (cur ++ [c])) as [[|t]|] eqn:E; auto.
    apply IH. rewrite store_lookup_insert_ne; [exact H|]. destruct cur; discriminate.
  - apply is_dir_nonempty; [discriminate|].
    apply (makedirs_from_le comps nodes cur). apply is_dir_lookup, H.
Qed.

Lemma makedirs_final_dir nodes name y :
  plain_name name ->
  Os.makedirs nodes (final_dir_of name y)
    = Os.makedirs_from nodes [] ["data"; "final"; name; Py.str y].
Proof.
  intros Hp. unfold Os.makedirs. rewrite (final_dir_components _ _ Hp).
  apply makedirs_from_root.
Qed.

Lemma resolve_final nodes name y m loc :
  plain_name name ->
  Os.resolve nodes (final_document_path_of name y m) = Some loc ->
  loc = ["data"; "final"; name; Py.str y; final_filename_of name y m].
Proof.
  intros Hp. unfold Os.resolve. rewrite (final_path_components _ _ _ Hp).
  rewrite walk_from_root. apply walk_ordinary_path.
  apply final_path_names, Hp.
Qed.

(** With a plain template name and the root in place, a run of
    [generate_document] changes the store at the three locations of the
    document only, whatever its outcome. *)
Lemma generate_document_frame_plain pads engine request w w' res :
  generate_document pads engine request w = (w', res) ->
  let name := dr_intermediate_template_name request in
  let y := year_of request w in
  let m := month_of request w in
  plain_name name ->
  fs w !! ["data"] = Some Dir -> fs w !! ["data"; "final"] = Some Dir ->
  forall loc, loc ∉ final_locations name y m -> fs w' !! loc = fs w !! loc.
Proof.
  intros H name y m Hp Hdata Hroot loc Hloc.
  unfold final_locations in Hloc.
  apply not_elem_of_cons in Hloc as [Hl1 Hloc].
  apply not_elem_of_cons in Hloc as [Hl2 Hloc].
  apply not_elem_of_cons in Hloc as [Hl3 _].
  assert (forall nodes1 ok,
            Os.makedirs (fs w) (final_dir_of name y) = (nodes1, ok) ->
            nodes1 !! loc = fs w !! loc) as Hmk.
  { intros nodes1 ok Emk. rewrite (makedirs_final_dir _ _ _ Hp) in Emk.
    replace nodes1
      with (Os.makedirs_from (fs w) [] ["data"; "final"; name; Py.str y]).1
      by (rewrite Emk; reflexivity).
    destruct (decide (loc = ["data"])) as [->|Hl4].
    { rewrite Hdata. apply makedirs_from_keeps_dir, Hdata. }
    destruct (decide (loc = ["data"; "final"])) as [->|Hl5].
    { rewrite Hroot. apply makedirs_from_keeps_dir, Hroot. }
    apply makedirs_from_frame; [apply final_dir_names, Hp|].
    cbn [dirs_along app]. rewrite !not_elem_of_cons. repeat split; auto.
    apply not_elem_of_nil. }
  destruct res as [e|r].
  - pose proof (generate_document_failure _ _ _ _ _ _ H) as Hc.
    cbv zeta in Hc. fold name y m in Hc.
    destruct Hc as [(_ & _ & ->)|(_ & [(c & _ & _ & ->)|(days & _ & Hc)])];
      [reflexivity|reflexivity|].
    destruct Hc as [(_ & _ & ->)|[(_ & _ & _ & ->)
      |(template & _ & [(c & _ & _ & ->)|(out & _ & [(Emk & _)|(Emk & _)])])]];
      try reflexivity; exact (Hmk _ _ Emk).
  - destruct (generate_document_run _ _ _ _ _ _ H) as (_ & evs & _ & Hr).
    cbv zeta in Hr. fold name y m in Hr.
    destruct Hr as (_ & days & template & out & nodes1 & nodes2 & _ & _ & _
                    & Emk & Ewr & <- & _).
    destruct (write_text_inv _ _ _ _ Ewr) as (floc & Hres & _ & ->).
    apply (resolve_final _ _ _ _ _ Hp) in Hres. subst floc.
    rewrite store_lookup_insert_ne by congruence. exact (Hmk _ _ Emk).
Qed.

(** A run of [generate_document] creates or changes at most one regular
    file, at the location its write resolves to. *)
Lemma generate_document_files pads engine request w w' res loc c :
  generate_document pads engine request w = (w', res) ->
  fs w' !! loc = Some (File c) ->
  fs w !! loc = Some (File c) \/
  exists nodes1,
    Os.resolve nodes1
      (final_document_path_of (dr_intermediate_template_name request)
         (year_of request w) (month_of request w)) = Some loc.
Proof.
  intros H Hfile.
  assert (forall ok,
            Os.makedirs (fs w)
              (final_dir_of (dr_intermediate_template_name request) (year_of request w))
              = (fs w', ok) -> fs w !! loc = Some (File c)) as Hmk.
  { intros ok Emk. apply (makedirs_files (fs w)
      (final_dir_of (dr_intermediate_template_name request) (year_of request w))).
    rewrite Emk. exact Hfile. }
  destruct res as [e|r].
  - left. pose proof (generate_document_failure _ _ _ _ _ _ H) as Hc. cbv zeta in Hc.
    destruct Hc as [(_ & _ & ->)|(_ & [(c0 & _ & _ & ->)|(days & _ & Hc)])];
      [exact Hfile|exact Hfile|].
    destruct Hc as [(_ & _ & E)|[(_ & _ & _ & E)
      |(template & _ & [(c0 & _ & _ & E)|(out & _ & [(Emk & _)|(Emk & _)])])]];
      try (rewrite E in Hfile; exact Hfile); exact (Hmk _ Emk).
  - destruct (generate_document_run _ _ _ _ _ _ H) as (_ & evs & _ & Hr).
    cbv zeta in Hr.
    destruct Hr as (_ & days & template & out & nodes1 & nodes2 & _ & _ & _
                    & Emk & Ewr & <- & _).
    destruct (write_text_inv _ _ _ _ Ewr) as (floc & Hres & _ & Hfs).
    destruct (decide (floc = loc)) as [->|Hne]; [eauto|]. left.
    rewrite Hfs, store_lookup_insert_ne in Hfile by exact Hne.
    apply (makedirs_files (fs w)
      (final_dir_of (dr_intermediate_template_name request) (year_of request w))).
    rewrite Emk. exact Hfile.
Qed.

(** X10.  With a plain template name, one without separator that is
    not empty, [.] or [..], and with [/data/final] in place, a run of
    [generate_document] stays below [/data/final/<name>], whatever its
    outcome: the store changes at no other location, and the only
    regular file that can differ afterwards is the document of the
    requested month. *)
Theorem generate_document_stays_in_its_directory
    (pads : bool) (engine : string -> context -> pyexn + string)
    (request : DocumentRequest) (w w' : World) (res : result DocumentResponse) :
  generate_document pads engine request w = (w', res) ->
  let name := dr_intermediate_template_name request in
  let y := year_of request w in
  let m := month_of request w in
  plain_name name ->
  fs w !! ["data"] = Some Dir -> fs w !! ["data"; "final"] = Some Dir ->
  (forall loc, inside ["data"; "final"; name] loc = false -> fs w' !! loc = fs w !! loc)
  /\ (forall loc c,
        fs w' !! loc = Some (File c) ->
        fs w !! loc = Some (File c) \/
        loc = ["data"; "final"; name; Py.str y; final_filename_of name y m]).
Proof.
  intros H name y m Hp Hdata Hroot.
  pose proof (generate_document_frame_plain _ _ _ _ _ _ H Hp Hdata Hroot) as Hframe.
  fold name y m in Hframe. split.
  - intros loc Hout. apply Hframe. unfold final_locations.
    unfold inside in Hout. apply bool_decide_eq_false in Hout.
    rewrite !not_elem_of_cons. repeat split; try apply not_elem_of_nil;
      intros ->; apply Hout.
    + reflexivity.
    + exists [Py.str y]. reflexivity.
    + exists [Py.str y; final_filename_of name y m]. reflexivity.
  - intros loc c Hfile.
    destruct (generate_document_files _ _ _ _ _ _ _ _ H Hfile) as [Hold|(nodes1 & Hres)];
      [auto|].
    right. exact (resolve_final _ _ _ _ _ Hp Hres).
Qed.

Lemma generate_document_stays_in_its_directory_witness :
  let request := doc_request "dupont" 2025 3 in
  let run := generate_document true jinja2 request sample_world in
  let name := dr_intermediate_template_name request in
  let y := year_of request sample_world in
  let m := month_of request sample_world in
  (forall loc,
     inside ["data"; "final"; name] loc = false ->
     fs run.1 !! loc = fs sample_world !! loc)
  /\ (forall loc c,
        fs run.1 !! loc = Some (File c) ->
        fs sample_world !! loc = Some (File c) \/
        loc = ["data"; "final"; name; Py.str y; final_filename_of name y m]).
Proof.
  intros request run.
  refine (generate_document_stays_in_its_directory true jinja2 request sample_world
            run.1
            (inr {| doc_file := "dupont_03_2025.html";
                    doc_path := "/data/final/dupont/2025/dupont_03_2025.html" |})
            _ _ _ _).
  - apply pair_of_snd.
    vm_cast_no_check
      (@eq_refl _ (@inr exn DocumentResponse
                     {| doc_file := "dupont_03_2025.html";
                        doc_path := "/data/final/dupont/2025/dupont_03_2025.html" |})).
  - apply plain_nameb_spec. vm_cast_no_check (@eq_refl bool true).
  - reflexivity.
  - reflexivity.
Defined.

(** X11.  With a plain name for the intermediate template,
    [generate_intermediate_template] changes the store at one location
    at most, [/data/intermediate/<name>], whatever its outcome; on
    success that location holds the rendered text.  In particular no
    file under [/data/base] is ever changed: the base templates are
    only read. *)
Theorem generate_intermediate_template_writes_one_file
    (engine : string -> context -> pyexn + string)
    (request : IntermediateTemplateRequest) (w w' : World)
    (res : result IntermediateResponse) :
  generate_intermediate_template engine request w = (w', res) ->
  let name := itr_intermediate_template_name request in
  plain_name name ->
  (forall loc, loc <> ["data"; "intermediate"; name] -> fs w' !! loc = fs w !! loc)
  /\ (forall f, fs w' !! ["data"; "base"; f] = fs w !! ["data"; "base"; f])
  /\ (forall r, res = inr r ->
        exists base out,
          Os.read_text (fs w) (base_path_of (itr_base_template_name request))
            = Some base /\
          engine base (intermediate_context request) = inr out /\
          fs w' !! ["data"; "intermediate"; name] = Some (File out)).
Proof.
  intros H name Hp.
  assert (forall loc, loc <> ["data"; "intermediate"; name] ->
                      fs w' !! loc = fs w !! loc) as Hframe.
  { intros loc Hne. destruct res as [e|r].
    - destruct (generate_intermediate_failure _ _ _ _ _ H) as (-> & _). reflexivity.
    - destruct (generate_intermediate_run _ _ _ _ _ H)
        as (base & out & nodes' & _ & _ & Hwr & -> & _).
      cbn [fs]. destruct (write_text_inv _ _ _ _ Hwr) as (target & Hres & _ & ->).
      rewrite (resolve_intermediate _ _ Hp) in Hres.
      destruct (_ && _); [|discriminate]. injection Hres as <-.
      apply store_lookup_insert_ne. congruence. }
  split; [exact Hframe|]. split; [intros f; apply Hframe; discriminate|].
  intros r ->.
  destruct (generate_intermediate_run _ _ _ _ _ H)
    as (base & out & nodes' & Hread & Hout & Hwr & -> & _).
  exists base, out. split; [exact Hread|]. split; [exact Hout|].
  cbn [fs]. destruct (write_text_inv _ _ _ _ Hwr) as (target & Hres & _ & ->).
  rewrite (resolve_intermediate _ _ Hp) in Hres.
  destruct (_ && _); [|discriminate]. injection Hres as <-.
  apply store_lookup_insert_eq.
Qed.

Lemma generate_intermediate_template_writes_one_file_witness :
  let run := generate_intermediate_template jinja2 sample_request sample_world in
  let name := itr_intermediate_template_name sample_request in
  (forall loc,
     loc <> ["data"; "intermediate"; name] -> fs run.1 !! loc = fs sample_world !! loc)
  /\ (forall f, fs run.1 !! ["data"; "base"; f] = fs sample_world !! ["data"; "base"; f])
  /\ (forall r, @inr exn _ {| ir_file := "dupont2" |} = inr r ->
        exists base out,
          Os.read_text (fs sample_world)
            (base_path_of (itr_base_template_name sample_request)) = Some base /\
          jinja2 base (intermediate_context sample_request) = inr out /\
          fs run.1 !! ["data"; "intermediate"; name] = Some (File out)).
Proof.
  intros run.
  refine (generate_intermediate_template_writes_one_file jinja2 sample_request
            sample_world run.1 (inr {| ir_file := "dupont2" |}) _ _).
  - apply pair_of_snd.
    vm_cast_no_check (@eq_refl _ (@inr exn IntermediateResponse {| ir_file := "dupont2" |})).
  - apply plain_nameb_spec. vm_cast_no_check (@eq_refl bool true).
Defined.

(** X12.  Generating a document twice gives the same result when
    the engine renders the template the second time as it did the
    first: with a plain template name, a second run of
    [generate_document] on the store the first one left succeeds with
    the same answer, makes the same four calls and leaves the store as
    it is.  The two runs take two engines, since the engine of the
    program is not a function of its arguments for every template. *)
Theorem generate_document_idempotent
    (pads : bool) (engine1 engine2 : string -> context -> pyexn + string)
    (request : DocumentRequest) (w w1 : World) (r : DocumentResponse) :
  generate_document pads engine1 request w = (w1, inr r) ->
  let name := dr_intermediate_template_name request in
  let y := year_of request w in
  let m := month_of request w in
  plain_name name ->
  (forall template ctx,
     Os.read_text (fs w) (intermediate_path_of name) = Some template ->
     engine2 template ctx = engine1 template ctx) ->
  exists template out,
    trace w1 = trace w ++ generation_events name y m template out /\
    Os.content (fs w1) (final_document_path_of name y m) = Some out /\
    generate_document pads engine2 request w1 =
      ({| fs := fs w1;
          trace := trace w1 ++ generation_events name y m template out;
          now := now w1 |}, inr r).
Proof.
  intros H name y m Hp Hengine.
  destruct (generate_document_run _ _ _ _ _ _ H) as (Hnow & evs & Htr & Hr).
  cbv zeta in Hr. fold name y m in Hr.
  destruct Hr as (Hm & days & template & out & nodes1 & nodes2 & Hdays & Hread & Hout
                  & Emk & Ewr & Hfs & -> & ->).
  exists template, out. split; [exact Htr|].
  rewrite Hfs. split; [exact (content_after_write _ _ _ _ Ewr)|].
  assert (year_of request w1 = y) as Hy1 by (unfold year_of, y; rewrite Hnow; reflexivity).
  assert (month_of request w1 = m) as Hm1
    by (unfold month_of, m; rewrite Hnow; reflexivity).
  destruct (write_text_inv _ _ _ _ Ewr) as (floc & Hres & Hnd & Hn2).
  pose proof (resolve_final _ _ _ _ _ Hp Hres) as ->.
  set (floc := ["data"; "final"; name; Py.str y; final_filename_of name y m]) in *.
  (* the template is still there *)
  assert (Os.read_text nodes2 (intermediate_path_of name) = Some template) as Hread2.
  { pose proof (makedirs_le (fs w) (final_dir_of name y)) as Hle.
    rewrite Emk in Hle. cbn [fst] in Hle.
    pose proof (read_text_mono _ _ _ _ Hle Hread) as Hread1.
    destruct (read_text_resolves _ _ _ Hread1) as (iloc & Hires).
    apply (read_elsewhere_after_write nodes1 (final_document_path_of name y m) out
             nodes2 _ template floc iloc Ewr Hres Hires); [|exact Hread1].
    rewrite (resolve_intermediate _ _ Hp) in Hires.
    destruct (_ && _); [|discriminate]. injection Hires as <-. discriminate. }
  (* the directories are there *)
  assert (Os.makedirs nodes2 (final_dir_of name y) = (nodes2, true)) as Emk2.
  { rewrite (makedirs_final_dir _ _ _ Hp) in Emk.
    rewrite (makedirs_final_dir _ _ _ Hp).
    apply makedirs_from_existing; [apply final_dir_names, Hp|reflexivity|].
    intros loc Hloc.
    pose proof (makedirs_from_success _ (final_dir_names name y Hp) _ _ _ Emk _ Hloc)
      as Hdir.
    rewrite Hn2, store_lookup_insert_ne; [exact Hdir|].
    intros <-. cbn [dirs_along app] in Hloc.
    repeat (apply elem_of_cons in Hloc as [Hloc|Hloc]; [discriminate|]).
    inversion Hloc. }
  pose proof (write_twice _ _ _ _ Ewr) as Ewr2.
  pose proof (generate_document_value pads engine2 request w1 days template out
                nodes2 nodes2) as Hval.
  cbv zeta in Hval. rewrite Hy1, Hm1, Hfs in Hval.
  rewrite Hval; auto. rewrite (Hengine _ _ Hread). exact Hout.
Qed.

Lemma generate_document_idempotent_witness :
  let request := doc_request "dupont" 2025 3 in
  let run := generate_document true jinja2 request sample_world in
  let r := {| doc_file := "dupont_03_2025.html";
              doc_path := "/data/final/dupont/2025/dupont_03_2025.html" |} in
  let name := dr_intermediate_template_name request in
  let y := year_of request sample_world in
  let m := month_of request sample_world in
  exists template out,
    trace run.1 = trace sample_world ++ generation_events name y m template out /\
    Os.content (fs run.1) (final_document_path_of name y m) = Some out /\
    generate_document true jinja2 request run.1 =
      ({| fs := fs run.1;
          trace := trace run.1 ++ generation_events name y m template out;
          now := now run.1 |}, inr r).
Proof.
  intros request run r.
  refine (generate_document_idempotent true jinja2 jinja2 request sample_world run.1 r
            _ _ _).
  - apply pair_of_snd. vm_cast_no_check (@eq_refl _ (@inr exn DocumentResponse r)).
  - apply plain_nameb_spec. vm_cast_no_check (@eq_refl bool true).
  - intros template ctx _. reflexivity.
Defined.

(** ** The two passes, one after the other *)





(** ** How the generation of the twelve documents fails *)

Lemma for_months_failure pads engine name year months :
  Forall (fun m => 1 <= m <= 12) months ->
  forall acc w w2 e,
    for_months pads engine name year months acc w = (w2, inl e) ->
    exists l1 m l2 w1 files,
      months = l1 ++ m :: l2 /\
      for_months pads engine name year l1 acc w = (w1, inr files) /\
      generate_document pads engine (doc_request name year m) w1 = (w2, inl e).
Proof.
  induction 1 as [|m rest Hm _ IH]; intros acc w w2 e Hrun.
  - discriminate.
  - rewrite (for_months_cons _ _ _ _ _ _ _ _ Hm) in Hrun.
    destruct (generate_document pads engine (doc_request name year m) w)
      as [w1 [e1|r]] eqn:Hgen.
    + injection Hrun as <- <-. exists [], m, rest, w, acc. auto.
    + destruct (IH _ _ _ _ Hrun) as (l1 & m' & l2 & w1' & files & -> & Hpre & Hfail).
      exists (m :: l1), m', l2, w1', files. split; [reflexivity|].
      split; [|exact Hfail].
      rewrite (for_months_cons _ _ _ _ _ _ _ _ Hm), Hgen. exact Hpre.
Qed.

Lemma twelve_months_prefix l1 m l2 :
  seqZ 1 12 = l1 ++ m :: l2 -> 1 <= m <= 12 /\ l1 = seqZ 1 (m - 1).
Proof.
  rewrite twelve_months_seqZ. unfold twelve_months. intros H.
  do 12 (destruct l1 as [|? l1];
         [injection H as <- _; split; [lia|reflexivity]|injection H as <- H]).
  destruct l1; discriminate.
Qed.

(** X14.  [generate_all_documents] fails only through one of its
    twelve generations: there is a month [m] whose generation raised
    the exception the handler ends with, in the world it ends in, after
    the generations of the months 1 to [m-1] had succeeded in that
    order.  The exception is never the status 400 of the month check
    nor a validation error: the loop only builds months from 1 to 12. *)
Theorem generate_all_documents_failure
    (pads : bool) (engine : string -> context -> pyexn + string)
    (name : string) (oy : option Z) (w w2 : World) (e : exn) :
  generate_all_documents pads engine
    {| adr_intermediate_template_name := name; adr_year := oy |} w = (w2, inl e) ->
  let year := default (now w).1 oy in
  (exists m w1 files,
     1 <= m <= 12 /\
     for_months pads engine name year (seqZ 1 (m - 1)) [] w = (w1, inr files) /\
     files = map (final_filename_of name year) (seqZ 1 (m - 1)) /\
     generate_document pads engine (doc_request name year m) w1 = (w2, inl e))
  /\ e <> HTTPException 400 MsgMonthRange None
  /\ (forall fields, e <> ValidationError fields).
Proof.
  intros H year. unfold generate_all_documents, bind, datetime_now, ret in H.
  cbn [adr_intermediate_template_name adr_year] in H. fold year in H.
  destruct (for_months pads engine name year (seqZ 1 12) [] w)
    as [w' [e'|files']] eqn:Hrun; [|discriminate].
  injection H as <- <-.
  assert (Forall (fun k => 1 <= k <= 12) (seqZ 1 12)) as Hrange
    by (apply seqZ_in_range; lia).
  destruct (for_months_failure _ _ _ _ _ Hrange _ _ _ _ Hrun)
    as (l1 & m & l2 & w1 & files & Hsplit & Hpre & Hfail).
  destruct (twelve_months_prefix _ _ _ Hsplit) as [Hm ->].
  pose proof (generate_document_failure _ _ _ _ _ _ Hfail) as Hc. cbv zeta in Hc.
  change (month_of (doc_request name year m) w1) with m in Hc.
  split; [|split].
  - exists m, w1, files. split; [exact Hm|]. split; [exact Hpre|]. split; [|exact Hfail].
    apply for_months_success in Hpre as (_ & -> & _);
      [reflexivity | apply seqZ_in_range; lia | apply NoDup_seqZ].
  - intros ->. destruct Hc as [(Hn & _)|(_ & [(c & _ & [=] & _)|(days & _ & Hc)])];
      [tauto|].
    destruct Hc as [(_ & [=] & _)|[(_ & _ & [=] & _)
      |(template & _ & [(c & _ & [=] & _)|(out & _ & [(_ & [=])|(_ & _ & [=])])])]].
  - intros fields ->.
    destruct Hc as [(_ & [=] & _)|(_ & [(c & _ & [=] & _)|(days & _ & Hc)])].
    destruct Hc as [(_ & [=] & _)|[(_ & _ & [=] & _)
      |(template & _ & [(c & _ & [=] & _)|(out & _ & [(_ & [=])|(_ & _ & [=])])])]].
Qed.

Lemma generate_all_documents_failure_witness :
  let run := generate_all_documents true jinja2
    {| adr_intermediate_template_name := "dupont"; adr_year := None |} blocked_world in
  let e := HTTPException 500 MsgFinalWrite
             (Some (OSError "/data/final/dupont/2025/dupont_03_2025.html")) in
  let year := default (now blocked_world).1 None in
  (exists m w1 files,
     1 <= m <= 12 /\
     for_months true jinja2 "dupont" year (seqZ 1 (m - 1)) [] blocked_world
       = (w1, inr files) /\
     files = map (final_filename_of "dupont" year) (seqZ 1 (m - 1)) /\
     generate_document true jinja2 (doc_request "dupont" year m) w1 = (run.1, inl e))
  /\ e <> HTTPException 400 MsgMonthRange None
  /\ (forall fields, e <> ValidationError fields).
Proof.
  intros run e.
  refine (generate_all_documents_failure true jinja2 "dupont" None blocked_world
            run.1 e _).
  apply pair_of_snd. vm_cast_no_check (@eq_refl _ (@inl exn AllDocumentsResponse e)).
Defined.

(** ** The request models in front of the handlers *)

Lemma check_items_nil field n l : check_items field n l = [] <-> length l = n.
Proof.
  unfold check_items. case_bool_decide; split; intros; auto; try discriminate; tauto.
Qed.

Lemma check_validator_tenant_number v :
  check_validator "tenant_number" (validate_tenant_number v) = [] <->
  tenant_number_accepted v = true.
Proof.
  rewrite validate_tenant_number_spec.
  destruct (tenant_number_accepted v); cbn; split; intros; auto; discriminate.
Qed.

(** X15.  The model of the first endpoint accepts a request exactly
    when [tenant_info] has three items, [address] has four and the
    tenant number passes its validator; the request then holds the
    values as they were sent.  Any other request is refused with a
    validation error that names the offending fields and no other, and
    the endpoint answers without calling the handler: the world is as
    it was. *)
Theorem intermediate_request_accepted_iff
    (engine : string -> context -> pyexn + string)
    (base : string) (info : list string) (number : string)
    (addr : list string) (amt : PrimFloat.float) (name : string) :
  let built := IntermediateTemplateRequest_new base info number addr amt name in
  let accepted :=
    length info = 3%nat /\ tenant_number_accepted number = true
    /\ length addr = 4%nat in
  (built = inr {| itr_base_template_name := base; itr_tenant_info := info;
                  itr_tenant_number := number; itr_address := addr;
                  itr_amount := amt; itr_intermediate_template_name := name |}
   <-> accepted)
  /\ (~ accepted ->
      exists fields,
        built = inl (ValidationError fields) /\
        ("tenant_info" ∈ fields <-> length info <> 3%nat) /\
        ("tenant_number" ∈ fields <-> tenant_number_accepted number = false) /\
        ("address" ∈ fields <-> length addr <> 4%nat) /\
        (forall f, f ∈ fields -> f ∈ ["tenant_info"; "tenant_number"; "address"]) /\
        forall w,
          POST_generate_intermediate_template engine base info number addr amt name w
            = (w, inl (ValidationError fields))).
Proof.
  intros built accepted. subst built accepted.
  unfold POST_generate_intermediate_template, IntermediateTemplateRequest_new, bind, lift.
  unfold check_items. rewrite validate_tenant_number_spec.
  destruct (decide (length info = 3%nat)) as [Hi|Hi],
           (tenant_number_accepted number) eqn:Hn,
           (decide (length addr = 4%nat)) as [Ha|Ha];
    rewrite ?(bool_decide_eq_true_2 _ Hi), ?(bool_decide_eq_false_2 _ Hi),
            ?(bool_decide_eq_true_2 _ Ha), ?(bool_decide_eq_false_2 _ Ha);
    cbn [check_validator app];
    (split;
     [ split; [intros H; try discriminate H; tauto | intros (? & ? & ?); congruence]
     | intros Hno;
       first
         [ tauto
         | eexists; split; [reflexivity|];
           rewrite ?elem_of_cons, ?elem_of_nil;
           repeat split; try (intros f; rewrite ?elem_of_cons, ?elem_of_nil);
           intuition (congruence || discriminate) ] ]).
Qed.

(** X16.  Behind the request model, the month check of
    [generate_document] never fires: as long as the clock gives a month
    from 1 to 12, the endpoint never answers with the status 400 of
    that check.  A month outside 1..12 is refused by the model, with a
    validation error on [month] and the world as it was; an omitted
    month is replaced by the month of the clock. *)
Theorem month_check_unreachable
    (pads : bool) (engine : string -> context -> pyexn + string)
    (name : string) (oy om : option Z) (w w' : World) (e : exn) :
  1 <= (now w).2 <= 12 ->
  POST_generate_document pads engine name oy om w = (w', inl e) ->
  e <> HTTPException 400 MsgMonthRange None
  /\ (forall fields, e = ValidationError fields ->
        fields = ["month"] /\ w' = w /\ exists v, om = Some v /\ ~ 1 <= v <= 12).
Proof.
  intros Hnow. unfold POST_generate_document, DocumentRequest_new, bind, lift, check_month.
  assert (forall request,
            1 <= month_of request w <= 12 ->
            generate_document pads engine request w = (w', inl e) ->
            e <> HTTPException 400 MsgMonthRange None
            /\ (forall fields, e = ValidationError fields ->
                  fields = ["month"] /\ w' = w /\ exists v, om = Some v /\ ~ 1 <= v <= 12))
    as Hgen.
  { intros request Hm Hrun.
    pose proof (generate_document_failure _ _ _ _ _ _ Hrun) as Hc. cbv zeta in Hc.
    assert (e <> HTTPException 400 MsgMonthRange None
            /\ forall fields, e <> ValidationError fields) as [H400 Hval].
    { destruct Hc as [(Hn & _)|(_ & [(c & _ & -> & _)|(days & _ & Hc)])];
        [tauto|split; [discriminate|intros; discriminate]|].
      destruct Hc as [(_ & -> & _)|[(_ & _ & -> & _)
        |(template & _ & [(c & _ & -> & _)|(out & _ & [(_ & ->)|(_ & _ & ->)])])]];
        (split; [discriminate|intros; discriminate]). }
    split; [exact H400|]. intros fields ->. exfalso. exact (Hval _ eq_refl). }
  destruct om as [v|].
  - destruct ((1 <=? v) && (v <=? 12)) eqn:Ev.
    + apply Hgen. unfold month_of. cbn [dr_month default from_option id].
      apply andb_true_iff in Ev. rewrite !Z.leb_le in Ev. lia.
    + intros [= <- <-]. split; [discriminate|]. intros fields [= <-].
      split; [reflexivity|]. split; [reflexivity|]. exists v. split; [reflexivity|].
      apply andb_false_iff in Ev. rewrite !Z.leb_gt in Ev. lia.
  - apply Hgen. exact Hnow.
Qed.

Lemma month_check_unreachable_witness :
  let run := POST_generate_document true jinja2 "absent" (Some 2025) (Some 3)
               sample_world in
  let e := HTTPException 404 MsgIntermediateNotFound None in
  e <> HTTPException 400 MsgMonthRange None
  /\ (forall fields, e = ValidationError fields ->
        fields = ["month"] /\ run.1 = sample_world /\
        exists v, Some 3 = Some v /\ ~ 1 <= v <= 12).
Proof.
  intros run e.
  refine (month_check_unreachable true jinja2 "absent" (Some 2025) (Some 3)
            sample_world run.1 e _ _).
  - cbn. lia.
  - apply pair_of_snd. vm_cast_no_check (@eq_refl _ (@inl exn DocumentResponse e)).
Defined.

(** ** When the twelve documents are generated *)






(** ** Documents and the calls that wrote them *)

Lemma digit_value_char d : 0 <= d < 10 -> Py.digit_value (Py.digit_char d) = d.
Proof.
  intros Hd.
  assert (d = 0 \/ d = 1 \/ d = 2 \/ d = 3 \/ d = 4 \/ d = 5 \/ d = 6 \/ d = 7
          \/ d = 8 \/ d = 9) as H by lia.
  destruct H as [->|[->|[->|[->|[->|[->|[->|[->|[->| ->]]]]]]]]]; reflexivity.
Qed.

Lemma digit_char_not_minus d : 0 <= d < 10 -> Py.digit_char d <> "-"%char.
Proof.
  intros Hd.
  assert (d = 0 \/ d = 1 \/ d = 2 \/ d = 3 \/ d = 4 \/ d = 5 \/ d = 6 \/ d = 7
          \/ d = 8 \/ d = 9) as H by lia.
  destruct H as [->|[->|[->|[->|[->|[->|[->|[->|[->| ->]]]]]]]]]; discriminate.
Qed.

Lemma digits_append fuel : forall n acc,
  Py.digits fuel n acc = Py.digits fuel n "" +:+ acc.
Proof.
  induction fuel as [|f IH]; intros n acc; cbn [Py.digits]; [reflexivity|].
  destruct (n <? 10); [reflexivity|].
  rewrite (IH _ (String _ acc)), (IH _ (String _ "")), append_assoc. reflexivity.
Qed.

Lemma int_acc_append (s1 s2 : string) : forall a,
  Py.int_acc a (s1 +:+ s2) = Py.int_acc (Py.int_acc a s1) s2.
Proof.
  induction s1 as [|c r IH]; intros a; [reflexivity|].
  rewrite append_cons. cbn [Py.int_acc]. apply IH.
Qed.

(** Reading back the digits of a number gives the number. *)
Lemma int_acc_digits fuel : forall n,
  0 <= n < 10 ^ Z.of_nat fuel -> Py.int_acc 0 (Py.digits fuel n "") = n.
Proof.
  induction fuel as [|f IH]; intros n Hn.
  - cbn in Hn. cbn. lia.
  - cbn [Py.digits]. destruct (n <? 10) eqn:E.
    + apply Z.ltb_lt in E. cbn [Py.int_acc].
      rewrite digit_value_char by (apply Z.mod_pos_bound; lia).
      rewrite Z.mod_small by lia. lia.
    + apply Z.ltb_ge in E. rewrite digits_append, int_acc_append.
      rewrite Nat2Z.inj_succ, Z.pow_succ_r in Hn by lia.
      rewrite IH by (split; [apply Z.div_pos; lia | apply Z.div_lt_upper_bound; lia]).
      cbn [Py.int_acc].
      rewrite digit_value_char by (apply Z.mod_pos_bound; lia).
      pose proof (Z.div_mod n 10). lia.
Qed.

Lemma int_acc_str_nonneg n : 0 <= n -> Py.int_acc 0 (Py.str_nonneg n) = n.
Proof.
  intros Hn. unfold Py.str_nonneg. apply int_acc_digits. split; [exact Hn|].
  rewrite Nat2Z.inj_succ, Z2Nat.id by apply Z.log2_nonneg.
  destruct (Z.eq_dec n 0) as [->|Hne]; [reflexivity|].
  pose proof (Z.log2_spec n ltac:(lia)) as [_ Hlt].
  eapply Z.lt_le_trans; [exact Hlt|].
  apply Z.pow_le_mono_l. lia.
Qed.

Lemma str_nonneg_head n :
  exists d r, Py.str_nonneg n = String (Py.digit_char d) r /\ 0 <= d < 10.
Proof.
  unfold Py.str_nonneg. generalize (Z.to_nat (Z.log2 n)) as fuel.
  generalize "" as acc. revert n.
  intros n acc fuel. revert n acc.
  induction fuel as [|f IH]; intros n acc; cbn [Py.digits].
  - pose proof (Z.mod_pos_bound n 10 eq_refl). destruct (n <? 10); eauto.
  - pose proof (Z.mod_pos_bound n 10 eq_refl). destruct (n <? 10); [eauto|apply IH].
Qed.

(** [str] gives different integers different texts. *)
Lemma str_inj a b : Py.str a = Py.str b -> a = b.
Proof.
  unfold Py.str. intros H.
  destruct (a <? 0) eqn:Ea, (b <? 0) eqn:Eb.
  - injection H as H. apply Z.ltb_lt in Ea, Eb.
    apply (f_equal (Py.int_acc 0)) in H.
    rewrite !int_acc_str_nonneg in H by lia. lia.
  - destruct (str_nonneg_head b) as (d & r & E & Hd). rewrite E in H.
    injection H as H _. symmetry in H. destruct (digit_char_not_minus d Hd H).
  - destruct (str_nonneg_head a) as (d & r & E & Hd). rewrite E in H.
    injection H as H _. destruct (digit_char_not_minus d Hd H).
  - apply Z.ltb_ge in Ea, Eb. apply (f_equal (Py.int_acc 0)) in H.
    rewrite !int_acc_str_nonneg in H by lia. exact H.
Qed.

(** Two documents of plain names at the same location are the document
    of the same name, year and month. *)
Lemma final_location_inj name y m name' y' m' :
  1 <= m <= 12 -> 1 <= m' <= 12 ->
  final_location name' y' m' = final_location name y m ->
  name' = name /\ y' = y /\ m' = m.
Proof.
  intros Hm Hm'. unfold final_location. intros [= -> Hy Hf].
  apply str_inj in Hy as ->. split; [reflexivity|]. split; [reflexivity|].
  rewrite !final_filename_suffix in Hf. apply append_inj_l in Hf.
  eapply final_suffix_inj; eauto.
Qed.

(** A regular file found after a run of [generate_document] was there
    before, or is the document of the request, whose month is in
    range. *)
Lemma generate_document_new_file pads engine request w w' res loc c :
  generate_document pads engine request w = (w', res) ->
  fs w' !! loc = Some (File c) ->
  fs w !! loc = Some (File c) \/
  (1 <= month_of request w <= 12 /\
   exists nodes1,
     Os.resolve nodes1
       (final_document_path_of (dr_intermediate_template_name request)
          (year_of request w) (month_of request w)) = Some loc).
Proof.
  intros H Hfile. destruct res as [e|r].
  - destruct (generate_document_files _ _ _ _ _ _ _ _ H Hfile) as [Hold|_];
      [left; exact Hold|].
    left. pose proof (generate_document_failure _ _ _ _ _ _ H) as Hc. cbv zeta in Hc.
    assert (forall ok,
              Os.makedirs (fs w)
                (final_dir_of (dr_intermediate_template_name request)
                   (year_of request w))
              = (fs w', ok) -> fs w !! loc = Some (File c)) as Hmk.
    { intros ok Emk. apply (makedirs_files (fs w)
        (final_dir_of (dr_intermediate_template_name request) (year_of request w))).
      rewrite Emk. exact Hfile. }
    destruct Hc as [(_ & _ & ->)|(_ & [(c0 & _ & _ & ->)|(days & _ & Hc)])];
      [exact Hfile|exact Hfile|].
    destruct Hc as [(_ & _ & E)|[(_ & _ & _ & E)
      |(template & _ & [(c0 & _ & _ & E)|(out & _ & [(Emk & _)|(Emk & _)])])]];
      try (rewrite E in Hfile; exact Hfile); exact (Hmk _ Emk).
  - destruct (generate_document_files _ _ _ _ _ _ _ _ H Hfile) as [Hold|Hnew];
      [left; exact Hold|].
    right. split; [|exact Hnew].
    destruct (generate_document_run _ _ _ _ _ _ H) as (_ & evs & _ & Hr).
    cbv zeta in Hr. apply Hr.
Qed.

Section Absent.

Variable pads : bool.
Variables (name : string) (year month : Z).
Hypothesis Hname : plain_name name.
Hypothesis Hmonth : 1 <= month <= 12.

Lemma generate_document_keeps_absent engine request w w' res :
  generate_document pads engine request w = (w', res) ->
  plain_name (dr_intermediate_template_name request) ->
  ~ (dr_intermediate_template_name request = name /\
     year_of request w = year /\ month_of request w = month) ->
  no_document name year month w -> no_document name year month w'.
Proof.
  unfold no_document. intros H Hp Hother Hno c Hc.
  destruct (generate_document_new_file _ _ _ _ _ _ _ _ H Hc)
    as [Hold|(Hm & nodes1 & Hres)]; [exact (Hno _ Hold)|].
  apply (resolve_final _ _ _ _ _ Hp) in Hres.
  apply Hother. apply (final_location_inj name year month); auto.
Qed.

Lemma for_months_keeps_absent engine name' year' months :
  Forall (fun m => 1 <= m <= 12) months ->
  plain_name name' -> ~ (name' = name /\ year' = year) ->
  forall acc w w' res,
    for_months pads engine name' year' months acc w = (w', res) ->
    no_document name year month w -> no_document name year month w'.
Proof.
  intros Hms Hp Hother. induction Hms as [|m rest Hm _ IH]; intros acc w w' res H Hno.
  - cbn in H. injection H as <- _. exact Hno.
  - rewrite for_months_cons in H by exact Hm.
    destruct (generate_document pads engine (doc_request name' year' m) w)
      as [w1 [e|r]] eqn:Hgen.
    + injection H as <- _.
      eapply generate_document_keeps_absent; [exact Hgen|exact Hp| |exact Hno].
      intros (Hn & Hy & _). apply Hother. split; [exact Hn|exact Hy].
    + eapply IH; [exact H|].
      eapply generate_document_keeps_absent; [exact Hgen|exact Hp| |exact Hno].
      intros (Hn & Hy & _). apply Hother. split; [exact Hn|exact Hy].
Qed.

Lemma list_regular_files_fs dir w : fs (list_regular_files dir w).1 = fs w.
Proof.
  rewrite list_regular_files_value.
  destruct (listdir (fs w) dir); [|reflexivity].
  rewrite keep_files_value. reflexivity.
Qed.

Lemma after_call_keeps_absent w step :
  plain_call step -> ~ asks_for step name year month ->
  no_document name year month w ->
  no_document name year month (after_call pads w step).
Proof.
  destruct step as [today [engine request|engine request|engine request
                          |name' y' m'| |]];
    unfold plain_call, asks_for, after_call, no_document; cbn [fst snd];
    intros Hp Hother Hno.
  - destruct (generate_intermediate_template engine request (at_time today w))
      as [w' [e|r]] eqn:H; cbn [fst].
    + destruct (generate_intermediate_failure _ _ _ _ _ H) as (Hfs & _).
      intros c. rewrite Hfs. apply Hno.
    + destruct (generate_intermediate_run _ _ _ _ _ H)
        as (base & out & nodes' & _ & _ & Hwr & -> & _).
      cbn [fs at_time] in *.
      destruct (write_text_inv _ _ _ _ Hwr) as (loc & Hres & _ & ->).
      rewrite (resolve_intermediate _ _ Hp) in Hres.
      destruct (_ && _) in Hres; [|discriminate]. injection Hres as <-.
      intros c. rewrite store_lookup_insert_ne by discriminate. apply Hno.
  - destruct (generate_document pads engine request (at_time today w))
      as [w' res] eqn:H; cbn [fst].
    eapply generate_document_keeps_absent; [exact H|exact Hp|exact Hother|exact Hno].
  - unfold generate_all_documents, bind, datetime_now.
    cbn [at_time now fst snd].
    destruct (for_months pads engine (adr_intermediate_template_name request)
                (default today.1 (adr_year request)) (seqZ 1 12) []
                (at_time today w)) as [w' [e|files]] eqn:H; cbn [fst].
    + eapply (for_months_keeps_absent engine); [|exact Hp|exact Hother|exact H|exact Hno].
      apply seqZ_in_range. lia.
    + eapply (for_months_keeps_absent engine); [|exact Hp|exact Hother|exact H|exact Hno].
      apply seqZ_in_range. lia.
  - rewrite get_document_info_value. exact Hno.
  - unfold list_base_templates.
    pose proof (list_regular_files_fs BASE_TEMPLATE_DIR (at_time today w)) as Hfs.
    destruct (list_regular_files BASE_TEMPLATE_DIR (at_time today w)) as [w' [e|l]];
      cbn [fst] in *; intros c; rewrite Hfs; apply Hno.
  - unfold list_intermediate_templates.
    pose proof (list_regular_files_fs INTERMEDIATE_TEMPLATE_DIR (at_time today w)) as Hfs.
    destruct (list_regular_files INTERMEDIATE_TEMPLATE_DIR (at_time today w))
      as [w' [e|l]];
      cbn [fst] in *; intros c; rewrite Hfs; apply Hno.
Qed.

Lemma after_calls_keeps_absent history : forall w,
  Forall plain_call history ->
  (forall step, step ∈ history -> ~ asks_for step name year month) ->
  no_document name year month w ->
  no_document name year month (after_calls pads history w).
Proof.
  unfold after_calls.
  induction history as [|step rest IH]; intros w Hp Hother Hno; [exact Hno|].
  cbn [foldl]. apply Forall_cons in Hp as [Hp1 Hp].
  apply IH; [exact Hp| |].
  - intros s Hs. apply Hother. apply elem_of_cons. right. exact Hs.
  - apply after_call_keeps_absent; [exact Hp1| |exact Hno].
    apply Hother. apply elem_of_cons. left. reflexivity.
Qed.

Lemma document_not_found history w :
  Forall plain_call history ->
  (forall step, step ∈ history -> ~ asks_for step name year month) ->
  ~ file_at (fs w) (final_location name year month) ->
  (get_document_info name year month (after_calls pads history w)).2
    = inl (HTTPException 404 MsgNotGenerated None).
Proof.
  intros Hp Hother Hno.
  assert (no_document name year month (after_calls pads history w)) as Hafter.
  { apply after_calls_keeps_absent; [exact Hp|exact Hother|].
    intros c Hc. apply Hno. exists c. exact Hc. }
  rewrite get_document_info_value. cbv zeta. cbn [snd].
  replace (Os.isfile _ _) with false; [reflexivity|].
  symmetry. unfold Os.isfile.
  destruct (Os.resolve _ _) as [loc|] eqn:Hres; [|reflexivity].
  apply (resolve_final _ _ _ _ _ Hname) in Hres. subst loc.
  fold (final_location name year month).
  destruct (_ !! _) as [[|c]|] eqn:E; try reflexivity.
  destruct (Hafter _ E).
Qed.

End Absent.

(** C6 (as amended).  After a successful [generate_document],
    [get_document_info] for the same template name, year and month
    returns the file name and the path that call returned.
    [get_document_info] recomputes the file name and the path with the
    expressions [generate_document] uses, answers with them exactly when
    the path designates a regular file, and fails with 404 otherwise;
    for a template name that is a plain file name the path is
    [/data/final/<name>/<year>/<name>_<mm>_<year>.html], where [<mm>]
    is the month on two digits.  For a plain name and a month from 1 to
    12 whose document is not in the store, the answer is still 404
    after any sequence of calls of the six handlers, made at any times
    and with any engines, in which every template name written under is
    a plain name and no call asks for this document. *)
Theorem document_info_round_trip
    (pads : bool) (engine : string -> context -> pyexn + string)
    (request : DocumentRequest) (w w' : World) (r : DocumentResponse) :
  generate_document pads engine request w = (w', inr r) ->
  get_document_info (dr_intermediate_template_name request)
      (year_of request w) (month_of request w) w'
    = (log (EvIsfile (doc_path r) true) w',
       inr {| info_document := doc_file r; info_path := doc_path r |})
  /\ (forall name y m w0,
        get_document_info name y m w0 =
          let path := final_document_path_of name y m in
          let found := Os.isfile (fs w0) path in
          (log (EvIsfile path found) w0,
           if found
           then inr {| info_document := final_filename_of name y m;
                       info_path := path |}
           else inl (HTTPException 404 MsgNotGenerated None)))
  /\ (forall name y m,
        name <> "" -> no_slash name = true -> 1 <= m <= 12 ->
        final_document_path_of name y m =
          "/data/final/" +:+ name +:+ "/" +:+ Py.str y +:+ "/" +:+ name +:+ "_"
          +:+ two_digits m +:+ "_" +:+ Py.str y +:+ ".html")
  /\ (forall history w0 name y m,
        plain_name name -> 1 <= m <= 12 ->
        Forall plain_call history ->
        (forall step, step ∈ history -> ~ asks_for step name y m) ->
        ~ file_at (fs w0) (final_location name y m) ->
        (get_document_info name y m (after_calls pads history w0)).2
          = inl (HTTPException 404 MsgNotGenerated None)).
Proof.
  intros H. split; [|split; [apply get_document_info_value|split]].
  - rewrite get_document_info_value. cbv zeta.
    apply generate_document_run in H as (_ & evs & _ & _ & days & template & out
      & nodes1 & nodes2 & _ & _ & _ & _ & Hwr & -> & _ & ->).
    cbn [doc_file doc_path].
    assert (Os.isfile nodes2
              (final_document_path_of (dr_intermediate_template_name request)
                 (year_of request w) (month_of request w)) = true) as ->.
    { apply isfile_read_text. eexists. eapply read_after_write, Hwr. }
    reflexivity.
  - intros name y m Hne Hns Hm.
    rewrite (final_path_plain name y m Hne Hns), format_02d_two_digits by lia.
    reflexivity.
  - intros history w0 name y m Hp Hm Hplain Hother Hno.
    apply document_not_found; assumption.
Qed.

Lemma document_info_round_trip_witness :
  let request := doc_request "dupont" 2025 3 in
  let run := generate_document true jinja2 request sample_world in
  let r := {| doc_file := "dupont_03_2025.html";
              doc_path := "/data/final/dupont/2025/dupont_03_2025.html" |} in
  get_document_info (dr_intermediate_template_name request)
      (year_of request sample_world) (month_of request sample_world) run.1
    = (log (EvIsfile (doc_path r) true) run.1,
       inr {| info_document := doc_file r; info_path := doc_path r |})
  /\ (forall name y m w0,
        get_document_info name y m w0 =
          let path := final_document_path_of name y m in
          let found := Os.isfile (fs w0) path in
          (log (EvIsfile path found) w0,
           if found
           then inr {| info_document := final_filename_of name y m;
                       info_path := path |}
           else inl (HTTPException 404 MsgNotGenerated None)))
  /\ (forall name y m,
        name <> "" -> no_slash name = true -> 1 <= m <= 12 ->
        final_document_path_of name y m =
          "/data/final/" +:+ name +:+ "/" +:+ Py.str y +:+ "/" +:+ name +:+ "_"
          +:+ two_digits m +:+ "_" +:+ Py.str y +:+ ".html")
  /\ (forall history w0 name y m,
        plain_name name -> 1 <= m <= 12 ->
        Forall plain_call history ->
        (forall step, step ∈ history -> ~ asks_for step name y m) ->
        ~ file_at (fs w0) (final_location name y m) ->
        (get_document_info name y m (after_calls true history w0)).2
          = inl (HTTPException 404 MsgNotGenerated None)).
Proof.
  intros request run r.
  refine (document_info_round_trip true jinja2 request sample_world run.1 r _).
  apply pair_of_snd. vm_cast_no_check (@eq_refl _ (@inr exn DocumentResponse r)).
Defined.

(** C6, counterexample.  The document of ["dupont"] for March 2025 is
    not in the store and no call asks for it; the one call made asks
    for the document of ["./dupont"], a different template name that
    designates the same files, and afterwards [get_document_info] finds
    the document of ["dupont"]. *)
Lemma document_found_without_generation :
  let step := ((2025, 3), CallDocument jinja2 (doc_request "./dupont" 2025 3)) in
  fs sample_world !! final_location "dupont" 2025 3 = None
  /\ ~ asks_for step "dupont" 2025 3
  /\ (generate_document true jinja2 (doc_request "./dupont" 2025 3) sample_world).2
     = inr {| doc_file := "./dupont_03_2025.html";
              doc_path := "/data/final/./dupont/2025/./dupont_03_2025.html" |}
  /\ (get_document_info "dupont" 2025 3 (after_calls true [step] sample_world)).2
     = inr {| info_document := "dupont_03_2025.html";
              info_path := "/data/final/dupont/2025/dupont_03_2025.html" |}.
Proof.
  intros step. split; [|split; [|split]].
  - vm_cast_no_check (@eq_refl (option node) None).
  - unfold asks_for. cbn. intros ([=] & _).
  - vm_cast_no_check
      (@eq_refl _ (@inr exn DocumentResponse
         {| doc_file := "./dupont_03_2025.html";
            doc_path := "/data/final/./dupont/2025/./dupont_03_2025.html" |})).
  - vm_cast_no_check
      (@eq_refl _ (@inr exn DocumentInfo
         {| info_document := "dupont_03_2025.html";
            info_path := "/data/final/dupont/2025/dupont_03_2025.html" |})).
Qed.
